(** * image_scraper: extraction pipeline and download loop

    A shallow embedding of [image_scraper.py] (and of the start handler of
    the Streamlit front end) together with the properties of the
    specification, each proved or refuted on the embedding.

    Python values are modelled as follows.
    - [str] is [string], for the strings over the first 256 code points
      (Latin-1): one [ascii] for each code point.  Case mapping, white
      space, [repr] and the UTF-8 encoding are Python's on these strings;
      strings with other characters are outside the embedding.  [bytes]
      is [string] too, one [ascii] for each byte.
    - [int] is [Z]; the delay, a [float], is a [PyFloat]: a rational for a
      finite value, an infinity or a NaN.  It is only given to
      [time.sleep] and recorded.
    - library calls ([urllib.parse], [os.path], [re], [hashlib], string
      formatting) are embedded as CPython 3.11 on POSIX computes them.
    - an exception is a value of [exn]; a call that may raise returns a
      [result].
    - what the loop does to the outside world (requests, sleeps, files,
      console) is recorded, in order, in a list of [event]s. *)

From Stdlib Require Import List String Ascii ZArith Lia Bool Permutation QArith Sorted.
Import ListNotations.

Local Open Scope string_scope.
Local Open Scope Z_scope.

(** ** Exceptions *)

Inductive exn : Type :=
| AttributeError (msg : string)
| ValueError (msg : string)
| ImportError (msg : string)
| KeyboardInterrupt
| Exception (msg : string).    (* any other subclass of [Exception] *)

Inductive result (A : Type) : Type :=
| Ok (a : A)
| Raised (e : exn).
Arguments Ok {A} a.
Arguments Raised {A} e.

Definition bind {A B : Type} (m : result A) (k : A -> result B) : result B :=
  match m with
  | Ok a => k a
  | Raised e => Raised e
  end.

Notation "'let*' x ':=' m 'in' k" := (bind m (fun x => k))
  (at level 10, x pattern, m at level 100, k at level 200).

Fixpoint mapM {A B : Type} (f : A -> result B) (l : list A) : result (list B) :=
  match l with
  | [] => Ok []
  | a :: l' => let* b := f a in let* bs := mapM f l' in Ok (b :: bs)
  end.

(** ** Python's [str] methods

    A [string] stands for a Python [str] over the first 256 code points
    (Latin-1), one [ascii] for each code point. *)

Module PyStr.

Definition chr (n : nat) : ascii := ascii_of_nat n.
Definition ord (c : ascii) : nat := nat_of_ascii c.

Definition is_upper (c : ascii) : bool := (65 <=? ord c)%nat && (ord c <=? 90)%nat.
Definition is_lower (c : ascii) : bool := (97 <=? ord c)%nat && (ord c <=? 122)%nat.
Definition is_alpha (c : ascii) : bool := is_upper c || is_lower c.
Definition is_digit (c : ascii) : bool := (48 <=? ord c)%nat && (ord c <=? 57)%nat.

(** The upper-case letters beyond ASCII: U+00C0 to U+00DE but for the
    multiplication sign U+00D7. *)
Definition is_upper_latin1 (c : ascii) : bool :=
  (192 <=? ord c)%nat && (ord c <=? 222)%nat && negb (ord c =? 215)%nat.

Definition lower_char (c : ascii) : ascii :=
  if is_upper c || is_upper_latin1 c then chr (ord c + 32) else c.

(** [s.lower()] *)
Fixpoint lower (s : string) : string :=
  match s with
  | EmptyString => EmptyString
  | String c s' => String (lower_char c) (lower s')
  end.

Fixpoint is_prefix (p s : string) : bool :=
  match p, s with
  | EmptyString, _ => true
  | String a p', String b s' => Ascii.eqb a b && is_prefix p' s'
  | String _ _, EmptyString => false
  end.

(** [s.startswith(p)] *)
Definition startswith (s p : string) : bool := is_prefix p s.

Fixpoint rev_acc (s acc : string) : string :=
  match s with
  | EmptyString => acc
  | String c s' => rev_acc s' (String c acc)
  end.
Definition rev (s : string) : string := rev_acc s EmptyString.

(** [s.endswith(p)] *)
Definition endswith (s p : string) : bool := is_prefix (rev p) (rev s).

(** [c in s] for a one-character [c] *)
Fixpoint contains (c : ascii) (s : string) : bool :=
  match s with
  | EmptyString => false
  | String d s' => Ascii.eqb c d || contains c s'
  end.

(** [s.lstrip(chars)], [s.rstrip(chars)], [s.strip(chars)] *)
Fixpoint lstrip (chars : string) (s : string) : string :=
  match s with
  | EmptyString => EmptyString
  | String c s' => if contains c chars then lstrip chars s' else s
  end.
Definition rstrip (chars : string) (s : string) : string :=
  rev (lstrip chars (rev s)).
Definition strip (chars : string) (s : string) : string :=
  rstrip chars (lstrip chars s).

(** The characters for which [str.isspace] holds, U+0085 and U+00A0 among
    them: the set that [s.strip()] removes. *)
Definition whitespace : string :=
  String (chr 9) (String (chr 10) (String (chr 11) (String (chr 12)
  (String (chr 13) (String (chr 28) (String (chr 29) (String (chr 30)
  (String (chr 31) (String (chr 32) (String (chr 133) (String (chr 160)
  EmptyString))))))))))).
Definition strip_ws (s : string) : string := strip whitespace s.

(** [s.split(sep)] for a one-character separator: never an empty list. *)
Fixpoint split (sep : ascii) (s : string) : list string :=
  match s with
  | EmptyString => [EmptyString]
  | String c s' =>
      if Ascii.eqb c sep then EmptyString :: split sep s'
      else match split sep s' with
           | [] => [String c EmptyString]
           | w :: ws => String c w :: ws
           end
  end.

(** [s.split(sep, 1)]: the text before the first [sep] and, when there is
    one, the text after it. *)
Fixpoint partition (sep : ascii) (s : string) : string * option string :=
  match s with
  | EmptyString => (EmptyString, None)
  | String c s' =>
      if Ascii.eqb c sep then (EmptyString, Some s')
      else let (a, b) := partition sep s' in (String c a, b)
  end.

(** [sep.join(l)] *)
Fixpoint join (sep : string) (l : list string) : string :=
  match l with
  | [] => EmptyString
  | [x] => x
  | x :: l' => x ++ sep ++ join sep l'
  end.

(** [s.replace(c, "")] for each [c] of [chars] *)
Fixpoint remove_chars (chars : string) (s : string) : string :=
  match s with
  | EmptyString => EmptyString
  | String c s' =>
      if contains c chars then remove_chars chars s'
      else String c (remove_chars chars s')
  end.

(** Truthiness of a string: [if s:] *)
Definition truthy (s : string) : bool :=
  match s with EmptyString => false | _ => true end.

Fixpoint forallb (p : ascii -> bool) (s : string) : bool :=
  match s with
  | EmptyString => true
  | String c s' => p c && forallb p s'
  end.

(** [s[n:]] *)
Fixpoint drop (n : nat) (s : string) : string :=
  match n, s with
  | O, _ => s
  | S n', String _ s' => drop n' s'
  | S _, EmptyString => EmptyString
  end.

(** [s[:n]] *)
Fixpoint take (n : nat) (s : string) : string :=
  match n, s with
  | S n', String c s' => String c (take n' s')
  | _, _ => EmptyString
  end.

(** [s.rpartition(sep)[2]]: the text after the last [sep], all of [s]
    when there is none. *)
Fixpoint after_last (sep : ascii) (s : string) : string :=
  match s with
  | EmptyString => EmptyString
  | String c s' =>
      if contains sep s' then after_last sep s'
      else if Ascii.eqb c sep then s' else s
  end.

(** [c.isprintable()] *)
Definition is_printable (c : ascii) : bool :=
  ((32 <=? ord c)%nat && (ord c <=? 126)%nat)
  || ((161 <=? ord c)%nat && negb (ord c =? 173)%nat).

Definition hex_char (n : nat) : ascii :=
  if (n <? 10)%nat then chr (48 + n) else chr (87 + n).

Definition repr_char (quote c : ascii) : string :=
  if Ascii.eqb c quote || Ascii.eqb c (chr 92)
  then String (chr 92) (String c EmptyString)
  else if Ascii.eqb c (chr 9) then "\t"
  else if Ascii.eqb c (chr 10) then "\n"
  else if Ascii.eqb c (chr 13) then "\r"
  else if is_printable c then String c EmptyString
  else String (chr 92)
         (String "x" (String (hex_char (ord c / 16))
                        (String (hex_char (ord c mod 16)) EmptyString))).

Fixpoint repr_body (quote : ascii) (s : string) : string :=
  match s with
  | EmptyString => EmptyString
  | String c s' => repr_char quote c ++ repr_body quote s'
  end.

(** [repr(s)]: in single quotes, unless [s] holds one and no double
    quote. *)
Definition repr (s : string) : string :=
  let quote := if contains "'" s && negb (contains (chr 34) s) then chr 34 else "'"%char in
  String quote (repr_body quote s ++ String quote EmptyString).

End PyStr.

(** ** Integer formatting *)

Module Fmt.

Definition digit (n : nat) : ascii := PyStr.chr (48 + n).

(** Decimal digits of a natural number, most significant first; the fuel
    bounds the number of digits and [n] itself always suffices. *)
Fixpoint digits_fuel (fuel : nat) (n : nat) (acc : string) : string :=
  match fuel with
  | O => acc
  | S fuel' =>
      let acc' := String (digit (n mod 10)) acc in
      match (n / 10)%nat with
      | O => acc'
      | q => digits_fuel fuel' q acc'
      end
  end.

(** [str(n)] for [n >= 0] *)
Definition str_nat (n : nat) : string := digits_fuel (S n) n EmptyString.

(** [str(z)] *)
Definition str (z : Z) : string :=
  if z <? 0 then String "-" (str_nat (Z.abs_nat z)) else str_nat (Z.abs_nat z).

Fixpoint zeros (n : nat) : string :=
  match n with
  | O => EmptyString
  | S n' => String "0" (zeros n')
  end.

(** [format(z, "04d")]: the sign, then the digits padded with zeros on the
    left so that sign and digits fill at least four columns. *)
Definition format_04d (z : Z) : string :=
  let ds := str_nat (Z.abs_nat z) in
  if z <? 0 then String "-" (zeros (3 - String.length ds) ++ ds)
  else zeros (4 - String.length ds) ++ ds.

Definition digit_val (c : ascii) : nat := (PyStr.ord c - 48)%nat.

(** The number a string of decimal digits denotes. *)
Fixpoint value (s : string) : nat :=
  match s with
  | EmptyString => 0%nat
  | String c s' => (digit_val c * 10 ^ String.length s' + value s')%nat
  end.

(** The characters of a formatted integer. *)
Definition numeric (c : ascii) : bool := PyStr.is_digit c || Ascii.eqb c "-".

End Fmt.

(** ** [hashlib.sha1]

    SHA-1 (FIPS 180-4) over the bytes of a string; 32-bit words are values
    of [Z] reduced modulo [2^32] after every addition and rotation. *)

Module Sha1.

Definition mask32 : Z := 0xFFFFFFFF.
Definition add32 (a b : Z) : Z := Z.land (a + b) mask32.
Definition rotl32 (n : Z) (x : Z) : Z :=
  Z.land (Z.lor (Z.shiftl x n) (Z.shiftr x (32 - n))) mask32.
Definition not32 (x : Z) : Z := Z.lxor x mask32.

(** [s.encode("utf-8")]: a code point from 128 on takes two bytes. *)
Fixpoint bytes_of_string (s : string) : list Z :=
  match s with
  | EmptyString => []
  | String c s' =>
      let n := Z.of_nat (nat_of_ascii c) in
      if n <? 128 then n :: bytes_of_string s'
      else (192 + Z.shiftr n 6) :: (128 + Z.land n 63) :: bytes_of_string s'
  end.

(** Big-endian bytes of [x], [n] of them. *)
Fixpoint be_bytes (n : nat) (x : Z) : list Z :=
  match n with
  | O => []
  | S n' => Z.land (Z.shiftr x (8 * Z.of_nat n')) 0xFF :: be_bytes n' x
  end.

(** The message followed by the bit 1, zero bits up to 56 modulo 64 bytes,
    and the length of the message in bits on 8 bytes. *)
Definition pad (msg : list Z) : list Z :=
  let len := Z.of_nat (List.length msg) in
  let k := Z.to_nat ((55 - len) mod 64) in
  (msg ++ [0x80] ++ repeat 0 k ++ be_bytes 8 (8 * len))%list.

Fixpoint words (fuel : nat) (bs : list Z) : list Z :=
  match fuel, bs with
  | S fuel', b0 :: b1 :: b2 :: b3 :: bs' =>
      (Z.shiftl b0 24 + Z.shiftl b1 16 + Z.shiftl b2 8 + b3) :: words fuel' bs'
  | _, _ => []
  end.

(** The message schedule, most recent word first: given [w_{t-1} .. w_0]
    adds [n] further words. *)
Fixpoint schedule (n : nat) (ws : list Z) : list Z :=
  match n with
  | O => ws
  | S n' =>
      let w := rotl32 1 (Z.lxor (Z.lxor (nth 2 ws 0) (nth 7 ws 0))
                                (Z.lxor (nth 13 ws 0) (nth 15 ws 0))) in
      schedule n' (w :: ws)
  end.

Definition f_k (t : nat) (b c d : Z) : Z * Z :=
  if (t <? 20)%nat then (Z.lor (Z.land b c) (Z.land (not32 b) d), 0x5A827999)
  else if (t <? 40)%nat then (Z.lxor (Z.lxor b c) d, 0x6ED9EBA1)
  else if (t <? 60)%nat then
    (Z.lor (Z.lor (Z.land b c) (Z.land b d)) (Z.land c d), 0x8F1BBCDC)
  else (Z.lxor (Z.lxor b c) d, 0xCA62C1D6).

Definition regs : Type := Z * Z * Z * Z * Z.

Fixpoint rounds (t : nat) (ws : list Z) (r : regs) : regs :=
  match ws with
  | [] => r
  | w :: ws' =>
      let '(a, b, c, d, e) := r in
      let (f, k) := f_k t b c d in
      let tmp := add32 (add32 (add32 (add32 (rotl32 5 a) f) e) k) w in
      rounds (S t) ws' (tmp, a, rotl32 30 b, c, d)
  end.

Definition compress (h : regs) (block : list Z) : regs :=
  let ws := List.rev (schedule 64 (List.rev (words 16 block))) in
  let '(h0, h1, h2, h3, h4) := h in
  let '(a, b, c, d, e) := rounds 0 ws h in
  (add32 h0 a, add32 h1 b, add32 h2 c, add32 h3 d, add32 h4 e).

Fixpoint blocks (fuel : nat) (bs : list Z) (h : regs) : regs :=
  match fuel, bs with
  | S fuel', _ :: _ => blocks fuel' (skipn 64 bs) (compress h (firstn 64 bs))
  | _, _ => h
  end.

Definition init : regs :=
  (0x67452301, 0xEFCDAB89, 0x98BADCFE, 0x10325476, 0xC3D2E1F0).

Definition hex_digit (n : Z) : ascii :=
  if n <? 10 then PyStr.chr (Z.to_nat (48 + n)) else PyStr.chr (Z.to_nat (87 + n)).

Fixpoint hex_of_bytes (bs : list Z) : string :=
  match bs with
  | [] => EmptyString
  | b :: bs' =>
      String (hex_digit (Z.shiftr b 4)) (String (hex_digit (Z.land b 0xF))
        (hex_of_bytes bs'))
  end.

(** [hashlib.sha1(s.encode("utf-8")).hexdigest()] *)
Definition hexdigest (s : string) : string :=
  let bs := pad (bytes_of_string s) in
  let '(h0, h1, h2, h3, h4) := blocks (List.length bs) bs init in
  hex_of_bytes (be_bytes 4 h0 ++ be_bytes 4 h1 ++ be_bytes 4 h2
                ++ be_bytes 4 h3 ++ be_bytes 4 h4)%list.

End Sha1.

(** ** [ipaddress]: the strings that denote an address *)

Module Ipaddress.

Definition is_hex (c : ascii) : bool :=
  PyStr.is_digit c
  || ((97 <=? PyStr.ord c)%nat && (PyStr.ord c <=? 102)%nat)
  || ((65 <=? PyStr.ord c)%nat && (PyStr.ord c <=? 70)%nat).

(** [_parse_octet] succeeds: decimal digits, three at most, no leading
    zero, 255 at most. *)
Definition octet_ok (s : string) : bool :=
  PyStr.truthy s
  && PyStr.forallb PyStr.is_digit s
  && (String.length s <=? 3)%nat
  && (String.eqb s "0" || negb (PyStr.startswith s "0"))
  && (Fmt.value s <=? 255)%nat.

(** [IPv4Address(s)] succeeds. *)
Definition ipv4_ok (s : string) : bool :=
  negb (PyStr.contains "/" s)
  && match PyStr.split "." s with
     | [a; b; c; d] => octet_ok a && octet_ok b && octet_ok c && octet_ok d
     | _ => false
     end.

(** [_parse_hextet] succeeds: one to four hexadecimal digits. *)
Definition hextet_ok (s : string) : bool :=
  PyStr.truthy s && PyStr.forallb is_hex s && (String.length s <=? 4)%nat.

(** The positions, from 1, of the empty parts strictly between the two
    ends. *)
Fixpoint empty_parts (i : nat) (parts : list string) : list nat :=
  match parts with
  | [] | [_] => []
  | p :: parts' =>
      if PyStr.truthy p then empty_parts (S i) parts'
      else i :: empty_parts (S i) parts'
  end.

(** The parts of an address once a dotted suffix, if valid, is replaced by
    its two hextets; [None] when the suffix is not an IPv4 address. *)
Definition with_suffix (parts : list string) : option (list string) :=
  let last := List.last parts EmptyString in
  if PyStr.contains "." last
  then if ipv4_ok last then Some (List.removelast parts ++ ["0"; "0"])%list
       else None
  else Some parts.

(** [_ip_int_from_string] of [IPv6Address] succeeds on the parts. *)
Definition hextets_ok (parts : list string) : bool :=
  let n := List.length parts in
  let first := PyStr.truthy (List.hd EmptyString parts) in
  let last := PyStr.truthy (List.last parts EmptyString) in
  match empty_parts 1 (List.tl parts) with
  | [] => (n =? 8)%nat && List.forallb hextet_ok parts
  | [skip] =>
      let hi := if first then skip else 0%nat in
      let lo := if last then (n - skip - 1)%nat else 0%nat in
      (if first then List.forallb hextet_ok (List.firstn skip parts)
       else (skip =? 1)%nat)
      && (if last then List.forallb hextet_ok (List.skipn (S skip) parts)
          else (n - skip - 1 =? 1)%nat)
      && (hi + lo <=? 7)%nat
  | _ => false
  end.

(** [IPv6Address(s)] succeeds. *)
Definition ipv6_ok (s : string) : bool :=
  negb (PyStr.contains "/" s)
  && let (addr, scope_id) := PyStr.partition "%" s in
     match scope_id with
     | Some scope => PyStr.truthy scope && negb (PyStr.contains "%" scope)
     | None => true
     end
     && PyStr.truthy addr
     && let parts := PyStr.split ":" addr in
        (3 <=? List.length parts)%nat
        && match with_suffix parts with
           | Some parts' => (List.length parts' <=? 9)%nat && hextets_ok parts'
           | None => false
           end.

End Ipaddress.

(** ** [urllib.parse]

    [urlsplit], [urlparse], [urlunparse] and [urljoin] of the
    [urllib.parse] of CPython 3.11, for [str] arguments.  [urlsplit] raises
    [ValueError] on a network location with one square bracket and not the
    other, and on one whose bracketed host is neither an IPv6 address nor
    an IPvFuture one. *)

Module Urllib.

Record ParseResult : Type := mkParseResult {
  scheme : string;
  netloc : string;
  path : string;
  params : string;
  query : string;
  fragment : string
}.

Definition uses_relative : list string :=
  [""; "ftp"; "http"; "gopher"; "nntp"; "imap"; "wais"; "file"; "https";
   "shttp"; "mms"; "prospero"; "rtsp"; "rtspu"; "sftp"; "svn"; "svn+ssh";
   "ws"; "wss"].

Definition uses_netloc : list string :=
  [""; "ftp"; "http"; "gopher"; "nntp"; "telnet"; "imap"; "wais"; "file";
   "mms"; "https"; "shttp"; "snews"; "prospero"; "rtsp"; "rtspu"; "rsync";
   "svn"; "svn+ssh"; "sftp"; "nfs"; "git"; "git+ssh"; "ws"; "wss"].

Definition uses_params : list string :=
  [""; "ftp"; "hdl"; "prospero"; "http"; "imap"; "https"; "shttp"; "rtsp";
   "rtspu"; "sip"; "sips"; "mms"; "sftp"; "tel"].

Definition mem (x : string) (l : list string) : bool :=
  existsb (String.eqb x) l.

Definition scheme_char (c : ascii) : bool :=
  PyStr.is_alpha c || PyStr.is_digit c || PyStr.contains c "+-.".

(** The C0 control characters and the space. *)
Definition c0_control_or_space : string :=
  string_of_list_ascii (List.map PyStr.chr (seq 0 33)).

Definition unsafe_bytes : string :=
  String (PyStr.chr 9) (String (PyStr.chr 13) (String (PyStr.chr 10) EmptyString)).

(** The text up to the first character of [stops], and the rest. *)
Fixpoint span_until (stops : string) (s : string) : string * string :=
  match s with
  | EmptyString => (EmptyString, EmptyString)
  | String c s' =>
      if PyStr.contains c stops then (EmptyString, s)
      else let (a, b) := span_until stops s' in (String c a, b)
  end.

Definition take_scheme (url default : string) : string * string :=
  match PyStr.partition ":" url with
  | (String c0 rest as before, Some after) =>
      if PyStr.is_alpha c0 && PyStr.forallb scheme_char before
      then (PyStr.lower before, after)
      else (default, url)
  | _ => (default, url)
  end.

(** The text after the longest prefix of characters satisfying [p]. *)
Fixpoint drop_while (p : ascii -> bool) (s : string) : string :=
  match s with
  | EmptyString => EmptyString
  | String c s' => if p c then drop_while p s' else s
  end.

(** A match of [\Av[a-fA-F0-9]+\..+\Z] *)
Definition ipvfuture_ok (hostname : string) : bool :=
  match hostname with
  | String "v" (String h _ as rest) =>
      Ipaddress.is_hex h
      && match drop_while Ipaddress.is_hex rest with
         | String "." (String _ _ as tail) => negb (PyStr.contains (PyStr.chr 10) tail)
         | _ => false
         end
  | _ => false
  end.

Definition check_bracketed_host (hostname : string) : result unit :=
  if PyStr.startswith hostname "v" then
    if ipvfuture_ok hostname then Ok tt
    else Raised (ValueError "IPvFuture address is invalid")
  else if Ipaddress.ipv4_ok hostname
  then Raised (ValueError "An IPv4 address cannot be in brackets")
  else if Ipaddress.ipv6_ok hostname then Ok tt
  else Raised (ValueError (PyStr.repr hostname
                           ++ " does not appear to be an IPv4 or IPv6 address")).

Definition check_bracketed_netloc (netloc : string) : result unit :=
  let hostname_and_port := PyStr.after_last "@" netloc in
  match PyStr.partition "[" hostname_and_port with
  | (before_bracket, Some bracketed) =>
      (* No data is allowed before a bracket. *)
      if PyStr.truthy before_bracket then Raised (ValueError "Invalid IPv6 URL")
      else
        let (hostname, port) := PyStr.partition "]" bracketed in
        match port with
        | Some (String c _) =>
            if Ascii.eqb c ":" then check_bracketed_host hostname
            else Raised (ValueError "Invalid IPv6 URL")
        | _ => check_bracketed_host hostname
        end
  | (_, None) =>
      check_bracketed_host (fst (PyStr.partition ":" hostname_and_port))
  end.

(** [urlsplit(url, scheme)].  The check of the network location under NFKC
    normalization is left out: no character among the first 256 code
    points normalizes to one of ["/?#@:"], so that it never raises on
    these strings. *)
Definition urlsplit (url default_scheme : string)
  : result (string * string * string * string * string) :=
  let url := PyStr.lstrip c0_control_or_space url in
  let default_scheme := PyStr.strip c0_control_or_space default_scheme in
  let url := PyStr.remove_chars unsafe_bytes url in
  let default_scheme := PyStr.remove_chars unsafe_bytes default_scheme in
  let (scheme, url) := take_scheme url default_scheme in
  let* (netloc, url) :=
    if PyStr.startswith url "//" then
      let (netloc, rest) := span_until "/?#" (PyStr.drop 2 url) in
      if (PyStr.contains "[" netloc && negb (PyStr.contains "]" netloc))
         || (PyStr.contains "]" netloc && negb (PyStr.contains "[" netloc))
      then Raised (ValueError "Invalid IPv6 URL")
      else if PyStr.contains "[" netloc && PyStr.contains "]" netloc
      then let* _ := check_bracketed_netloc netloc in Ok (netloc, rest)
      else Ok (netloc, rest)
    else Ok (EmptyString, url) in
  let (url, fragment) :=
    match PyStr.partition "#" url with
    | (a, Some b) => (a, b)
    | (_, None) => (url, EmptyString)
    end in
  let (url, query) :=
    match PyStr.partition "?" url with
    | (a, Some b) => (a, b)
    | (_, None) => (url, EmptyString)
    end in
  Ok (scheme, netloc, url, query, fragment).

(** The text after the last ["/"] of [s], when there is one. *)
Definition after_last_slash (s : string) : option string :=
  match List.rev (PyStr.split "/" s) with
  | last :: _ :: _ => Some last
  | _ => None
  end.

Definition splitparams (url : string) : string * string :=
  match after_last_slash url with
  | Some tail =>
      match PyStr.partition ";" tail with
      | (a, Some b) =>
          (PyStr.take (String.length url - String.length tail) url ++ a, b)
      | (_, None) => (url, EmptyString)
      end
  | None =>
      match PyStr.partition ";" url with
      | (a, Some b) => (a, b)
      | (a, None) => (a, EmptyString)
      end
  end.

Definition urlparse (url default_scheme : string) : result ParseResult :=
  let* (scheme, netloc, url, query, fragment) := urlsplit url default_scheme in
  let (url, params) :=
    if mem scheme uses_params && PyStr.contains ";" url
    then splitparams url else (url, EmptyString) in
  Ok (mkParseResult scheme netloc url params query fragment).

Definition urlunsplit (scheme netloc url query fragment : string) : string :=
  let url :=
    if PyStr.truthy netloc
       || (PyStr.truthy scheme && mem scheme uses_netloc
           && negb (PyStr.startswith url "//"))
    then
      let url := if PyStr.truthy url && negb (PyStr.startswith url "/")
                 then "/" ++ url else url in
      "//" ++ netloc ++ url
    else url in
  let url := if PyStr.truthy scheme then scheme ++ ":" ++ url else url in
  let url := if PyStr.truthy query then url ++ "?" ++ query else url in
  if PyStr.truthy fragment then url ++ "#" ++ fragment else url.

Definition urlunparse (r : ParseResult) : string :=
  let url := if PyStr.truthy (params r) then path r ++ ";" ++ params r
             else path r in
  urlunsplit (scheme r) (netloc r) url (query r) (fragment r).

(** [segments[1:-1] = filter(None, segments[1:-1])] *)
Fixpoint filter_keep_last (l : list string) : list string :=
  match l with
  | [] => []
  | [x] => [x]
  | x :: r => if PyStr.truthy x then x :: filter_keep_last r
              else filter_keep_last r
  end.
Definition filter_middle (l : list string) : list string :=
  match l with
  | [] => []
  | x :: r => x :: filter_keep_last r
  end.

(** The loop over [segments]; the stack holds [resolved_path] reversed. *)
Fixpoint resolve (segments : list string) (stack : list string) : list string :=
  match segments with
  | [] => List.rev stack
  | seg :: rest =>
      if String.eqb seg ".." then resolve rest (List.tl stack)
      else if String.eqb seg "." then resolve rest stack
      else resolve rest (seg :: stack)
  end.

Definition urljoin (base url : string) : result string :=
  if negb (PyStr.truthy base) then Ok url
  else if negb (PyStr.truthy url) then Ok base
  else
    let* b := urlparse base EmptyString in
    let* u := urlparse url (scheme b) in
    if negb (String.eqb (scheme u) (scheme b)) || negb (mem (scheme u) uses_relative)
    then Ok url
    else if mem (scheme u) uses_netloc && PyStr.truthy (netloc u)
    then Ok (urlunparse u)
    else
      let netloc' := if mem (scheme u) uses_netloc then netloc b else netloc u in
      if negb (PyStr.truthy (path u)) && negb (PyStr.truthy (params u))
      then
        let query' := if PyStr.truthy (query u) then query u else query b in
        Ok (urlunparse (mkParseResult (scheme u) netloc' (path b) (params b)
                                      query' (fragment u)))
      else
        let base_parts := PyStr.split "/" (path b) in
        let base_parts :=
          if PyStr.truthy (List.last base_parts EmptyString)
          then List.removelast base_parts else base_parts in
        let segments :=
          if PyStr.startswith (path u) "/" then PyStr.split "/" (path u)
          else filter_middle (base_parts ++ PyStr.split "/" (path u))%list in
        let resolved_path := resolve segments [] in
        let last_seg := List.last segments EmptyString in
        let resolved_path :=
          if String.eqb last_seg "." || String.eqb last_seg ".."
          then (resolved_path ++ [EmptyString])%list else resolved_path in
        let joined := PyStr.join "/" resolved_path in
        let path' := if PyStr.truthy joined then joined else "/" in
        Ok (urlunparse (mkParseResult (scheme u) netloc' path' (params u)
                                      (query u) (fragment u))).

End Urllib.

(** ** [os.path] (POSIX) *)

Module OsPath.

(** Whether some character of [s] is not a dot. *)
Definition has_non_dot (s : string) : bool :=
  negb (PyStr.forallb (Ascii.eqb ".") s).

(** [os.path.splitext(p)[1]]: the text from the last dot of the last
    component on, unless only dots precede it in that component. *)
Definition splitext_ext (p : string) : string :=
  let name := List.last (PyStr.split "/" p) EmptyString in
  match List.rev (PyStr.split "." name) with
  | last :: (_ :: _) as before_rev =>
      let stem_len := (String.length name - String.length last - 1)%nat in
      if has_non_dot (PyStr.take stem_len name)
      then "." ++ last else EmptyString
  | _ => EmptyString
  end.

(** [os.path.join(a, b)] *)
Definition join (a b : string) : string :=
  if PyStr.startswith b "/" then b
  else if negb (PyStr.truthy a) || PyStr.endswith a "/" then a ++ b
  else a ++ "/" ++ b.

End OsPath.

(** ** The parsed document

    [BeautifulSoup(html, "html.parser")] is a library call; the embedding
    takes its result as a value: the tags of the parse tree in document
    order, each with its name and its attribute dictionary (lower-cased
    names, as the parser produces them). *)

Module Bs4.

Record Tag : Type := mkTag {
  name : string;
  attrs : list (string * string)
}.

Definition soup : Type := list Tag.

(** [tag.get(key)] *)
Fixpoint lookup (key : string) (l : list (string * string)) : option string :=
  match l with
  | [] => None
  | (k, v) :: l' => if String.eqb k key then Some v else lookup key l'
  end.
Definition get (t : Tag) (key : string) : option string := lookup key (attrs t).

(** [soup.find_all(nm)] *)
Definition find_all (doc : soup) (nm : string) : list Tag :=
  filter (fun t => String.eqb (name t) nm) doc.

(** [soup.find(nm, attrs={key: value})] *)
Definition find (doc : soup) (nm key value : string) : option Tag :=
  List.find (fun t => String.eqb (name t) nm &&
                      match get t key with
                      | Some v => String.eqb v value
                      | None => false
                      end) doc.

End Bs4.

(** ** The regular expression of the inline-style rule

    The pattern is the raw string [url\\(([^)]+)\\)] under [re.IGNORECASE].
    In a raw string each [\\] is two characters, which the regular
    expression reads as one literal backslash; the parenthesis after it is
    therefore not escaped and opens a group.  The pattern is: the letters
    [url], a backslash, group 1 made of group 2 (one or more characters
    other than a closing parenthesis) and a backslash. *)

Module Re.

Definition backslash : ascii := PyStr.chr 92.

(** Greedy [[^)]+] followed by a backslash: the text of [run] before its
    last backslash, when that backslash is not its first character. *)
Definition before_last_backslash (run : string) : option string :=
  match List.rev (PyStr.split backslash run) with
  | last :: _ :: _ =>
      match (String.length run - String.length last - 1)%nat with
      | O => None
      | j => Some (PyStr.take j run)
      end
  | _ => None
  end.

(** A match starting at the head of [s]: its length and its two groups. *)
Definition match_here (s : string) : option (nat * (string * string)) :=
  if String.eqb (PyStr.lower (PyStr.take 3 s)) "url"
     && PyStr.startswith (PyStr.drop 3 s) (String backslash EmptyString)
  then
    let run := fst (Urllib.span_until ")" (PyStr.drop 4 s)) in
    match before_last_backslash run with
    | Some g2 =>
        Some ((4 + String.length g2 + 1)%nat,
              (g2 ++ String backslash EmptyString, g2))
    | None => None
    end
  else None.

(** [re.findall(pattern, s)]: the matches from left to right, none
    overlapping; with two groups each match is the pair of its groups.
    [skip] counts the characters still covered by the previous match. *)
Fixpoint findall_from (skip : nat) (s : string) : list (string * string) :=
  match s with
  | EmptyString => []
  | String _ s' =>
      match skip with
      | S k => findall_from k s'
      | O =>
          match match_here s with
          | Some (len, groups) => groups :: findall_from (len - 1) s'
          | None => findall_from 0 s'
          end
      end
  end.

Definition findall (s : string) : list (string * string) := findall_from 0 s.

End Re.

(** ** Python's [set] and [dict.fromkeys]

    A [set] of strings is modelled by the sequence of its insertions.
    Iterating a CPython set visits the slots of a hash table, and the hash
    of a [str] is salted per process: the order is a property of the run,
    not of the program.  [PySet] packages one such order: any enumeration of
    the distinct inserted elements. *)

Fixpoint mem_string (x : string) (l : list string) : bool :=
  match l with
  | [] => false
  | y :: l' => String.eqb x y || mem_string x l'
  end.

(** [list(dict.fromkeys(l))]: the first occurrence of each element, in order. *)
Fixpoint fromkeys_from (seen : list string) (l : list string) : list string :=
  match l with
  | [] => []
  | x :: l' =>
      if mem_string x seen then fromkeys_from seen l'
      else x :: fromkeys_from (x :: seen) l'
  end.
Definition dict_fromkeys (l : list string) : list string := fromkeys_from [] l.

Record PySet : Type := mkPySet {
  set_iter : list string -> list string;
  set_iter_perm : forall log, Permutation (set_iter log) (dict_fromkeys log)
}.

(** ** Candidate extraction ([extract_image_urls]) *)

Definition img_attrs : list string :=
  ["src"; "data-src"; "data-original"; "data-lazy"; "data-srcset";
   "data-original-src"].

Definition meta_props : list string :=
  ["og:image"; "twitter:image"; "twitter:image:src"].

(** [a or b] on optional strings *)
Definition py_or (a b : option string) : option string :=
  match a with
  | Some v => if PyStr.truthy v then a else b
  | None => b
  end.

Definition truthy_list (o : option string) : list string :=
  match o with
  | Some v => if PyStr.truthy v then [v] else []
  | None => []
  end.

(** The entries of a [srcset] value: for each comma-separated part, the
    token before the first space. *)
Definition srcset_urls (srcset : string) : list string :=
  flat_map (fun part =>
              let url_part :=
                PyStr.strip_ws (hd EmptyString (PyStr.split " " (PyStr.strip_ws part))) in
              if PyStr.truthy url_part then [url_part] else [])
           (PyStr.split "," srcset).

(** The list [candidates] built for one [<img>]. *)
Definition img_candidates (img : Bs4.Tag) : list string :=
  (flat_map (fun attr => truthy_list (Bs4.get img attr)) img_attrs
   ++ match py_or (Bs4.get img "srcset") (Bs4.get img "data-srcset") with
      | Some srcset => if PyStr.truthy srcset then srcset_urls srcset else []
      | None => []
      end)%list.

(** The references of the metadata rule, in the order of [meta_props]. *)
Definition meta_candidates (doc : Bs4.soup) : list string :=
  flat_map (fun prop =>
              match
                match Bs4.find doc "meta" "property" prop with
                | Some t => Some t
                | None => Bs4.find doc "meta" "name" prop
                end
              with
              | Some tag =>
                  match Bs4.get tag "content" with
                  | Some c => if PyStr.truthy c then [PyStr.strip_ws c] else []
                  | None => []
                  end
              | None => []
              end) meta_props.

Definition allowed_exts : list string :=
  [".jpg"; ".jpeg"; ".png"; ".gif"; ".webp"; ".bmp"; ".svg"; ".tiff"; ".tif";
   ".avif"].

Section Extraction.

(** The parser and the iteration order of this run's sets. *)
Variable BeautifulSoup : string -> Bs4.soup.
Variable urls_set : PySet.

(** The references in the order the two parsed-markup rules find them. *)
Definition discovered (html : string) : list string :=
  let soup := BeautifulSoup html in
  (flat_map img_candidates (Bs4.find_all soup "img") ++ meta_candidates soup)%list.

Definition extract_image_urls (html base_url : string) : result (list string) :=
  let soup := BeautifulSoup html in
  (* urls = set(): the insertions, in order *)
  let* img_urls :=
    mapM (Urllib.urljoin base_url)
         (flat_map img_candidates (Bs4.find_all soup "img")) in
  let* meta_urls := mapM (Urllib.urljoin base_url) (meta_candidates soup) in
  let urls := (img_urls ++ meta_urls)%list in
  (* style_urls holds pairs of groups; the first [su.strip] raises *)
  let* _ :=
    match Re.findall html with
    | [] => Ok tt
    | _ :: _ => Raised (AttributeError "'tuple' object has no attribute 'strip'")
    end in
  let* filtered :=
    mapM (fun u =>
            let* parsed := Urllib.urlparse u EmptyString in
            let ext := PyStr.lower (OsPath.splitext_ext (Urllib.path parsed)) in
            if PyStr.truthy ext && mem_string ext allowed_exts
            then Ok u
            else Ok u)
         (set_iter urls_set urls) in
  Ok (dict_fromkeys filtered).

End Extraction.

(** ** Responses, the runtime and the observable events *)

Record Response : Type := mkResponse {
  status_code : Z;
  (** [resp.headers], looked up without regard to case *)
  headers : list (string * string);
  (** [resp.content]: reading the body of a streamed response may raise *)
  content : result string
}.

(** [resp.headers.get(key, default)] *)
Fixpoint headers_get (hs : list (string * string)) (key default : string) : string :=
  match hs with
  | [] => default
  | (k, v) :: hs' =>
      if String.eqb (PyStr.lower k) (PyStr.lower key) then v
      else headers_get hs' key default
  end.

(** A Python float: a finite value, given exactly, an infinity or a NaN. *)
Inductive PyFloat : Type :=
| Finite (q : Q)
| PosInf
| NegInf
| NaN.

(** The three calls of [time.sleep] in the download loop: after a
    dimension rejection (line 207), after a save (line 220) and in the
    handler of [except Exception] (line 228). *)
Inductive sleep_site : Type :=
| SleepFiltered
| SleepSaved
| SleepSkipped.

(** What a run depends on outside the program. *)
Record Runtime : Type := mkRuntime {
  (** whether [from PIL import Image] succeeded at import time *)
  PIL_AVAILABLE : bool;
  (** [Image.open(BytesIO(content)).size] *)
  image_size : string -> result (Z * Z);
  (** [mimetypes.guess_extension] *)
  guess_extension : string -> option string;
  (** [session.get(img_url, stream=True, timeout=timeout)] for the
      candidate at position [i] (counted from 1) *)
  session_get : nat -> string -> result Response;
  (** [open(filepath, "wb")] followed by [f.write(content)] *)
  write_file : string -> string -> result unit;
  (** [os.makedirs(path, exist_ok=True)] *)
  makedirs : string -> result unit;
  (** the wait of [time.sleep(seconds)], once the length is accepted, at
      one of the loop's calls for the candidate at position [i]: it
      returns, or it ends with an exception (an interrupt from the
      keyboard, an error of the system's clock) *)
  sleep : nat -> sleep_site -> PyFloat -> result unit
}.

Inductive event : Type :=
| EvMakedirs (path : string)
| EvGet (i : nat) (url : string)
| EvWrite (filepath content : string) (ok : bool)
| EvSleep (seconds : PyFloat)
| EvPrint (msg : string)
(* the Streamlit front end *)
| EvLog (msg : string)
| EvStError (msg : string)
| EvStWarning (msg : string)
| EvStInfo (msg : string)
| EvStException (e : exn)
| EvProgress (i total : nat)
| EvDownloadButton.

(** ** The helpers of the download loop *)

Definition content_type_is_image (resp : Response) : bool :=
  let ctype := PyStr.lower (headers_get (headers resp) "Content-Type" EmptyString) in
  PyStr.startswith ctype "image/".

Definition infer_extension (rt : Runtime) (resp : Response) (url : string)
  : result string :=
  (* Prefer URL extension *)
  let* parsed := Urllib.urlparse url EmptyString in
  let ext := PyStr.lower (OsPath.splitext_ext (Urllib.path parsed)) in
  if PyStr.truthy ext then Ok ext
  else
    (* Fall back to MIME type *)
    let ctype := PyStr.lower (headers_get (headers resp) "Content-Type" EmptyString) in
    match
      if PyStr.truthy ctype
      then guess_extension rt (PyStr.strip_ws (hd EmptyString (PyStr.split ";" ctype)))
      else None
    with
    | Some ext' => if PyStr.truthy ext' then Ok ext' else Ok ".jpg"
    | None => Ok ".jpg"
    end.

Definition same_domain (base_url target_url : string) : result bool :=
  let* pb := Urllib.urlparse base_url EmptyString in
  let* pt := Urllib.urlparse target_url EmptyString in
  let b := Urllib.netloc pb in
  let t := Urllib.netloc pt in
  Ok (String.eqb b t || PyStr.endswith t ("." ++ b)).

Definition hash_to_name (url : string) (idx : Z) (ext : string) : string :=
  let h := PyStr.take 12 (Sha1.hexdigest url) in
  Fmt.format_04d idx ++ "_" ++ h ++ ext.

(** ** The download loop ([download_images]) *)

Record Config : Type := mkConfig {
  base_url : string;
  out_dir : string;
  max_images : Z;
  delay : PyFloat;
  timeout : Z;
  only_same_domain : bool;
  min_w : Z;
  min_h : Z
}.

(** Truthiness of an integer *)
Definition nonzero (z : Z) : bool := negb (z =? 0).

(** [str(e)] *)
Definition exn_str (e : exn) : string :=
  match e with
  | AttributeError m | ValueError m | ImportError m | Exception m => m
  | KeyboardInterrupt => EmptyString
  end.

(** Whether [except Exception] catches [e]. *)
Definition is_Exception (e : exn) : bool :=
  match e with
  | KeyboardInterrupt => false
  | _ => true
  end.

(** The lengths that [time.sleep] refuses before any wait.  The length is
    converted to nanoseconds in a C [_PyTime_t], a signed 64-bit integer: a
    NaN is a [ValueError]; an infinity, or a product with 10^9 that rounds
    to a float beyond 2^63 in size (one over 2^63 + 1024), is an
    [OverflowError]; what is left and negative is a [ValueError]. *)
Definition ns_limit : Q := inject_Z (2 ^ 63 + 1024).

Definition sleep_overflows (q : Q) : bool :=
  negb (Qle_bool (q * inject_Z (10 ^ 9)) ns_limit)
  || negb (Qle_bool (- ns_limit) (q * inject_Z (10 ^ 9))).

Definition sleep_rejects (seconds : PyFloat) : option exn :=
  match seconds with
  | NaN => Some (ValueError "Invalid value NaN (not a number)")
  | PosInf | NegInf =>
      (* OverflowError *)
      Some (Exception "timestamp too large to convert to C _PyTime_t")
  | Finite q =>
      if sleep_overflows q
      then Some (Exception "timestamp too large to convert to C _PyTime_t")
      else if Qle_bool 0 q then None
      else Some (ValueError "sleep length must be non-negative")
  end.

(** [time.sleep(seconds)] at one of the loop's calls: the check of the
    length, then the wait. *)
Definition time_sleep (rt : Runtime) (i : nat) (site : sleep_site)
           (seconds : PyFloat) : result unit :=
  match sleep_rejects seconds with
  | Some e => Raised e
  | None => sleep rt i site seconds
  end.

(** How one iteration of the loop ends. *)
Inductive flow : Type :=
| Next (count : Z)      (* falls through or [continue]s, with the new count *)
| Break (count : Z)     (* [break] *)
| Propagate (e : exn).  (* an exception leaves [download_images] *)

Section Download.

Variable rt : Runtime.
Variable cfg : Config.

(** The dimension filter: whether the decoded size is under a configured
    minimum.  A body that Pillow cannot open is not under any. *)
Definition too_small (body : string) : result bool :=
  if PIL_AVAILABLE rt && (nonzero (min_w cfg) || nonzero (min_h cfg)) then
    match image_size rt body with
    | Ok (w, h) =>
        Ok ((nonzero (min_w cfg) && (w <? min_w cfg))
            || (nonzero (min_h cfg) && (h <? min_h cfg)))
    | Raised e => if is_Exception e then Ok false else Raised e
    end
  else Ok false.

(** The end of the [try], once the filters are passed: the file is named
    by the next index and written, the count grows, the loop sleeps. *)
Definition save (i : nat) (img_url : string) (count : Z) (body ext : string)
  : option exn * Z * list event :=
  let get := EvGet i img_url in
  let filename := hash_to_name img_url (count + 1) ext in
  let filepath := OsPath.join (out_dir cfg) filename in
  match write_file rt filepath body with
  | Raised e => (Some e, count, [get; EvWrite filepath body false])
  | Ok _ =>
      let count := count + 1 in
      let saved :=
        EvPrint ("[" ++ Fmt.str count ++ "] Saved " ++ img_url
                 ++ " -> " ++ filepath) in
      match time_sleep rt i SleepSaved (delay cfg) with
      | Raised e => (Some e, count, [get; EvWrite filepath body true; saved])
      | Ok _ =>
          (None, count,
           [get; EvWrite filepath body true; saved; EvSleep (delay cfg)])
      end
  end.

(** The body of the [try]: the exception that ends it, if any, the count
    at that point, and the events up to it. *)
Definition attempt (i : nat) (img_url : string) (count : Z)
  : option exn * Z * list event :=
  let get := EvGet i img_url in
  match session_get rt i img_url with
  | Raised e => (Some e, count, [get])
  | Ok resp =>
      if 400 <=? status_code resp then (None, count, [get])
      else if negb (content_type_is_image resp) && negb (PIL_AVAILABLE rt)
      then (None, count, [get])
      else
        match content resp with
        | Raised e => (Some e, count, [get])
        | Ok body =>
            match infer_extension rt resp img_url with
            | Raised e => (Some e, count, [get])
            | Ok ext =>
                match too_small body with
                | Raised e => (Some e, count, [get])
                | Ok true =>
                    (* the sleep is inside the inner [try]: when it raises,
                       [except Exception: pass] lets the candidate through *)
                    match time_sleep rt i SleepFiltered (delay cfg) with
                    | Ok _ => (None, count, [get; EvSleep (delay cfg)])
                    | Raised e =>
                        if is_Exception e then save i img_url count body ext
                        else (Some e, count, [get])
                    end
                | Ok false => save i img_url count body ext
                end
            end
        end
  end.

(** One iteration of the [for] loop. *)
Definition iteration (i : nat) (img_url : string) (count : Z)
  : flow * list event :=
  if max_images cfg <=? count then (Break count, [])
  else
    match
      if only_same_domain cfg
      then let* same := same_domain (base_url cfg) img_url in Ok (negb same)
      else Ok false
    with
    | Raised e => (Propagate e, [])
    | Ok true => (Next count, [])
    | Ok false =>
        match attempt i img_url count with
        | (None, count', evs) => (Next count', evs)
        | (Some e, count', evs) =>
            if is_Exception e then
              (* Skip on error *)
              let skip := EvPrint ("Skip " ++ img_url ++ " (" ++ exn_str e ++ ")") in
              match time_sleep rt i SleepSkipped (delay cfg) with
              | Raised e' => (Propagate e', evs ++ [skip])%list
              | Ok _ => (Next count', evs ++ [skip; EvSleep (delay cfg)])%list
              end
            else
              (Break count', evs ++ [EvPrint "Interrupted by user."])%list
        end
    end.

(** The [for] loop over [enumerate(img_urls, start=i)], entered with
    [count]: the count on leaving the loop, or the exception that ended
    it, and the events in order. *)
Fixpoint loop (i : nat) (img_urls : list string) (count : Z)
  : result Z * list event :=
  match img_urls with
  | [] => (Ok count, [])
  | img_url :: rest =>
      match iteration i img_url count with
      | (Next count', evs) =>
          let (r, evs') := loop (S i) rest count' in (r, (evs ++ evs')%list)
      | (Break count', evs) => (Ok count', evs)
      | (Propagate e, evs) => (Raised e, evs)
      end
  end.

Definition download_images (img_urls : list string) : result Z * list event :=
  match makedirs rt (out_dir cfg) with
  | Raised e => (Raised e, [EvMakedirs (out_dir cfg)])
  | Ok _ =>
      let (r, evs) := loop 1 img_urls 0 in
      (r, EvMakedirs (out_dir cfg) :: evs)
  end.

End Download.

(** ** The command-line run ([main]) *)

Record Args : Type := mkArgs {
  arg_url : string;
  arg_out : string;
  arg_max : Z;
  arg_delay : PyFloat;
  arg_timeout : Z;
  arg_same_domain : bool;
  arg_min_width : Z;
  arg_min_height : Z;
  arg_no_robots : bool
}.

(** The page side of a run: the robots policy, the page request, the
    parser and this process's set order, on top of the [Runtime]. *)
Record World : Type := mkWorld {
  runtime : Runtime;
  (** [urllib.robotparser], when importable: reads the policy at the first
      argument and answers [can_fetch(user_agent, url)] *)
  robotparser : option (string -> string -> string -> result bool);
  (** [requests.get(url, headers=DEFAULT_HEADERS, timeout=timeout)] *)
  requests_get : string -> result Response;
  BeautifulSoup : string -> Bs4.soup;
  urls_set : PySet
}.

Definition DEFAULT_User_Agent : string :=
  "Mozilla/5.0 (compatible; ImageScraper/1.0; +https://example.com/bot)".

Section Run.

Variable w : World.

Definition robots_allows (url user_agent : string) : result bool :=
  match robotparser w with
  | None => Ok true
  | Some can_fetch =>
      match
        let* parsed := Urllib.urlparse url EmptyString in
        let robots_url :=
          Urllib.scheme parsed ++ "://" ++ Urllib.netloc parsed ++ "/robots.txt" in
        can_fetch robots_url user_agent url
      with
      | Ok allowed => Ok allowed
      | Raised e =>
          (* If robots.txt cannot be fetched or parsed, be permissive *)
          if is_Exception e then Ok true else Raised e
      end
  end.

(** The gate both front ends put before the page request. *)
Definition robots_gate (no_robots : bool) (url : string) : result bool :=
  if no_robots then Ok true else robots_allows url DEFAULT_User_Agent.

(** [r.raise_for_status()] raises for a status from 400 to 599. *)
Definition fetch_html (url : string) (tmo : Z) : result string :=
  let* r := requests_get w url in
  if (400 <=? status_code r) && (status_code r <? 600)
  then Raised (Exception ("HTTPError " ++ Fmt.str (status_code r)))
  else content r.

Definition config_of_args (args : Args) : Config :=
  mkConfig (arg_url args) (arg_out args) (arg_max args) (arg_delay args)
           (arg_timeout args) (arg_same_domain args) (arg_min_width args)
           (arg_min_height args).

(** [main()] after [parse_args]: [Ok tt] when it returns, the exception
    when one leaves it, and the events in order. *)
Definition main (args : Args) : result unit * list event :=
  match robots_gate (arg_no_robots args) (arg_url args) with
  | Raised e => (Raised e, [])
  | Ok false =>
      (Ok tt,
       [EvPrint "robots.txt disallows scraping this URL for the given user-agent. Use --no-robots to ignore (not recommended)."])
  | Ok true =>
      match fetch_html (arg_url args) (arg_timeout args) with
      | Raised e =>
          if is_Exception e
          then (Ok tt, [EvPrint ("Failed to fetch page: " ++ exn_str e)])
          else (Raised e, [])
      | Ok html =>
          match extract_image_urls (BeautifulSoup w) (urls_set w) html (arg_url args) with
          | Raised e => (Raised e, [])
          | Ok img_urls =>
              let found :=
                EvPrint ("Found " ++ Fmt.str (Z.of_nat (List.length img_urls))
                         ++ " candidate image URLs. Starting downloads...") in
              match download_images (runtime w) (config_of_args args) img_urls with
              | (Raised e, evs) => (Raised e, found :: evs)
              | (Ok saved, evs) =>
                  (Ok tt,
                   found :: evs ++
                   [EvPrint ("Done. Saved " ++ Fmt.str saved ++ " image(s) to '"
                             ++ arg_out args ++ "'.")])%list
              end
          end
      end
  end.

End Run.

(** ** The start handler of the Streamlit front end

    The handler runs the same pipeline with its own inline copy of the
    loop.  Progress updates are recorded without their text and messages
    are given in ASCII. *)

Inductive ending : Type :=
| Finished              (* the script runs to its end *)
| Stopped               (* [st.stop()] *)
| Escaped (e : exn).    (* an exception no handler catches *)

Section App.

Variable w : World.
Variable args : Args.

Definition app_attempt (total i : nat) (img_url : string) (saved : Z)
  : result Z * list event :=
  let rt := runtime w in
  match session_get rt i img_url with
  | Raised e => (Raised e, [EvGet i img_url])
  | Ok resp =>
      if 400 <=? status_code resp
      then (Ok saved, [EvGet i img_url; EvProgress i total])
      else
        match content resp with
        | Raised e => (Raised e, [EvGet i img_url])
        | Ok body =>
            match infer_extension rt resp img_url with
            | Raised e => (Raised e, [EvGet i img_url])
            | Ok ext =>
                match too_small rt (config_of_args args) body with
                | Raised e => (Raised e, [EvGet i img_url])
                | Ok true => (Ok saved, [EvGet i img_url; EvProgress i total])
                | Ok false =>
                    let h := PyStr.take 12 (Sha1.hexdigest img_url) in
                    let filename :=
                      Fmt.format_04d (saved + 1) ++ "_" ++ h ++ ext in
                    let filepath := OsPath.join (arg_out args) filename in
                    match write_file rt filepath body with
                    | Raised e =>
                        (Raised e, [EvGet i img_url; EvWrite filepath body false])
                    | Ok _ =>
                        (Ok (saved + 1),
                         [EvGet i img_url; EvWrite filepath body true;
                          EvProgress i total])
                    end
                end
            end
        end
  end.

Definition app_iteration (total i : nat) (img_url : string) (saved : Z)
  : flow * list event :=
  if arg_max args <=? saved then (Break saved, [])
  else
    match
      if arg_same_domain args
      then let* same := same_domain (arg_url args) img_url in Ok (negb same)
      else Ok false
    with
    | Raised e => (Propagate e, [])
    | Ok true => (Next saved, [EvProgress i total])
    | Ok false =>
        match app_attempt total i img_url saved with
        | (Ok saved', evs) => (Next saved', evs)
        | (Raised e, evs) =>
            if is_Exception e
            then (Next saved, evs ++ [EvProgress i total])%list
            else (Propagate e, evs)
        end
    end.

Fixpoint app_loop (total i : nat) (img_urls : list string) (saved : Z)
  : result Z * list event :=
  match img_urls with
  | [] => (Ok saved, [])
  | img_url :: rest =>
      match app_iteration total i img_url saved with
      | (Next saved', evs) =>
          let (r, evs') := app_loop total (S i) rest saved' in
          (r, (evs ++ evs')%list)
      | (Break saved', evs) => (Ok saved', evs)
      | (Propagate e, evs) => (Raised e, evs)
      end
  end.

(** What [except Exception as e: st.exception(e); st.stop()] makes of an
    exception raised inside the handler's [try]. *)
Definition app_except (e : exn) (evs : list event) : ending * list event :=
  if is_Exception e then (Stopped, evs ++ [EvStException e])%list
  else (Escaped e, evs).

Definition start_handler : ending * list event :=
  if negb (PyStr.truthy (arg_url args))
  then (Stopped, [EvStError "Merci de saisir une URL."])
  else
    match robots_gate w (arg_no_robots args) (arg_url args) with
    | Raised e => app_except e []
    | Ok false =>
        (Stopped,
         [EvStWarning "robots.txt interdit ce scraping pour cet user-agent. Cochez 'Ignorer robots.txt' pour passer outre (non recommande)."])
    | Ok true =>
        let log1 := EvLog "Recuperation de la page..." in
        match fetch_html w (arg_url args) (arg_timeout args) with
        | Raised e => app_except e [log1]
        | Ok html =>
            let log2 := EvLog "Extraction des URLs d'images..." in
            match
              extract_image_urls (BeautifulSoup w) (urls_set w) html (arg_url args)
            with
            | Raised e => app_except e [log1; log2]
            | Ok img_urls =>
                let total := List.length img_urls in
                if (total =? 0)%nat
                then (Stopped,
                      [log1; log2;
                       EvStWarning "Aucune image candidate trouvee sur cette page."])
                else
                  let info :=
                    EvStInfo (Fmt.str (Z.of_nat total)
                              ++ " image(s) candidate(s) trouvee(s). Telechargement en cours...") in
                  (* from image_scraper import ..., Image, BytesIO: the
                     module defines the two names only when Pillow is there *)
                  if negb (PIL_AVAILABLE (runtime w))
                  then app_except
                         (ImportError "cannot import name 'Image' from 'image_scraper'")
                         [log1; log2; info]
                  else
                    let pre := [log1; log2; info; EvMakedirs (arg_out args)] in
                    match makedirs (runtime w) (arg_out args) with
                    | Raised e => app_except e pre
                    | Ok _ =>
                        match app_loop total 1 img_urls 0 with
                        | (Raised e, evs) => app_except e (pre ++ evs)%list
                        | (Ok saved, evs) =>
                            let done :=
                              EvLog ("Termine. " ++ Fmt.str saved
                                     ++ " image(s) sauvegardee(s) dans '"
                                     ++ arg_out args ++ "'.") in
                            (Finished,
                             pre ++ evs ++
                             [done;
                              if 0 <? saved then EvDownloadButton
                              else EvStWarning "Aucune image sauvegardee."])%list
                        end
                    end
            end
        end
    end.

End App.

(** ** The front end with the import shim ([app_import_shim.py])

    This front end looks for the scraper module under several names and
    binds what it finds; the helpers beyond the four required names are
    optional.  Its handler is a third copy of the loop. *)

Module Shim.

(** A module object, by the attributes the front end reads; an attribute
    the module does not define is [None]. *)
Record ScraperModule : Type := mkScraperModule {
  mod_name : string;
  mod_extract_image_urls : option (string -> string -> result (list string));
  mod_fetch_html : option (string -> Z -> result string);
  mod_robots_allows : option (string -> string -> result bool);
  mod_DEFAULT_HEADERS : option (list (string * string));
  mod_content_type_is_image : option (Response -> bool);
  mod_infer_extension : option (Response -> string -> result string);
  mod_PIL_AVAILABLE : option bool;
  (** [Image.open(BytesIO(content)).size] *)
  mod_Image : option (string -> result (Z * Z));
  mod_BytesIO : option unit;
  mod_same_domain : option (string -> string -> result bool)
}.

(** [getattr(md, attr)] without a default. *)
Definition getattr {A : Type} (md : ScraperModule) (attr : string)
           (field : option A) : result A :=
  match field with
  | Some v => Ok v
  | None =>
      Raised (AttributeError ("module '" ++ mod_name md ++ "' has no attribute '"
                              ++ attr ++ "'"))
  end.

(** [getattr(md, attr, default)] *)
Definition getattr_default {A : Type} (field : option A) (default : A) : A :=
  match field with
  | Some v => v
  | None => default
  end.

(** [d.get(key, default)] *)
Definition dict_get (d : list (string * string)) (key default : string) : string :=
  match Bs4.lookup key d with
  | Some v => v
  | None => default
  end.

(** The names the front end works with once the module is bound. *)
Record Bindings : Type := mkBindings {
  extract_image_urls : string -> string -> result (list string);
  fetch_html : string -> Z -> result string;
  robots_allows : string -> string -> result bool;
  DEFAULT_HEADERS : list (string * string);
  content_type_is_image : option (Response -> bool);
  infer_extension : option (Response -> string -> result string);
  PIL_AVAILABLE : bool;
  Image : option (string -> result (Z * Z));
  BytesIO : option unit;
  same_domain_func : option (string -> string -> result bool)
}.

Section Binding.

(** [importlib.import_module] *)
Variable import_module : string -> result ScraperModule.

(** One candidate: the import, then the check of the expected
    attributes. *)
Definition load (name : string) : result ScraperModule :=
  let* md := import_module name in
  let* _ := getattr md "extract_image_urls" (mod_extract_image_urls md) in
  let* _ := getattr md "fetch_html" (mod_fetch_html md) in
  let* _ := getattr md "robots_allows" (mod_robots_allows md) in
  let* _ := getattr md "DEFAULT_HEADERS" (mod_DEFAULT_HEADERS md) in
  Ok md.

(** [str(last_err)] *)
Definition str_last_err (last_err : option exn) : string :=
  match last_err with
  | Some e => exn_str e
  | None => "None"
  end.

(** The loop of [_try_import] over the candidates still to try, and the
    [ModuleNotFoundError], a subclass of [ImportError], that ends it. *)
Fixpoint try_candidates (candidates : list string) (last_err : option exn)
  : result ScraperModule :=
  match candidates with
  | [] =>
      Raised (ImportError ("Impossible d'importer le module scraper ("
                           ++ str_last_err last_err ++ ")"))
  | name :: rest =>
      match load name with
      | Ok md => Ok md
      | Raised e =>
          if is_Exception e then try_candidates rest (Some e) else Raised e
      end
  end.

Definition candidates : list string :=
  ["image_scraper"; "scraper_utils"; "image_scraper.image_scraper"].

Definition _try_import : result ScraperModule := try_candidates candidates None.

(** The body of the [try] that binds the module's names. *)
Definition bindings : result Bindings :=
  let* scraper := _try_import in
  let* extract_image_urls :=
    getattr scraper "extract_image_urls" (mod_extract_image_urls scraper) in
  let* fetch_html := getattr scraper "fetch_html" (mod_fetch_html scraper) in
  let* robots_allows := getattr scraper "robots_allows" (mod_robots_allows scraper) in
  let* DEFAULT_HEADERS :=
    getattr scraper "DEFAULT_HEADERS" (mod_DEFAULT_HEADERS scraper) in
  Ok (mkBindings extract_image_urls fetch_html robots_allows DEFAULT_HEADERS
                 (mod_content_type_is_image scraper)
                 (mod_infer_extension scraper)
                 (getattr_default (mod_PIL_AVAILABLE scraper) false)
                 (mod_Image scraper)
                 (mod_BytesIO scraper)
                 (mod_same_domain scraper)).

End Binding.

Section Handler.

Variable rt : Runtime.
Variable b : Bindings.
Variable args : Args.

(** The dimension filter, which also wants [Image] to be bound. *)
Definition too_small (body : string) : result bool :=
  if PIL_AVAILABLE b
     && (nonzero (arg_min_width args) || nonzero (arg_min_height args))
  then
    match Image b with
    | Some size_of =>
        match size_of body with
        | Ok (w, h) =>
            Ok ((nonzero (arg_min_width args) && (w <? arg_min_width args))
                || (nonzero (arg_min_height args) && (h <? arg_min_height args)))
        | Raised e => if is_Exception e then Ok false else Raised e
        end
    | None => Ok false
    end
  else Ok false.

Definition attempt (total i : nat) (img_url : string) (saved : Z)
  : result Z * list event :=
  match session_get rt i img_url with
  | Raised e => (Raised e, [EvGet i img_url])
  | Ok resp =>
      if 400 <=? status_code resp
      then (Ok saved, [EvGet i img_url; EvProgress i total])
      else
        match content resp with
        | Raised e => (Raised e, [EvGet i img_url])
        | Ok body =>
            match
              match infer_extension b with
              | Some infer => infer resp img_url
              | None => Ok ".jpg"
              end
            with
            | Raised e => (Raised e, [EvGet i img_url])
            | Ok ext =>
                match too_small body with
                | Raised e => (Raised e, [EvGet i img_url])
                | Ok true => (Ok saved, [EvGet i img_url; EvProgress i total])
                | Ok false =>
                    let h := PyStr.take 12 (Sha1.hexdigest img_url) in
                    let filename :=
                      Fmt.format_04d (saved + 1) ++ "_" ++ h ++ ext in
                    let filepath := OsPath.join (arg_out args) filename in
                    match write_file rt filepath body with
                    | Raised e =>
                        (Raised e, [EvGet i img_url; EvWrite filepath body false])
                    | Ok _ =>
                        (Ok (saved + 1),
                         [EvGet i img_url; EvWrite filepath body true;
                          EvProgress i total])
                    end
                end
            end
        end
  end.

Definition iteration (total i : nat) (img_url : string) (saved : Z)
  : flow * list event :=
  if arg_max args <=? saved then (Break saved, [])
  else
    match
      if arg_same_domain args
      then match same_domain_func b with
           | Some same_domain =>
               let* same := same_domain (arg_url args) img_url in Ok (negb same)
           | None => Ok false
           end
      else Ok false
    with
    | Raised e => (Propagate e, [])
    | Ok true => (Next saved, [EvProgress i total])
    | Ok false =>
        match attempt total i img_url saved with
        | (Ok saved', evs) => (Next saved', evs)
        | (Raised e, evs) =>
            if is_Exception e
            then (Next saved, evs ++ [EvProgress i total])%list
            else (Propagate e, evs)
        end
    end.

Fixpoint loop (total i : nat) (img_urls : list string) (saved : Z)
  : result Z * list event :=
  match img_urls with
  | [] => (Ok saved, [])
  | img_url :: rest =>
      match iteration total i img_url saved with
      | (Next saved', evs) =>
          let (r, evs') := loop total (S i) rest saved' in
          (r, (evs ++ evs')%list)
      | (Break saved', evs) => (Ok saved', evs)
      | (Propagate e, evs) => (Raised e, evs)
      end
  end.

Definition start_handler : ending * list event :=
  if negb (PyStr.truthy (arg_url args))
  then (Stopped, [EvStError "Merci de saisir une URL."])
  else
    match
      if arg_no_robots args then Ok true
      else robots_allows b (arg_url args)
                         (dict_get (DEFAULT_HEADERS b) "User-Agent" EmptyString)
    with
    | Raised e => app_except e []
    | Ok false =>
        (Stopped,
         [EvStWarning "robots.txt interdit ce scraping pour cet user-agent. Cochez 'Ignorer robots.txt' pour passer outre (non recommande)."])
    | Ok true =>
        let log1 := EvLog "Recuperation de la page..." in
        match fetch_html b (arg_url args) (arg_timeout args) with
        | Raised e => app_except e [log1]
        | Ok html =>
            let log2 := EvLog "Extraction des URLs d'images..." in
            match extract_image_urls b html (arg_url args) with
            | Raised e => app_except e [log1; log2]
            | Ok img_urls =>
                let total := List.length img_urls in
                if (total =? 0)%nat
                then (Stopped,
                      [log1; log2;
                       EvStWarning "Aucune image candidate trouvee sur cette page."])
                else
                  let info :=
                    EvStInfo (Fmt.str (Z.of_nat total)
                              ++ " image(s) candidate(s) trouvee(s). Telechargement en cours...") in
                  let pre := [log1; log2; info; EvMakedirs (arg_out args)] in
                  match makedirs rt (arg_out args) with
                  | Raised e => app_except e pre
                  | Ok _ =>
                      match loop total 1 img_urls 0 with
                      | (Raised e, evs) => app_except e (pre ++ evs)%list
                      | (Ok saved, evs) =>
                          let done :=
                            EvLog ("Termine. " ++ Fmt.str saved
                                   ++ " image(s) sauvegardee(s) dans '"
                                   ++ arg_out args ++ "'.") in
                          (Finished,
                           pre ++ evs ++
                           [done;
                            if 0 <? saved then EvDownloadButton
                            else EvStWarning "Aucune image sauvegardee."])%list
                      end
                  end
            end
        end
    end.

End Handler.

(** A run of the script with the start button pressed: the binding of the
    module, whose failure is reported and stops the script, then the
    handler. *)
Definition run (import_module : string -> result ScraperModule) (rt : Runtime)
           (args : Args) : ending * list event :=
  match bindings import_module with
  | Raised e =>
      if is_Exception e
      then (Stopped,
            [EvStError ("Erreur d'import du module scraper : " ++ exn_str e);
             EvStInfo "Assurez-vous que **image_scraper.py** (ou **scraper_utils.py**) est present **au meme niveau** que app.py, ou placez-les tous deux dans un dossier et renommez ce dossier autrement que 'image_scraper'."])
      else (Escaped e, [])
  | Ok b => start_handler rt b args
  end.

End Shim.

(** * Observations and sample runs *)

(** ** What a run leaves behind *)

(** [urlparse(url).netloc] *)
Definition netloc_of (url : string) : result string :=
  let* p := Urllib.urlparse url EmptyString in Ok (Urllib.netloc p).

(** The paths of the files written successfully, in order. *)
Fixpoint saved_files (evs : list event) : list string :=
  match evs with
  | [] => []
  | EvWrite filepath _ true :: evs' => filepath :: saved_files evs'
  | _ :: evs' => saved_files evs'
  end.

(** The positions of the candidates for which a request was sent. *)
Fixpoint fetched (evs : list event) : list nat :=
  match evs with
  | [] => []
  | EvGet i _ :: evs' => i :: fetched evs'
  | _ :: evs' => fetched evs'
  end.

(** The number of pauses. *)
Fixpoint sleeps (evs : list event) : nat :=
  match evs with
  | [] => 0%nat
  | EvSleep _ :: evs' => S (sleeps evs')
  | _ :: evs' => sleeps evs'
  end.

(** The file names of a sequence of saves, given by their URLs and
    extensions, when the count on entry is [count]. *)
Fixpoint names (count : Z) (saves : list (string * string)) : list string :=
  match saves with
  | [] => []
  | (url, ext) :: saves' =>
      hash_to_name url (count + 1) ext :: names (count + 1) saves'
  end.

(** The paths under which these saves are stored. *)
Fixpoint named (out : string) (count : Z) (saves : list (string * string))
  : list string :=
  match saves with
  | [] => []
  | (url, ext) :: saves' =>
      OsPath.join out (hash_to_name url (count + 1) ext)
      :: named out (count + 1) saves'
  end.

(** ** Orders of iteration of a set *)

(** The order of insertion, and its reverse. *)
Definition insertion_order : PySet :=
  mkPySet dict_fromkeys (fun log => Permutation_refl _).

Definition reverse_order : PySet :=
  mkPySet (fun log => List.rev (dict_fromkeys log))
          (fun log => Permutation_sym (Permutation_rev _)).

(** Second, first, fourth, third: the order in which CPython 3.11 started
    with [PYTHONHASHSEED=0] iterates the set of the four URLs of the
    end-to-end scenario below, inserted in discovery order.  Sets of
    another size are left in insertion order. *)
Definition swap_pairs (l : list string) : list string :=
  match l with
  | [a; b; c; d] => [b; a; d; c]
  | _ => l
  end.

Definition hash_seed_0_order : PySet.
Proof.
  refine (mkPySet (fun log => swap_pairs (dict_fromkeys log)) _).
  intros log.
  destruct (dict_fromkeys log) as [|a [|b [|c [|d [|x l]]]]];
    try apply Permutation_refl.
  apply perm_trans with (l' := [a; b; d; c]);
    [apply perm_swap | do 2 apply perm_skip; apply perm_swap].
Defined.

(** ** Sample pages *)

(** The end-to-end scenario: an image with a source and a two-entry source
    set, and a preview metadata tag, on the page [https://site.test/page]. *)
Definition scenario_html : string :=
  "<img src='/a.png' srcset='/b.png 1x, /c.png 2x'><meta property='og:image' content='https://cdn.test/d.png'>".

Definition scenario_soup : Bs4.soup :=
  [Bs4.mkTag "img" [("src", "/a.png"); ("srcset", "/b.png 1x, /c.png 2x")];
   Bs4.mkTag "meta" [("property", "og:image"); ("content", "https://cdn.test/d.png")]].

(** A page whose only image reference is an inline style. *)
Definition styled_html : string :=
  "<div style='background-image: url(/img/bg.png)'></div>".

Definition styled_soup : Bs4.soup :=
  [Bs4.mkTag "div" [("style", "background-image: url(/img/bg.png)")]].

(** A page whose text holds a Windows path. *)
Definition path_html : string :=
  "<p>Unpack it to C:\curl\bin\ and run it.</p>".

Definition path_soup : Bs4.soup := [Bs4.mkTag "p" []].

(** A page with an embedded image. *)
Definition embedded_html : string :=
  "<img src='data:image/png;base64,iVBORw0KGgo='>".

Definition embedded_soup : Bs4.soup :=
  [Bs4.mkTag "img" [("src", "data:image/png;base64,iVBORw0KGgo=")]].

(** A page without any image reference. *)
Definition plain_html : string :=
  "<html><body><p>No pictures here.</p></body></html>".

Definition plain_soup : Bs4.soup :=
  [Bs4.mkTag "html" []; Bs4.mkTag "body" []; Bs4.mkTag "p" []].

(** The parser on the sample pages: each is given its parse tree. *)
Definition sample_pages : list (string * Bs4.soup) :=
  [(scenario_html, scenario_soup); (styled_html, styled_soup);
   (path_html, path_soup); (embedded_html, embedded_soup);
   (plain_html, plain_soup)].

Fixpoint parse_in (pages : list (string * Bs4.soup)) (html : string) : Bs4.soup :=
  match pages with
  | [] => []
  | (text, doc) :: pages' =>
      if String.eqb text html then doc else parse_in pages' html
  end.

Definition parse_sample (html : string) : Bs4.soup := parse_in sample_pages html.

(** ** Sample runtimes and configurations *)

Definition cannot_identify : exn := Exception "cannot identify image file".

(** The entries of the default MIME table that the samples meet. *)
Definition mime_table (ctype : string) : option string :=
  Bs4.lookup ctype
    [("image/jpeg", ".jpg"); ("image/png", ".png"); ("image/gif", ".gif");
     ("image/webp", ".webp"); ("text/html", ".html")].

(** Every request answers 200 with a PNG body, Pillow is absent and every
    write succeeds. *)
Definition all_downloadable : Runtime :=
  mkRuntime false
            (fun _ => Raised cannot_identify)
            mime_table
            (fun _ _ => Ok (mkResponse 200 [("Content-Type", "image/png")] (Ok "PNG")))
            (fun _ _ => Ok tt)
            (fun _ => Ok tt)
            (fun _ _ _ => Ok tt).

Definition ten_candidates : list string :=
  List.map (fun k => "https://site.test/" ++ Fmt.str k ++ ".png")
           [1; 2; 3; 4; 5; 6; 7; 8; 9; 10].

(** The defaults of the command line, and two variations. *)
Definition defaults : Config :=
  mkConfig "https://site.test/page" "images" 500 (Finite (3 # 10)) 20 false 0 0.

Definition cap_three : Config :=
  mkConfig "https://site.test/page" "images" 3 (Finite (3 # 10)) 20 false 0 0.

Definition min_width_64 : Config :=
  mkConfig "https://site.test/page" "images" 500 (Finite (3 # 10)) 20 false 64 0.

(** Every request answers 200 with an HTML page, which Pillow cannot open;
    with and without Pillow. *)
Definition html_response : Response :=
  mkResponse 200 [("Content-Type", "text/html; charset=utf-8")] (Ok "<html></html>").

Definition pillow_html_page : Runtime :=
  mkRuntime true
            (fun _ => Raised cannot_identify)
            mime_table
            (fun _ _ => Ok html_response)
            (fun _ _ => Ok tt)
            (fun _ => Ok tt)
            (fun _ _ _ => Ok tt).

Definition no_pillow_html_page : Runtime :=
  mkRuntime false
            (fun _ => Raised cannot_identify)
            mime_table
            (fun _ _ => Ok html_response)
            (fun _ _ => Ok tt)
            (fun _ => Ok tt)
            (fun _ _ _ => Ok tt).

(** Every request answers 404. *)
Definition not_found : Runtime :=
  mkRuntime false
            (fun _ => Raised cannot_identify)
            mime_table
            (fun _ _ => Ok (mkResponse 404 [("Content-Type", "text/html")] (Ok "Not Found")))
            (fun _ _ => Ok tt)
            (fun _ => Ok tt)
            (fun _ _ _ => Ok tt).

(** The page without image references, served at [https://site.test/plain]
    with no robots policy in the way. *)
Definition plain_page : World :=
  mkWorld all_downloadable
          None
          (fun _ => Ok (mkResponse 200 [("Content-Type", "text/html")] (Ok plain_html)))
          parse_sample
          insertion_order.

Definition default_args : Args :=
  mkArgs "https://site.test/plain" "images" 500 (Finite (3 # 10)) 20 false 0 0 false.

(** ** Further observations *)

(** What an entry taken from a [srcset] value looks like: not empty, free
    of commas and spaces, and with no white space left to strip. *)
Definition srcset_entry_ok (e : string) : bool :=
  PyStr.truthy e
  && negb (PyStr.contains "," e)
  && negb (PyStr.contains " " e)
  && String.eqb (PyStr.strip_ws e) e.

(** A page whose preview tag has a blank content. *)
Definition blank_html : string := "<meta property='og:image' content=' '>".

Definition blank_tag : Bs4.Tag :=
  Bs4.mkTag "meta" [("property", "og:image"); ("content", " ")].

Definition parse_blank (html : string) : Bs4.soup := [blank_tag].

(** A lower-case hexadecimal digit. *)
Definition is_hex_lower (c : ascii) : bool :=
  PyStr.is_digit c || ((97 <=? PyStr.ord c)%nat && (PyStr.ord c <=? 102)%nat).

(** The sequence index read back from a file name: the number written
    before the first underscore. *)
Definition index_of_name (name : string) : Z :=
  Z.of_nat (Fmt.value (fst (PyStr.partition "_" name))).

(** A value that fits a byte. *)
Definition is_byte (b : Z) : Prop := 0 <= b < 256.

(** What is known of an iteration that sent a request: the request is for
    the candidate at hand and the only one, the count was under the cap,
    the candidate passed the domain restriction, and whatever was written
    is the body of the response, whose status was under 400 and whose type
    was an image type unless Pillow is there. *)
Definition fetch_facts (rt : Runtime) (cfg : Config) (i : nat) (img_url : string)
           (count : Z) (evs : list event) : Prop :=
  exists tail,
    evs = EvGet i img_url :: tail
    /\ fetched tail = []
    /\ count < max_images cfg
    /\ (only_same_domain cfg = true ->
        same_domain (base_url cfg) img_url = Ok true)
    /\ forall filepath body ok,
        In (EvWrite filepath body ok) tail ->
        exists resp,
          session_get rt i img_url = Ok resp
          /\ status_code resp < 400
          /\ content resp = Ok body
          /\ (PIL_AVAILABLE rt = false -> content_type_is_image resp = true).

(** More sample configurations and runtimes: the domain restriction on, a
    negative delay, and an interrupt at the second request. *)
Definition same_site_only : Config :=
  mkConfig "https://site.test/page" "images" 500 (Finite (3 # 10)) 20 true 0 0.

Definition negative_delay : Config :=
  mkConfig "https://site.test/page" "images" 500 (Finite (-1 # 1)) 20 false 0 0.

Definition interrupted_at_two : Runtime :=
  mkRuntime false
            (fun _ => Raised cannot_identify)
            mime_table
            (fun i _ =>
               if (i =? 2)%nat then Raised KeyboardInterrupt
               else Ok (mkResponse 200 [("Content-Type", "image/png")] (Ok "PNG")))
            (fun _ _ => Ok tt)
            (fun _ => Ok tt)
            (fun _ _ _ => Ok tt).

(** The traffic of a run: its image requests and its file writes. *)
Definition is_io (ev : event) : bool :=
  match ev with
  | EvGet _ _ | EvWrite _ _ _ => true
  | _ => false
  end.

Definition io_events (evs : list event) : list event := List.filter is_io evs.

(** The same runtime, and the same world, with no wait ever disturbed:
    every accepted sleep returns. *)
Definition undisturbed (rt : Runtime) : Runtime :=
  mkRuntime (PIL_AVAILABLE rt) (image_size rt) (guess_extension rt)
            (session_get rt) (write_file rt) (makedirs rt)
            (fun _ _ _ => Ok tt).

Definition undisturbed_world (w : World) : World :=
  mkWorld (undisturbed (runtime w)) (robotparser w) (requests_get w)
          (BeautifulSoup w) (urls_set w).

(** The same settings under another delay. *)
Definition with_delay (d : PyFloat) (args : Args) : Args :=
  mkArgs (arg_url args) (arg_out args) (arg_max args) d (arg_timeout args)
         (arg_same_domain args) (arg_min_width args) (arg_min_height args)
         (arg_no_robots args).

(** The scenario page served with Pillow installed, every image request
    answering a 100 by 80 PNG, and the same page without Pillow. *)
Definition pillow_png : Runtime :=
  mkRuntime true
            (fun _ => Ok (100, 80))
            mime_table
            (fun _ _ => Ok (mkResponse 200 [("Content-Type", "image/png")] (Ok "PNG")))
            (fun _ _ => Ok tt)
            (fun _ => Ok tt)
            (fun _ _ _ => Ok tt).

Definition scenario_page : World :=
  mkWorld pillow_png
          None
          (fun _ => Ok (mkResponse 200 [("Content-Type", "text/html")] (Ok scenario_html)))
          parse_sample
          insertion_order.

Definition scenario_page_no_pillow : World :=
  mkWorld all_downloadable
          None
          (fun _ => Ok (mkResponse 200 [("Content-Type", "text/html")] (Ok scenario_html)))
          parse_sample
          insertion_order.

Definition scenario_args : Args :=
  mkArgs "https://site.test/page" "images" 500 (Finite (3 # 10)) 20 false 0 0 false.

(** The module [image_scraper.py] as an object: every name it defines at
    import, [Image] and [BytesIO] among them only when Pillow was there;
    and what the front end binds from it. *)
Definition image_scraper_module (w : World) : Shim.ScraperModule :=
  Shim.mkScraperModule
    "image_scraper"
    (Some (extract_image_urls (BeautifulSoup w) (urls_set w)))
    (Some (fetch_html w))
    (Some (robots_allows w))
    (Some [("User-Agent", DEFAULT_User_Agent)])
    (Some content_type_is_image)
    (Some (infer_extension (runtime w)))
    (Some (PIL_AVAILABLE (runtime w)))
    (if PIL_AVAILABLE (runtime w) then Some (image_size (runtime w)) else None)
    (if PIL_AVAILABLE (runtime w) then Some tt else None)
    (Some same_domain).

Definition image_scraper_bindings (w : World) : Shim.Bindings :=
  Shim.mkBindings
    (extract_image_urls (BeautifulSoup w) (urls_set w))
    (fetch_html w)
    (robots_allows w)
    [("User-Agent", DEFAULT_User_Agent)]
    (Some content_type_is_image)
    (Some (infer_extension (runtime w)))
    (PIL_AVAILABLE (runtime w))
    (if PIL_AVAILABLE (runtime w) then Some (image_size (runtime w)) else None)
    (if PIL_AVAILABLE (runtime w) then Some tt else None)
    (Some same_domain).

(** The same bindings with the names that come from Pillow left out. *)
Definition without_pillow (b : Shim.Bindings) : Shim.Bindings :=
  Shim.mkBindings
    (Shim.extract_image_urls b) (Shim.fetch_html b) (Shim.robots_allows b)
    (Shim.DEFAULT_HEADERS b) (Shim.content_type_is_image b)
    (Shim.infer_extension b) false None None (Shim.same_domain_func b).

(** Whether a module defines the four names the front end cannot do
    without. *)
Definition has_expected_attributes (md : Shim.ScraperModule) : bool :=
  match Shim.mod_extract_image_urls md, Shim.mod_fetch_html md,
        Shim.mod_robots_allows md, Shim.mod_DEFAULT_HEADERS md with
  | Some _, Some _, Some _, Some _ => true
  | _, _, _, _ => false
  end.

(** Two installations: one where only [scraper_utils] can be imported, and
    the layout of the repository, with the module next to the front end. *)
Definition no_module_named (name : string) : exn :=
  ImportError ("No module named '" ++ name ++ "'").

Definition only_scraper_utils (w : World) (name : string)
  : result Shim.ScraperModule :=
  if String.eqb name "scraper_utils" then Ok (image_scraper_module w)
  else Raised (no_module_named name).


Definition nothing_installed (name : string) : result Shim.ScraperModule :=
  Raised (no_module_named name).

(** A page that is not there: the page request answers 404. *)
Definition missing_page : World :=
  mkWorld all_downloadable
          None
          (fun _ => Ok (mkResponse 404 [("Content-Type", "text/html")] (Ok "Not Found")))
          parse_sample
          insertion_order.

(** * Properties *)

(** ** Strings *)

Module PyStrFacts.
Import PyStr.

Lemma append_nil_r (s : string) : s ++ EmptyString = s.
Proof. induction s as [|c s IH]; simpl; [reflexivity | now rewrite IH]. Qed.

Lemma append_assoc (a b c : string) : (a ++ b) ++ c = a ++ (b ++ c).
Proof. induction a as [|x a IH]; simpl; [reflexivity | now rewrite IH]. Qed.

Lemma append_inv_head (a b c : string) : a ++ b = a ++ c -> b = c.
Proof.
  induction a as [|x a IH]; simpl; intros H; [exact H|].
  injection H as H. now apply IH.
Qed.

Lemma prefix_spec (p s : string) :
  is_prefix p s = true <-> exists r, s = p ++ r.
Proof.
  revert s. induction p as [|c p IH]; intros s; simpl.
  - split; [intros _; now exists s | reflexivity].
  - destruct s as [|d s].
    + split; [discriminate | intros [r Hr]; discriminate].
    + rewrite andb_true_iff, Ascii.eqb_eq, IH. split.
      * intros [-> [r ->]]. now exists r.
      * intros [r Hr]. injection Hr as -> ->. split; [reflexivity | now exists r].
Qed.

Lemma rev_acc_spec (s acc : string) : rev_acc s acc = rev s ++ acc.
Proof.
  unfold rev. revert acc. induction s as [|c s IH]; intros acc; simpl.
  - reflexivity.
  - rewrite (IH (String c EmptyString)), IH, append_assoc. reflexivity.
Qed.

Lemma rev_cons (c : ascii) (s : string) : rev (String c s) = rev s ++ String c EmptyString.
Proof. unfold rev at 1. simpl. apply rev_acc_spec. Qed.

Lemma rev_app (a b : string) : rev (a ++ b) = rev b ++ rev a.
Proof.
  induction a as [|c a IH]; simpl.
  - now rewrite append_nil_r.
  - now rewrite !rev_cons, IH, append_assoc.
Qed.

Lemma rev_involutive (s : string) : rev (rev s) = s.
Proof.
  induction s as [|c s IH]; [reflexivity|].
  now rewrite rev_cons, rev_app, IH.
Qed.

(** [t.endswith(s)] holds exactly when [t] is some text followed by [s]. *)
Lemma endswith_spec (t s : string) :
  endswith t s = true <-> exists pre, t = pre ++ s.
Proof.
  unfold endswith. rewrite prefix_spec. split.
  - intros [r Hr]. exists (rev r).
    rewrite <- (rev_involutive t), Hr, rev_app, rev_involutive. reflexivity.
  - intros [pre ->]. exists (rev pre). apply rev_app.
Qed.

End PyStrFacts.

(** ** The domain matcher *)

(** C10: [same_domain] compares the whole network locations, port and user
    information included: it returns [True] exactly when the candidate's
    [netloc] is the base's or ends with a dot followed by the base's, so
    that the same host under another explicit port does not match. *)
Theorem same_domain_compares_netloc :
  (forall base_url target_url,
      same_domain base_url target_url = Ok true <->
      exists b t,
        netloc_of base_url = Ok b /\ netloc_of target_url = Ok t /\
        (t = b \/ exists pre, t = pre ++ "." ++ b))
  /\ netloc_of "https://a.com" = Ok "a.com"
  /\ netloc_of "https://a.com:8080/p.png" = Ok "a.com:8080"
  /\ same_domain "https://a.com" "https://a.com:8080/p.png" = Ok false.
Proof.
  split; [|repeat split; reflexivity].
  intros base_url target_url. unfold same_domain, netloc_of.
  destruct (Urllib.urlparse base_url "") as [pb|eb]; simpl.
  2:{ split; [discriminate | intros (b & t & Hb & _); discriminate]. }
  destruct (Urllib.urlparse target_url "") as [pt|et]; simpl.
  2:{ split; [discriminate | intros (b & t & _ & Ht & _); discriminate]. }
  split.
  - intros H. injection H as H. exists (Urllib.netloc pb), (Urllib.netloc pt).
    repeat split. apply orb_true_iff in H as [H|H].
    + left. apply String.eqb_eq in H. now symmetry.
    + right. now apply PyStrFacts.endswith_spec.
  - intros (b & t & Hb & Ht & H). injection Hb as <-. injection Ht as <-.
    f_equal. apply orb_true_iff. destruct H as [H|H].
    + left. apply String.eqb_eq. now symmetry.
    + right. now apply PyStrFacts.endswith_spec.
Qed.

(** [same_domain] answers whenever both URLs parse. *)
Lemma same_domain_total (base_url target_url b t : string) :
  netloc_of base_url = Ok b -> netloc_of target_url = Ok t ->
  same_domain base_url target_url = Ok (String.eqb b t || PyStr.endswith t ("." ++ b)).
Proof.
  unfold same_domain, netloc_of.
  destruct (Urllib.urlparse base_url "") as [pb|]; [cbn | discriminate].
  destruct (Urllib.urlparse target_url "") as [pt|]; [cbn | discriminate].
  now intros [= <-] [= <-].
Qed.

(** A subdomain matches, another domain does not, and neither does a
    domain that merely ends with the base's name. *)
Example same_domain_samples :
  same_domain "https://a.com" "https://img.a.com/p.png" = Ok true
  /\ same_domain "https://a.com" "https://b.com/p.png" = Ok false
  /\ same_domain "https://a.com" "https://nota.com/p.png" = Ok false
  /\ same_domain "https://a.com" "https://A.com/p.png" = Ok false.
Proof. repeat split; reflexivity. Qed.

(** ** The naming function *)

Module FmtFacts.
Import PyStr Fmt.

Lemma digit_val_digit (n : nat) : (n < 10)%nat -> digit_val (digit n) = n.
Proof.
  intros H. unfold digit_val, digit, chr, ord.
  rewrite nat_ascii_embedding by lia. lia.
Qed.

Lemma is_digit_digit (n : nat) : (n < 10)%nat -> is_digit (digit n) = true.
Proof.
  intros H. unfold is_digit, digit, chr, ord.
  rewrite nat_ascii_embedding by lia.
  apply andb_true_iff. split; apply Nat.leb_le; lia.
Qed.

Lemma value_digits_fuel (fuel n : nat) (acc : string) :
  (n < fuel)%nat ->
  value (digits_fuel fuel n acc) = (n * 10 ^ String.length acc + value acc)%nat.
Proof.
  revert n acc. induction fuel as [|fuel IH]; intros n acc Hn; [lia|].
  cbn [digits_fuel].
  assert (Hmod : (n mod 10 < 10)%nat) by (apply Nat.mod_upper_bound; lia).
  assert (Hdiv : n = (10 * (n / 10) + n mod 10)%nat) by (apply Nat.div_mod_eq).
  destruct (n / 10)%nat as [|q] eqn:Hq.
  - cbn [value]. rewrite digit_val_digit by exact Hmod.
    replace (n mod 10)%nat with n by lia. reflexivity.
  - rewrite IH by lia. cbn [value String.length].
    rewrite digit_val_digit by exact Hmod. rewrite Nat.pow_succ_r'. nia.
Qed.

Lemma value_str_nat (n : nat) : value (str_nat n) = n.
Proof.
  unfold str_nat. rewrite value_digits_fuel by lia. cbn. lia.
Qed.

Lemma value_zeros (k : nat) (s : string) : value (zeros k ++ s) = value s.
Proof. induction k as [|k IH]; [reflexivity|]. cbn [zeros append value]. now rewrite IH. Qed.

Lemma forallb_app (p : ascii -> bool) (a b : string) :
  forallb p (a ++ b) = forallb p a && forallb p b.
Proof.
  induction a as [|c a IH]; [reflexivity|].
  cbn [append forallb]. now rewrite IH, andb_assoc.
Qed.

Lemma digits_digits_fuel (fuel n : nat) (acc : string) :
  forallb is_digit acc = true -> forallb is_digit (digits_fuel fuel n acc) = true.
Proof.
  revert n acc. induction fuel as [|fuel IH]; intros n acc Hacc; [exact Hacc|].
  cbn [digits_fuel].
  assert (Hd : forallb is_digit (String (digit (n mod 10)) acc) = true).
  { cbn [forallb]. rewrite is_digit_digit, Hacc; [reflexivity|].
    apply Nat.mod_upper_bound. lia. }
  destruct (n / 10)%nat; [exact Hd | now apply IH].
Qed.

Lemma digits_zeros (k : nat) : forallb is_digit (zeros k) = true.
Proof. induction k as [|k IH]; [reflexivity | exact IH]. Qed.

Lemma digits_padded (k n : nat) : forallb is_digit (zeros k ++ str_nat n) = true.
Proof.
  rewrite forallb_app, digits_zeros. unfold str_nat.
  now rewrite digits_digits_fuel.
Qed.

(** Distinct integers are formatted differently. *)
Lemma format_04d_inj (z1 z2 : Z) : format_04d z1 = format_04d z2 -> z1 = z2.
Proof.
  unfold format_04d. intros H.
  destruct (Z.ltb_spec z1 0) as [H1|H1], (Z.ltb_spec z2 0) as [H2|H2].
  - injection H as H. apply (f_equal value) in H.
    rewrite !value_zeros, !value_str_nat in H. lia.
  - apply (f_equal (forallb is_digit)) in H.
    rewrite digits_padded in H. cbn in H. discriminate.
  - apply (f_equal (forallb is_digit)) in H.
    rewrite digits_padded in H. cbn in H. discriminate.
  - apply (f_equal value) in H.
    rewrite !value_zeros, !value_str_nat in H. lia.
Qed.

Lemma forallb_impl (p q : ascii -> bool) (s : string) :
  (forall c, p c = true -> q c = true) ->
  forallb p s = true -> forallb q s = true.
Proof.
  intros Hpq. induction s as [|c s IH]; [reflexivity|].
  cbn [forallb]. rewrite !andb_true_iff. intros [Hc Hs]. auto.
Qed.

Lemma numeric_format_04d (z : Z) : forallb numeric (format_04d z) = true.
Proof.
  assert (Hd : forall c, is_digit c = true -> numeric c = true).
  { intros c Hc. unfold numeric. now rewrite Hc. }
  unfold format_04d. destruct (z <? 0).
  - cbn [forallb]. apply andb_true_iff. split; [reflexivity|].
    apply (forallb_impl _ _ _ Hd), digits_padded.
  - apply (forallb_impl _ _ _ Hd), digits_padded.
Qed.

(** Two texts that agree up to and including the first [c] agree before it. *)
Lemma first_separator (p : ascii -> bool) (c : ascii) (a b r1 r2 : string) :
  p c = false -> forallb p a = true -> forallb p b = true ->
  a ++ String c r1 = b ++ String c r2 -> a = b.
Proof.
  intros Hc. revert b. induction a as [|x a IH]; intros [|y b]; cbn [append forallb].
  - reflexivity.
  - intros _ Hb H. injection H as <- _.
    apply andb_true_iff in Hb as [Hy _]. congruence.
  - intros Ha _ H. injection H as -> _.
    apply andb_true_iff in Ha as [Hx _]. congruence.
  - intros Ha Hb H. injection H as -> H.
    apply andb_true_iff in Ha as [_ Ha]. apply andb_true_iff in Hb as [_ Hb].
    f_equal. now apply IH.
Qed.

End FmtFacts.

(** Names with distinct sequence indices are distinct strings, whatever
    the URLs, their hashes and the extensions. *)
Lemma hash_to_name_index_inj (u1 u2 : string) (i1 i2 : Z) (e1 e2 : string) :
  hash_to_name u1 i1 e1 = hash_to_name u2 i2 e2 -> i1 = i2.
Proof.
  unfold hash_to_name. intros H. apply FmtFacts.format_04d_inj.
  apply (FmtFacts.first_separator Fmt.numeric "_" _ _ _ _ eq_refl
           (FmtFacts.numeric_format_04d i1) (FmtFacts.numeric_format_04d i2) H).
Qed.

(** ** What a run leaves behind *)

Lemma saved_files_app (a b : list event) :
  saved_files (a ++ b) = (saved_files a ++ saved_files b)%list.
Proof.
  induction a as [|e a IH]; [reflexivity|].
  destruct e as [| | ? ? []| | | | | | | | |]; cbn [saved_files app]; now rewrite ?IH.
Qed.

Lemma fetched_app (a b : list event) :
  fetched (a ++ b) = (fetched a ++ fetched b)%list.
Proof.
  induction a as [|e a IH]; [reflexivity|].
  destruct e; cbn [fetched app]; now rewrite ?IH.
Qed.

Lemma fetched_In (evs : list event) (i : nat) (u : string) :
  In (EvGet i u) evs -> In i (fetched evs).
Proof.
  induction evs as [|e evs IH]; [intros []|].
  intros [->|H]; [now left|]. destruct e; cbn [fetched]; auto using in_cons.
Qed.

Lemma named_app (out : string) (count : Z) (a b : list (string * string)) :
  named out count (a ++ b)
  = (named out count a ++ named out (count + Z.of_nat (List.length a)) b)%list.
Proof.
  revert count. induction a as [|[u e] a IH]; intros count.
  - cbn. now rewrite Z.add_0_r.
  - cbn [named app List.length]. rewrite IH. do 3 f_equal. lia.
Qed.

Lemma named_length (out : string) (count : Z) (saves : list (string * string)) :
  List.length (named out count saves) = List.length saves.
Proof.
  revert count. induction saves as [|[u e] saves IH]; intros count;
    [reflexivity | cbn; now rewrite IH].
Qed.

Lemma hash_to_name_relative (url : string) (idx : Z) (ext : string) :
  PyStr.startswith (hash_to_name url idx ext) "/" = false.
Proof.
  unfold hash_to_name. pose proof (FmtFacts.numeric_format_04d idx) as H.
  destruct (Fmt.format_04d idx) as [|c s]; [reflexivity|].
  cbn [PyStr.forallb] in H. apply andb_true_iff in H as [H _].
  cbn [append PyStr.startswith PyStr.is_prefix].
  destruct (Ascii.eqb_spec "/"%char c) as [<-|]; [discriminate H | reflexivity].
Qed.

Lemma join_name_inj (out u1 u2 : string) (i1 i2 : Z) (e1 e2 : string) :
  OsPath.join out (hash_to_name u1 i1 e1) = OsPath.join out (hash_to_name u2 i2 e2) ->
  hash_to_name u1 i1 e1 = hash_to_name u2 i2 e2.
Proof.
  unfold OsPath.join. rewrite !hash_to_name_relative.
  destruct (negb (PyStr.truthy out) || PyStr.endswith out "/"); intros H.
  - now apply PyStrFacts.append_inv_head in H.
  - apply PyStrFacts.append_inv_head in H. now injection H.
Qed.

Lemma named_index (out : string) (count : Z) (saves : list (string * string))
      (f : string) :
  In f (named out count saves) ->
  exists url idx ext, count < idx /\ f = OsPath.join out (hash_to_name url idx ext).
Proof.
  revert count. induction saves as [|[u e] saves IH]; intros count; [intros []|].
  intros [<-|H].
  - exists u, (count + 1), e. split; [lia | reflexivity].
  - destruct (IH _ H) as (u' & idx & e' & Hlt & ->).
    exists u', idx, e'. split; [lia | reflexivity].
Qed.

(** Consecutive indices give pairwise distinct paths. *)
Lemma named_NoDup (out : string) (count : Z) (saves : list (string * string)) :
  NoDup (named out count saves).
Proof.
  revert count. induction saves as [|[u e] saves IH]; intros count; [constructor|].
  cbn [named]. constructor; [|apply IH].
  intros H. apply named_index in H as (u' & idx & e' & Hlt & Heq).
  apply join_name_inj, hash_to_name_index_inj in Heq. lia.
Qed.

(** Every path through an iteration, with the equations of the tests that
    lead to it. *)
Ltac walk_sleeps :=
  repeat match goal with
         | H : is_Exception ?x = _ |- context [is_Exception ?x] =>
             rewrite H; cbn [fst snd app is_Exception]
         | |- context [time_sleep ?r ?i ?s ?d] =>
             let Hs := fresh "Hsleep" in
             let es := fresh "es" in
             let Hes := fresh "Hes" in
             destruct (time_sleep r i s d) as [[]|es] eqn:Hs;
             cbn [fst snd app is_Exception];
             [ | destruct (is_Exception es) eqn:Hes;
                 cbn [fst snd app is_Exception];
                 rewrite ?Hes; cbn [fst snd app is_Exception] ]
         end.

Ltac walk_body rt cfg img_url resp :=
  destruct (content resp) as [body|e] eqn:Hbody;
  [ destruct (infer_extension rt resp img_url) as [ext|e] eqn:Hext;
    [ destruct (too_small rt cfg body) as [[|]|e] eqn:Hsmall;
      try (destruct (write_file rt _ body) as [[]|e] eqn:Hwrite)
    | ]
  | ].

Ltac walk_attempt rt cfg i img_url :=
  unfold attempt, save;
  (destruct (session_get rt i img_url) as [resp|e] eqn:Hget;
   [ destruct (Z.leb_spec 400 (status_code resp)) as [Hstatus|Hstatus];
     [ | destruct (content_type_is_image resp) eqn:Hctype;
         destruct (PIL_AVAILABLE rt) eqn:Hpil; cbn [negb andb];
         [ walk_body rt cfg img_url resp | walk_body rt cfg img_url resp
         | walk_body rt cfg img_url resp | ] ]
   | ]);
  try (destruct (is_Exception e) eqn:Hexn);
  cbn [fst snd app is_Exception];
  walk_sleeps.

Ltac walk_iteration rt cfg i img_url count :=
  unfold iteration;
  destruct (Z.leb_spec (max_images cfg) count) as [Hcap|Hcap];
  [ | destruct (only_same_domain cfg) eqn:Honly;
      [ destruct (same_domain (base_url cfg) img_url) as [[|]|e0] eqn:Hsame;
        cbn [bind negb]; [ walk_attempt rt cfg i img_url | | ]
      | walk_attempt rt cfg i img_url ] ];
  cbn [fst snd app is_Exception].

Section DownloadFacts.

Variable rt : Runtime.
Variable cfg : Config.

(** An iteration saves nothing and keeps the count, or it saves one file
    under the next index, which it can do only under the cap. *)
Lemma iteration_cases (i : nat) (img_url : string) (count : Z) :
  (saved_files (snd (iteration rt cfg i img_url count)) = []
   /\ forall count',
        fst (iteration rt cfg i img_url count) = Next count'
        \/ fst (iteration rt cfg i img_url count) = Break count' ->
        count' = count)
  \/ (exists ext,
         count < max_images cfg
         /\ saved_files (snd (iteration rt cfg i img_url count))
            = [OsPath.join (out_dir cfg) (hash_to_name img_url (count + 1) ext)]
         /\ (fst (iteration rt cfg i img_url count) = Next (count + 1)
             \/ fst (iteration rt cfg i img_url count) = Break (count + 1)
             \/ exists e, fst (iteration rt cfg i img_url count) = Propagate e)).
Proof.
  walk_iteration rt cfg i img_url count;
    first
      [ left; split;
        [ reflexivity | intros ? [?|?]; congruence ]
      | right; exists ext; cbn [saved_files];
        (split; [exact Hcap | split; [reflexivity|]]);
        first [ left; reflexivity
              | right; left; reflexivity
              | right; right; eexists; reflexivity ] ].
Qed.

Lemma iteration_fetched (i j : nat) (img_url : string) (count : Z) :
  In j (fetched (snd (iteration rt cfg i img_url count))) -> j = i.
Proof.
  walk_iteration rt cfg i img_url count;
    cbn [fetched In]; intuition congruence.
Qed.

(** The invariant of the loop: the files saved are named by consecutive
    indices from the count on entry, their number is what the count
    gained, and the count does not pass the cap. *)
Lemma loop_invariant (img_urls : list string) (i : nat) (count : Z) :
  exists saves,
    saved_files (snd (loop rt cfg i img_urls count)) = named (out_dir cfg) count saves
    /\ count + Z.of_nat (List.length saves) <= Z.max count (max_images cfg)
    /\ forall count', fst (loop rt cfg i img_urls count) = Ok count' ->
                      count' = count + Z.of_nat (List.length saves).
Proof.
  revert i count. induction img_urls as [|u rest IH]; intros i count.
  { exists []. cbn. repeat split; [lia | intros ? [= <-]; lia]. }
  cbn [loop].
  destruct (iteration_cases i u count) as [[Hs Hc]|(ext & Hcap & Hs & Hf)];
    destruct (iteration rt cfg i u count) as [[c'|c'|e] evs] eqn:Hit;
    cbn [fst snd] in *.
  - rewrite (Hc c' (or_introl eq_refl)).
    destruct (IH (S i) count) as (saves & H1 & H2 & H3).
    destruct (loop rt cfg (S i) rest count) as [r evs'].
    exists saves. cbn [fst snd] in *. rewrite saved_files_app, Hs. auto.
  - rewrite (Hc c' (or_intror eq_refl)).
    exists []. cbn. rewrite Hs. repeat split; [lia | intros ? [= <-]; lia].
  - exists []. cbn. rewrite Hs. repeat split; [lia | discriminate].
  - destruct Hf as [[= ->]|[Hf|[e He]]]; [|discriminate Hf|discriminate He].
    destruct (IH (S i) (count + 1)) as (saves & H1 & H2 & H3).
    destruct (loop rt cfg (S i) rest (count + 1)) as [r evs'].
    exists ((u, ext) :: saves). cbn [fst snd named List.length] in *.
    rewrite saved_files_app, Hs, H1. repeat split; [lia|].
    intros c' Hr. rewrite (H3 c' Hr). lia.
  - destruct Hf as [Hf|[[= ->]|[e He]]]; [discriminate Hf| |discriminate He].
    exists [(u, ext)]. cbn [fst snd named List.length]. rewrite Hs.
    repeat split; [lia | intros ? [= <-]; lia].
  - exists [(u, ext)]. cbn [fst snd named List.length]. rewrite Hs.
    repeat split; [lia | discriminate].
Qed.

(** Once the count has reached the cap the remaining candidates are not
    looked at. *)
Lemma loop_stops_at_cap (pre rest : list string) (i : nat) (count : Z) :
  max_images cfg
    <= count + Z.of_nat (List.length (saved_files (snd (loop rt cfg i pre count)))) ->
  loop rt cfg i (pre ++ rest) count = loop rt cfg i pre count.
Proof.
  revert i count. induction pre as [|u pre IH]; intros i count Hcap.
  - cbn in Hcap. destruct rest as [|v rest]; [reflexivity|].
    cbn. unfold iteration.
    destruct (Z.leb_spec (max_images cfg) count); [reflexivity | lia].
  - cbn [loop app] in *.
    destruct (iteration_cases i u count) as [[Hs Hc]|(ext & _ & Hs & Hf)];
      destruct (iteration rt cfg i u count) as [[c'|c'|e] evs] eqn:Hit;
      cbn [fst snd] in *; try reflexivity.
    + rewrite (Hc c' (or_introl eq_refl)) in *.
      destruct (loop rt cfg (S i) pre count) as [r evs'] eqn:Hl.
      cbn [snd] in Hcap. rewrite saved_files_app, Hs in Hcap. cbn in Hcap.
      rewrite IH; rewrite Hl; [reflexivity | exact Hcap].
    + destruct Hf as [[= ->]|[Hf|[e He]]]; [|discriminate Hf|discriminate He].
      destruct (loop rt cfg (S i) pre (count + 1)) as [r evs'] eqn:Hl.
      cbn [snd] in Hcap. rewrite saved_files_app, Hs in Hcap.
      cbn [app List.length] in Hcap.
      rewrite IH; rewrite Hl; [reflexivity | cbn [snd]; lia].
Qed.

Lemma loop_fetched (img_urls : list string) (i j : nat) (count : Z) :
  In j (fetched (snd (loop rt cfg i img_urls count))) ->
  (i <= j < i + List.length img_urls)%nat.
Proof.
  revert i count. induction img_urls as [|u rest IH]; intros i count; [intros []|].
  cbn [loop].
  pose proof (iteration_fetched i j u count) as Hit.
  destruct (iteration rt cfg i u count) as [[c'|c'|e] evs]; cbn [snd List.length] in *.
  - pose proof (IH (S i) c') as IH'.
    destruct (loop rt cfg (S i) rest c') as [r evs']. cbn [snd] in *.
    rewrite fetched_app, in_app_iff. intros [H|H]; [apply Hit in H | apply IH' in H]; lia.
  - intros H. apply Hit in H. lia.
  - intros H. apply Hit in H. lia.
Qed.

End DownloadFacts.

Lemma named_names (out : string) (count : Z) (saves : list (string * string)) :
  named out count saves = List.map (OsPath.join out) (names count saves).
Proof.
  revert count. induction saves as [|[u e] saves IH]; intros count;
    [reflexivity | cbn; now rewrite IH].
Qed.

Lemma names_NoDup (count : Z) (saves : list (string * string)) :
  NoDup (names count saves).
Proof.
  pose proof (named_NoDup EmptyString count saves) as H.
  rewrite named_names in H. now apply NoDup_map_inv in H.
Qed.

(** ** The cap on saved images *)

(** C2: with a maximum of at least one, a run saves at most that many
    images, the count it returns is the number of files it saved, and once
    the candidates of a prefix of the list have filled the cap the run is
    the run on that prefix: no request is sent for any later candidate. *)
Theorem download_images_cap (rt : Runtime) (cfg : Config) (img_urls : list string) :
  1 <= max_images cfg ->
  let run := download_images rt cfg img_urls in
  Z.of_nat (List.length (saved_files (snd run))) <= max_images cfg
  /\ (forall count, fst run = Ok count ->
                    count = Z.of_nat (List.length (saved_files (snd run))))
  /\ (forall pre rest,
         img_urls = (pre ++ rest)%list ->
         max_images cfg
           <= Z.of_nat (List.length (saved_files (snd (download_images rt cfg pre)))) ->
         run = download_images rt cfg pre
         /\ forall i url, In (EvGet i url) (snd run) -> (i <= List.length pre)%nat).
Proof.
  intros Hm run. subst run. unfold download_images.
  destruct (makedirs rt (out_dir cfg)) as [[]|e].
  2:{ cbn. split; [lia|]. split; [discriminate|].
      intros pre rest _ _. split; [reflexivity|].
      intros i url [H|[]]. discriminate H. }
  destruct (loop_invariant rt cfg img_urls 1 0) as (saves & Hs & Hle & Hc).
  destruct (loop rt cfg 1 img_urls 0) as [r evs] eqn:Hrun. cbn [fst snd] in *.
  cbn [saved_files]. rewrite Hs, named_length. repeat split.
  - lia.
  - intros count ->. rewrite (Hc count eq_refl). lia.
  - subst img_urls. rewrite loop_stops_at_cap in Hrun.
    + now rewrite Hrun.
    + destruct (loop rt cfg 1 pre 0). cbn [snd saved_files] in *. lia.
  - subst img_urls. intros i url [Hin|Hin]; [discriminate|].
    apply fetched_In in Hin.
    rewrite loop_stops_at_cap in Hrun.
    + pose proof (loop_fetched rt cfg pre 1 i 0) as Hf.
      rewrite Hrun in Hf. cbn [snd] in Hf. apply Hf in Hin. lia.
    + destruct (loop rt cfg 1 pre 0). cbn [snd saved_files] in *. lia.
Qed.

(** Ten downloadable candidates and a maximum of three: three files, and
    requests for the first three candidates only. *)
Example ten_candidates_cap_three :
  let run := download_images all_downloadable cap_three ten_candidates in
  fst run = Ok 3
  /\ List.length (saved_files (snd run)) = 3%nat
  /\ fetched (snd run) = [1; 2; 3]%nat.
Proof. vm_compute. repeat split. Qed.

(** C2 on the ten downloadable candidates with a maximum of three. *)
Lemma download_images_cap_witness :
  let run := download_images all_downloadable cap_three ten_candidates in
  Z.of_nat (List.length (saved_files (snd run))) <= 3
  /\ (forall count, fst run = Ok count ->
                    count = Z.of_nat (List.length (saved_files (snd run))))
  /\ (forall pre rest,
         ten_candidates = (pre ++ rest)%list ->
         3 <= Z.of_nat (List.length
                          (saved_files (snd (download_images all_downloadable cap_three pre)))) ->
         run = download_images all_downloadable cap_three pre
         /\ forall i url, In (EvGet i url) (snd run) -> (i <= List.length pre)%nat).
Proof.
  apply (download_images_cap all_downloadable cap_three ten_candidates).
  simpl. lia.
Defined.

(** ** Distinct file names *)

(** C8: the files saved by a run are named [hash_to_name url k ext] with
    [k] running over 1, 2, 3, ... in the order of the saves; these names,
    and the paths they give under the output directory, are pairwise
    distinct, because names with distinct indices differ whatever the
    hashes and the extensions. *)
Theorem saved_filenames_distinct (rt : Runtime) (cfg : Config) (img_urls : list string) :
  let evs := snd (download_images rt cfg img_urls) in
  (exists saves,
      saved_files evs = List.map (OsPath.join (out_dir cfg)) (names 0 saves)
      /\ NoDup (names 0 saves))
  /\ NoDup (saved_files evs)
  /\ (forall u1 u2 i1 i2 e1 e2,
         i1 <> i2 -> hash_to_name u1 i1 e1 <> hash_to_name u2 i2 e2).
Proof.
  cbv zeta. unfold download_images.
  assert (Hinj : forall u1 u2 i1 i2 e1 e2,
             i1 <> i2 -> hash_to_name u1 i1 e1 <> hash_to_name u2 i2 e2).
  { intros u1 u2 i1 i2 e1 e2 Hne Heq. apply Hne.
    exact (hash_to_name_index_inj _ _ _ _ _ _ Heq). }
  destruct (makedirs rt (out_dir cfg)) as [[]|e].
  2:{ cbn. repeat split; [exists []; split; [reflexivity|constructor] | constructor | exact Hinj]. }
  destruct (loop_invariant rt cfg img_urls 1 0) as (saves & Hs & _).
  destruct (loop rt cfg 1 img_urls 0) as [r evs]. cbn [fst snd saved_files] in *.
  rewrite Hs. repeat split.
  - exists saves. split; [apply named_names | apply names_NoDup].
  - apply named_NoDup.
  - exact Hinj.
Qed.

(** ** The dimension filter fails open *)

(** C9: with Pillow available and a minimum width or height configured, a
    body that Pillow cannot open is not rejected: the filter answers
    "not too small" without raising, and the candidate (fetched with a
    status under 400, under the cap and past the domain check) goes on to
    be written under the next index; when the write succeeds the file is
    saved and, the sleep that follows returning, the count grows by one. *)
Theorem undecodable_body_is_saved
        (rt : Runtime) (cfg : Config) (i : nat) (img_url : string) (count : Z)
        (resp : Response) (body ext : string) (e : exn) :
  PIL_AVAILABLE rt = true ->
  min_w cfg <> 0 \/ min_h cfg <> 0 ->
  image_size rt body = Raised e ->
  is_Exception e = true ->
  count < max_images cfg ->
  only_same_domain cfg = false \/ same_domain (base_url cfg) img_url = Ok true ->
  session_get rt i img_url = Ok resp ->
  status_code resp < 400 ->
  content resp = Ok body ->
  infer_extension rt resp img_url = Ok ext ->
  let filepath := OsPath.join (out_dir cfg) (hash_to_name img_url (count + 1) ext) in
  too_small rt cfg body = Ok false
  /\ (exists ok, In (EvWrite filepath body ok) (snd (iteration rt cfg i img_url count)))
  /\ (write_file rt filepath body = Ok tt ->
      saved_files (snd (iteration rt cfg i img_url count)) = [filepath]
      /\ (time_sleep rt i SleepSaved (delay cfg) = Ok tt ->
          iteration rt cfg i img_url count
          = (Next (count + 1),
             [EvGet i img_url;
              EvWrite filepath body true;
              EvPrint ("[" ++ Fmt.str (count + 1) ++ "] Saved " ++ img_url
                       ++ " -> " ++ filepath);
              EvSleep (delay cfg)]))).
Proof.
  intros Hpil Hmin Hsize Hexn Hcap Hdom Hget Hstatus Hbody Hext filepath.
  assert (Hsmall : too_small rt cfg body = Ok false).
  { unfold too_small. rewrite Hpil, Hsize, Hexn.
    replace (nonzero (min_w cfg) || nonzero (min_h cfg)) with true; [reflexivity|].
    symmetry. apply orb_true_iff. unfold nonzero.
    destruct Hmin as [H|H]; [left|right]; apply negb_true_iff, Z.eqb_neq, H. }
  split; [exact Hsmall|].
  assert (Hdom' : (if only_same_domain cfg
                   then let* same := same_domain (base_url cfg) img_url in
                        Ok (negb same)
                   else Ok false) = Ok false).
  { destruct Hdom as [-> | Hsame]; [reflexivity|].
    rewrite Hsame. now destruct (only_same_domain cfg). }
  unfold iteration, attempt, save.
  destruct (Z.leb_spec (max_images cfg) count); [lia|].
  rewrite Hdom', Hget.
  destruct (Z.leb_spec 400 (status_code resp)); [lia|].
  rewrite Hpil, andb_false_r, Hbody, Hext, Hsmall. fold filepath.
  destruct (write_file rt filepath body) as [[]|e'].
  - split; [exists true; walk_sleeps; cbn [fst snd app In]; auto|]. intros _.
    split; [walk_sleeps; reflexivity|]. intros Hsleep. now rewrite Hsleep.
  - split; [|discriminate].
    exists false. destruct (is_Exception e'); walk_sleeps;
      cbn [fst snd app In]; auto.
Qed.

(** C9 on an HTML body served for an extension-less URL, with a minimum
    width of 64 pixels. *)
Lemma undecodable_body_is_saved_witness :
  let filepath :=
    OsPath.join "images" (hash_to_name "https://site.test/logo" 1 ".html") in
  too_small pillow_html_page min_width_64 "<html></html>" = Ok false
  /\ (exists ok,
         In (EvWrite filepath "<html></html>" ok)
            (snd (iteration pillow_html_page min_width_64 1 "https://site.test/logo" 0)))
  /\ (write_file pillow_html_page filepath "<html></html>" = Ok tt ->
      saved_files (snd (iteration pillow_html_page min_width_64 1
                                  "https://site.test/logo" 0)) = [filepath]
      /\ (time_sleep pillow_html_page 1 SleepSaved (Finite (3 # 10)) = Ok tt ->
          iteration pillow_html_page min_width_64 1 "https://site.test/logo" 0
          = (Next 1,
             [EvGet 1 "https://site.test/logo";
              EvWrite filepath "<html></html>" true;
              EvPrint ("[" ++ Fmt.str 1 ++ "] Saved " ++ "https://site.test/logo"
                       ++ " -> " ++ filepath);
              EvSleep (Finite (3 # 10))]))).
Proof.
  apply (undecodable_body_is_saved pillow_html_page min_width_64 1
           "https://site.test/logo" 0 html_response "<html></html>" ".html"
           cannot_identify).
  - reflexivity.
  - left. simpl. lia.
  - reflexivity.
  - reflexivity.
  - simpl. lia.
  - left. reflexivity.
  - reflexivity.
  - simpl. lia.
  - reflexivity.
  - vm_compute. reflexivity.
Defined.

(** ** Content classification *)

(** Where the classifier does decide: without Pillow, a response whose
    Content-Type is not an image type is skipped: the iteration writes no
    file and leaves the count as it was. *)
Theorem non_image_skipped_without_pillow
        (rt : Runtime) (cfg : Config) (i : nat) (img_url : string) (count : Z)
        (resp : Response) :
  PIL_AVAILABLE rt = false ->
  session_get rt i img_url = Ok resp ->
  status_code resp < 400 ->
  content_type_is_image resp = false ->
  attempt rt cfg i img_url count = (None, count, [EvGet i img_url])
  /\ saved_files (snd (iteration rt cfg i img_url count)) = []
  /\ (forall filepath body ok,
         ~ In (EvWrite filepath body ok) (snd (iteration rt cfg i img_url count)))
  /\ (forall count', fst (iteration rt cfg i img_url count) = Next count' ->
                     count' = count).
Proof.
  intros Hpil Hget Hstatus Hctype.
  assert (Hat : attempt rt cfg i img_url count = (None, count, [EvGet i img_url])).
  { unfold attempt. rewrite Hget, Hctype, Hpil.
    now destruct (400 <=? status_code resp). }
  split; [exact Hat|].
  unfold iteration. rewrite Hat.
  destruct (max_images cfg <=? count).
  { cbn. repeat split; try discriminate. intros ? ? ? []. }
  destruct (if only_same_domain cfg then _ else _) as [[|]|e]; cbn;
    (split; [reflexivity|]); (split; [|congruence]).
  - intros ? ? ? [].
  - intros ? ? ? [H|[]]. discriminate H.
  - intros ? ? ? [].
Qed.

(** The same on an HTML page, without Pillow. *)
Lemma non_image_skipped_without_pillow_witness :
  attempt no_pillow_html_page defaults 1 "https://site.test/about.html" 0
  = (None, 0, [EvGet 1 "https://site.test/about.html"])
  /\ saved_files
       (snd (iteration no_pillow_html_page defaults 1 "https://site.test/about.html" 0))
     = []
  /\ (forall filepath body ok,
         ~ In (EvWrite filepath body ok)
              (snd (iteration no_pillow_html_page defaults 1
                              "https://site.test/about.html" 0)))
  /\ (forall count',
         fst (iteration no_pillow_html_page defaults 1
                        "https://site.test/about.html" 0) = Next count' ->
         count' = 0).
Proof.
  apply (non_image_skipped_without_pillow no_pillow_html_page defaults 1
           "https://site.test/about.html" 0 html_response).
  - reflexivity.
  - reflexivity.
  - simpl. lia.
  - vm_compute. reflexivity.
Defined.

(** C3 does not hold of the code when Pillow is available: a response
    with status 200 whose Content-Type is [text/html] is not skipped; the
    check with Pillow that the comment in the loop announces is never
    made, and with no minimum size configured the HTML page is written to
    storage and counted as a saved image. *)
Lemma non_image_saved_with_pillow :
  PIL_AVAILABLE pillow_html_page = true
  /\ session_get pillow_html_page 1 "https://site.test/about.html" = Ok html_response
  /\ status_code html_response < 400
  /\ content_type_is_image html_response = false
  /\ download_images pillow_html_page defaults ["https://site.test/about.html"]
     = (Ok 1,
        [EvMakedirs "images";
         EvGet 1 "https://site.test/about.html";
         EvWrite "images/0001_edb564d78475.html" "<html></html>" true;
         EvPrint "[1] Saved https://site.test/about.html -> images/0001_edb564d78475.html";
         EvSleep (Finite (3 # 10))]).
Proof. vm_compute. repeat split. Qed.

(** ** The politeness delay *)

(** C4 does not hold of the code: after a request answered with a status
    of 400 or more, and after one rejected by its Content-Type, the loop
    goes to the next candidate without sleeping; two such requests follow
    each other with no pause between them. *)
Theorem no_delay_after_rejected_response :
  download_images not_found defaults
                  ["https://site.test/missing.png"; "https://site.test/gone.png"]
  = (Ok 0,
     [EvMakedirs "images";
      EvGet 1 "https://site.test/missing.png";
      EvGet 2 "https://site.test/gone.png"])
  /\ download_images no_pillow_html_page defaults
                     ["https://site.test/about.html"; "https://site.test/terms.html"]
     = (Ok 0,
        [EvMakedirs "images";
         EvGet 1 "https://site.test/about.html";
         EvGet 2 "https://site.test/terms.html"]).
Proof. split; vm_compute; reflexivity. Qed.

(** Where the code does sleep: once after a save, after a dimension
    rejection and after an exception; never without a request. *)
Lemma delay_after_attempt (rt : Runtime) (cfg : Config) (i : nat) (img_url : string)
      (count : Z) :
  let evs := snd (iteration rt cfg i img_url count) in
  (sleeps evs <= 1)%nat
  /\ (fetched evs = [] -> sleeps evs = 0%nat)
  /\ (time_sleep rt i SleepSaved (delay cfg) = Ok tt ->
      saved_files evs <> [] -> sleeps evs = 1%nat).
Proof.
  cbv zeta. walk_iteration rt cfg i img_url count;
    cbn [sleeps fetched saved_files];
    repeat split; intros; (lia || congruence).
Qed.

(** ** Candidate extraction *)

Lemma mem_string_In (x : string) (l : list string) :
  mem_string x l = true <-> In x l.
Proof.
  induction l as [|y l IH]; cbn; [split; [discriminate | intros []]|].
  rewrite orb_true_iff, IH, String.eqb_eq. intuition congruence.
Qed.

Lemma fromkeys_from_In (seen l : list string) (x : string) :
  In x (fromkeys_from seen l) <-> In x l /\ ~ In x seen.
Proof.
  revert seen. induction l as [|y l IH]; intros seen; cbn; [tauto|].
  destruct (mem_string y seen) eqn:Hy.
  - apply mem_string_In in Hy. rewrite IH. intuition congruence.
  - assert (Hn : ~ In y seen) by (rewrite <- mem_string_In; congruence).
    cbn. rewrite IH. cbn.
    destruct (String.eqb_spec y x) as [->|Hne]; intuition congruence.
Qed.

Lemma fromkeys_from_NoDup (seen l : list string) : NoDup (fromkeys_from seen l).
Proof.
  revert seen. induction l as [|y l IH]; intros seen; cbn; [constructor|].
  destruct (mem_string y seen); [apply IH|].
  constructor; [|apply IH]. rewrite fromkeys_from_In. cbn. tauto.
Qed.

Lemma fromkeys_from_id (seen l : list string) :
  NoDup l -> (forall x, In x l -> ~ In x seen) -> fromkeys_from seen l = l.
Proof.
  revert seen. induction l as [|y l IH]; intros seen Hnd Hdis; [reflexivity|].
  inversion_clear Hnd as [|? ? Hy Hl]. cbn.
  destruct (mem_string y seen) eqn:Hm.
  - apply mem_string_In in Hm. elim (Hdis y (or_introl eq_refl) Hm).
  - f_equal. apply IH; [exact Hl|].
    intros x Hx [<-|Hs]; [contradiction | exact (Hdis x (or_intror Hx) Hs)].
Qed.

Lemma dict_fromkeys_In (l : list string) (x : string) :
  In x (dict_fromkeys l) <-> In x l.
Proof. unfold dict_fromkeys. rewrite fromkeys_from_In. cbn. tauto. Qed.

Lemma dict_fromkeys_NoDup (l : list string) : NoDup (dict_fromkeys l).
Proof. apply fromkeys_from_NoDup. Qed.

Lemma dict_fromkeys_id (l : list string) : NoDup l -> dict_fromkeys l = l.
Proof. intros H. apply fromkeys_from_id; [exact H | intros ? ? []]. Qed.

Lemma mapM_app {A B : Type} (f : A -> result B) (l1 l2 : list A) (r : list B) :
  mapM f (l1 ++ l2) = Ok r <->
  exists r1 r2, mapM f l1 = Ok r1 /\ mapM f l2 = Ok r2 /\ r = (r1 ++ r2)%list.
Proof.
  revert r. induction l1 as [|a l1 IH]; intros r; cbn.
  - split.
    + intros H. exists [], r. auto.
    + intros (r1 & r2 & [= <-] & H2 & ->). exact H2.
  - destruct (f a) as [b|e]; cbn.
    2:{ split; [discriminate | intros (r1 & r2 & H & _); discriminate]. }
    destruct (mapM f (l1 ++ l2)) as [bs|e] eqn:Hm; cbn.
    + destruct (proj1 (IH bs) eq_refl) as (r1 & r2 & H1 & H2 & ->).
      rewrite H1. cbn. split.
      * intros [= <-]. exists (b :: r1), r2. auto.
      * intros (r1' & r2' & [= <-] & H2' & ->). rewrite H2 in H2'.
        now injection H2' as <-.
    + split; [discriminate|]. intros (r1 & r2 & H1 & H2 & ->).
      destruct (mapM f l1) as [bs|e']; [|discriminate]. cbn in H1. injection H1 as <-.
      assert (Hc : @Raised (list B) e = Ok (bs ++ r2)%list); [|discriminate Hc].
      apply IH. exists bs, r2. auto.
Qed.

Lemma mapM_keep (f : string -> result string) (l r : list string) :
  (forall u v, f u = Ok v -> v = u) -> mapM f l = Ok r -> r = l.
Proof.
  intros Hf. revert r. induction l as [|a l IH]; intros r; cbn.
  - now intros [= <-].
  - destruct (f a) as [b|e] eqn:Ha; [|discriminate]. cbn.
    destruct (mapM f l) as [bs|e]; [|discriminate]. cbn.
    intros [= <-]. now rewrite (Hf _ _ Ha), (IH bs).
Qed.

Section ExtractionFacts.

Variable BeautifulSoup : string -> Bs4.soup.
Variable urls_set : PySet.

(** What [extract_image_urls] returns when it returns: the references of
    the [<img>] and metadata rules, resolved, without repetitions, in the
    order in which this run's set yields them.  The inline-style rule
    adds nothing to them. *)
Lemma extract_image_urls_returns (html base_url : string) (out : list string) :
  extract_image_urls BeautifulSoup urls_set html base_url = Ok out ->
  exists urls,
    mapM (Urllib.urljoin base_url) (discovered BeautifulSoup html) = Ok urls
    /\ Re.findall html = []
    /\ out = set_iter urls_set urls
    /\ Permutation out (dict_fromkeys urls)
    /\ NoDup out.
Proof.
  unfold extract_image_urls, discovered.
  destruct (mapM (Urllib.urljoin base_url) (flat_map img_candidates _))
    as [img_urls|e] eqn:Himg; [cbn [bind] | discriminate].
  destruct (mapM (Urllib.urljoin base_url) (meta_candidates _))
    as [meta_urls|e] eqn:Hmeta; [cbn [bind] | discriminate].
  destruct (Re.findall html) as [|m ms]; [cbn [bind] | discriminate].
  match goal with
  | |- context [mapM ?f (set_iter urls_set ?l)] =>
      destruct (mapM f (set_iter urls_set l)) as [filtered|e] eqn:Hf
  end; [cbn [bind] | discriminate].
  intros [= <-]. exists (img_urls ++ meta_urls)%list.
  apply mapM_keep in Hf.
  2:{ intros u v. destruct (Urllib.urlparse u ""); cbn; [|discriminate].
      destruct (_ && _); now intros [= <-]. }
  subst filtered.
  pose proof (set_iter_perm urls_set (img_urls ++ meta_urls)) as Hperm.
  assert (Hnd : NoDup (set_iter urls_set (img_urls ++ meta_urls))).
  { apply (Permutation_NoDup (Permutation_sym Hperm)), dict_fromkeys_NoDup. }
  rewrite (dict_fromkeys_id _ Hnd). repeat split; try assumption.
  apply mapM_app. eauto.
Qed.

End ExtractionFacts.

(** C1 does not hold of the code: the references are collected in a set,
    and the output follows the order in which the set is iterated.  The
    scenario's references are discovered in the order a, b, c, d.  A run
    whose set yields its elements in insertion order returns them so; a
    run under hash seed 0 returns b, a, d, c; a run whose set yields them
    in reverse returns d, c, b, a. *)
Theorem extraction_order_is_set_order :
  mapM (Urllib.urljoin "https://site.test/page") (discovered parse_sample scenario_html)
  = Ok ["https://site.test/a.png"; "https://site.test/b.png";
        "https://site.test/c.png"; "https://cdn.test/d.png"]
  /\ extract_image_urls parse_sample insertion_order
                        scenario_html "https://site.test/page"
     = Ok ["https://site.test/a.png"; "https://site.test/b.png";
           "https://site.test/c.png"; "https://cdn.test/d.png"]
  /\ extract_image_urls parse_sample hash_seed_0_order
                        scenario_html "https://site.test/page"
     = Ok ["https://site.test/b.png"; "https://site.test/a.png";
           "https://cdn.test/d.png"; "https://site.test/c.png"]
  /\ extract_image_urls parse_sample reverse_order
                        scenario_html "https://site.test/page"
     = Ok ["https://cdn.test/d.png"; "https://site.test/c.png";
           "https://site.test/b.png"; "https://site.test/a.png"].
Proof. repeat split; vm_compute; reflexivity. Qed.

(** C6 does not hold of the code: the pattern of the inline-style rule asks
    for a backslash after [url], so that [url(/img/bg.png)] is not matched
    and its resolution is not among the candidates; and a text that the
    pattern does match makes the extraction raise. *)
Theorem inline_style_reference_not_extracted :
  Re.findall styled_html = []
  /\ Urllib.urljoin "https://site.test/page" "/img/bg.png"
     = Ok "https://site.test/img/bg.png"
  /\ extract_image_urls parse_sample insertion_order
                        styled_html "https://site.test/page"
     = Ok []
  /\ Re.findall path_html = [("bin\", "bin")]
  /\ extract_image_urls parse_sample insertion_order
                        path_html "https://site.test/page"
     = Raised (AttributeError "'tuple' object has no attribute 'strip'").
Proof. repeat split; vm_compute; reflexivity. Qed.

(** C7 does not hold of the code: only the inline-style rule looks for the
    [data:] prefix; a data URI in an [<img>] attribute is returned as a
    candidate. *)
Theorem data_uri_in_img_is_extracted :
  extract_image_urls parse_sample insertion_order
                     embedded_html "https://site.test/page"
  = Ok ["data:image/png;base64,iVBORw0KGgo="]
  /\ PyStr.startswith (PyStr.lower "data:image/png;base64,iVBORw0KGgo=") "data:" = true.
Proof. split; vm_compute; reflexivity. Qed.

(** ** A page without candidates *)

(** C5 does not hold of the command-line run: [main] has no check on the
    number of candidates; with none it still announces the downloads,
    calls [download_images], which creates the output directory, and ends
    with the message of a completed run. *)
Theorem main_runs_downloads_without_candidates :
  extract_image_urls (BeautifulSoup plain_page) (urls_set plain_page)
                     plain_html "https://site.test/plain" = Ok []
  /\ main plain_page default_args
     = (Ok tt,
        [EvPrint "Found 0 candidate image URLs. Starting downloads...";
         EvMakedirs "images";
         EvPrint "Done. Saved 0 image(s) to 'images'."]).
Proof. split; vm_compute; reflexivity. Qed.

(** The start handler of the front end does make the check: when the
    extraction returns no candidate it warns and stops before the output
    directory is created or any request for an image is sent. *)
Lemma start_handler_stops_without_candidates (w : World) (args : Args) (html : string) :
  PyStr.truthy (arg_url args) = true ->
  robots_gate w (arg_no_robots args) (arg_url args) = Ok true ->
  fetch_html w (arg_url args) (arg_timeout args) = Ok html ->
  extract_image_urls (BeautifulSoup w) (urls_set w) html (arg_url args) = Ok [] ->
  start_handler w args
  = (Stopped,
     [EvLog "Recuperation de la page...";
      EvLog "Extraction des URLs d'images...";
      EvStWarning "Aucune image candidate trouvee sur cette page."]).
Proof.
  intros Hurl Hrobots Hpage Hextract. unfold start_handler.
  now rewrite Hurl, Hrobots, Hpage, Hextract.
Qed.

(** For the command-line run the same situation, in general. *)
Lemma main_without_candidates (w : World) (args : Args) (html : string) :
  robots_gate w (arg_no_robots args) (arg_url args) = Ok true ->
  fetch_html w (arg_url args) (arg_timeout args) = Ok html ->
  extract_image_urls (BeautifulSoup w) (urls_set w) html (arg_url args) = Ok [] ->
  makedirs (runtime w) (arg_out args) = Ok tt ->
  main w args
  = (Ok tt,
     [EvPrint "Found 0 candidate image URLs. Starting downloads...";
      EvMakedirs (arg_out args);
      EvPrint ("Done. Saved 0 image(s) to '" ++ arg_out args ++ "'.")]).
Proof.
  intros Hrobots Hpage Hextract Hdir. unfold main.
  rewrite Hrobots, Hpage, Hextract.
  unfold download_images. cbn [config_of_args out_dir]. rewrite Hdir. reflexivity.
Qed.

(** * Further properties of the code *)

(** ** Lists and results *)

Lemma mapM_In {A B : Type} (f : A -> result B) (l : list A) (r : list B) :
  mapM f l = Ok r ->
  forall b, In b r <-> exists a, In a l /\ f a = Ok b.
Proof.
  revert r. induction l as [|a l IH]; intros r; cbn.
  - intros [= <-] b. split; [intros [] | intros (a & [] & _)].
  - destruct (f a) as [b0|e] eqn:Ha; [cbn | discriminate].
    destruct (mapM f l) as [bs|e]; [cbn | discriminate].
    intros [= <-] b. cbn. rewrite (IH bs eq_refl b). split.
    + intros [<-|(a' & Hin & Hf)]; eauto.
    + intros (a' & [<-|Hin] & Hf); [left; congruence | right; eauto].
Qed.

Lemma mapM_length {A B : Type} (f : A -> result B) (l : list A) (r : list B) :
  mapM f l = Ok r -> List.length r = List.length l.
Proof.
  revert r. induction l as [|a l IH]; intros r; cbn.
  - now intros [= <-].
  - destruct (f a) as [b0|e]; [cbn | discriminate].
    destruct (mapM f l) as [bs|e]; [cbn | discriminate].
    intros [= <-]. cbn. now rewrite (IH bs).
Qed.

Lemma fromkeys_from_length (seen l : list string) :
  (List.length (fromkeys_from seen l) <= List.length l)%nat.
Proof.
  revert seen. induction l as [|x l IH]; intros seen; cbn; [lia|].
  destruct (mem_string x seen); cbn; [specialize (IH seen) | specialize (IH (x :: seen))]; lia.
Qed.

(** ** Candidate extraction, continued *)

(** X1: when [extract_image_urls] returns, its list has no repetition, it
    holds exactly the resolutions of the references that the [<img>] and
    metadata rules found, and it is no longer than the list of those
    references. *)
Theorem extracted_candidates
        (BeautifulSoup : string -> Bs4.soup) (urls_set : PySet)
        (html base_url : string) (out : list string) :
  extract_image_urls BeautifulSoup urls_set html base_url = Ok out ->
  NoDup out
  /\ (forall u, In u out <->
                exists ref, In ref (discovered BeautifulSoup html)
                            /\ Urllib.urljoin base_url ref = Ok u)
  /\ (List.length out <= List.length (discovered BeautifulSoup html))%nat.
Proof.
  intros H.
  destruct (extract_image_urls_returns _ _ _ _ _ H)
    as (urls & Hurls & _ & _ & Hperm & Hnd).
  split; [exact Hnd | split].
  - intros u. rewrite <- (mapM_In _ _ _ Hurls u). split; intros Hin.
    + apply dict_fromkeys_In. exact (Permutation_in _ Hperm Hin).
    + apply dict_fromkeys_In in Hin.
      exact (Permutation_in _ (Permutation_sym Hperm) Hin).
  - rewrite (Permutation_length Hperm), <- (mapM_length _ _ _ Hurls).
    apply fromkeys_from_length.
Qed.

(** X1 on the end-to-end scenario, under hash seed 0. *)
Lemma extracted_candidates_witness :
  let out := ["https://site.test/b.png"; "https://site.test/a.png";
              "https://cdn.test/d.png"; "https://site.test/c.png"] in
  NoDup out
  /\ (forall u, In u out <->
                exists ref, In ref (discovered parse_sample scenario_html)
                            /\ Urllib.urljoin "https://site.test/page" ref = Ok u)
  /\ (List.length out <= List.length (discovered parse_sample scenario_html))%nat.
Proof.
  apply (extracted_candidates parse_sample hash_seed_0_order scenario_html
                              "https://site.test/page").
  vm_compute. reflexivity.
Defined.

(** X2: a markup in which the pattern of the inline-style rule finds a
    match is never given a list of candidates: the extraction raises. *)
Theorem style_match_makes_extraction_raise
        (BeautifulSoup : string -> Bs4.soup) (urls_set : PySet)
        (html base_url : string) (m : string * string) (ms : list (string * string)) :
  Re.findall html = m :: ms ->
  exists e, extract_image_urls BeautifulSoup urls_set html base_url = Raised e.
Proof.
  intros Hm. unfold extract_image_urls.
  destruct (mapM (Urllib.urljoin base_url) (flat_map img_candidates _))
    as [img_urls|e]; cbn [bind]; [|now exists e].
  destruct (mapM (Urllib.urljoin base_url) (meta_candidates _))
    as [meta_urls|e]; cbn [bind]; [|now exists e].
  rewrite Hm. cbn [bind]. eexists. reflexivity.
Qed.

(** X2 on the page that holds a Windows path. *)
Lemma style_match_makes_extraction_raise_witness :
  exists e,
    extract_image_urls parse_sample insertion_order path_html "https://site.test/page"
    = Raised e.
Proof.
  apply (style_match_makes_extraction_raise parse_sample insertion_order path_html
           "https://site.test/page" ("bin\", "bin") []).
  vm_compute. reflexivity.
Defined.

(** ** Strings, continued *)

Module PyStrMore.
Import PyStr PyStrFacts.

Lemma forallb_rev (p : ascii -> bool) (s : string) :
  forallb p (rev s) = forallb p s.
Proof.
  induction s as [|c s IH]; [reflexivity|].
  rewrite rev_cons, FmtFacts.forallb_app, IH. cbn [forallb].
  rewrite andb_true_r. apply andb_comm.
Qed.

Lemma forallb_lstrip (p : ascii -> bool) (chars s : string) :
  forallb p s = true -> forallb p (lstrip chars s) = true.
Proof.
  induction s as [|c s IH]; [reflexivity|]. cbn [lstrip forallb].
  intros H. apply andb_true_iff in H as [Hc Hs].
  destruct (contains c chars); [now apply IH|].
  cbn [forallb]. now rewrite Hc, Hs.
Qed.

Lemma forallb_strip (p : ascii -> bool) (chars s : string) :
  forallb p s = true -> forallb p (strip chars s) = true.
Proof.
  intros H. unfold strip, rstrip.
  rewrite forallb_rev. apply forallb_lstrip. rewrite forallb_rev.
  now apply forallb_lstrip.
Qed.

Lemma contains_forallb (c : ascii) (s : string) :
  contains c s = negb (forallb (fun d => negb (Ascii.eqb c d)) s).
Proof.
  induction s as [|d s IH]; [reflexivity|]. cbn [contains forallb].
  rewrite IH. now destruct (Ascii.eqb c d).
Qed.

(** The pieces of a split hold the characters of the text other than the
    separator. *)
Lemma split_pieces (p : ascii -> bool) (sep : ascii) (s : string) :
  forallb (fun c => Ascii.eqb c sep || p c) s = true ->
  Forall (fun piece => forallb p piece = true) (split sep s).
Proof.
  induction s as [|c s IH]; cbn [split forallb].
  - intros _. constructor; [reflexivity | constructor].
  - intros H. apply andb_true_iff in H as [Hc Hs]. specialize (IH Hs).
    destruct (Ascii.eqb c sep); [constructor; [reflexivity | exact IH]|].
    cbn in Hc. destruct (split sep s) as [|w ws].
    + constructor; [cbn; now rewrite Hc | constructor].
    + inversion_clear IH as [|? ? Hw Hws].
      constructor; [cbn [forallb]; now rewrite Hc, Hw | exact Hws].
Qed.

Lemma split_nonempty (sep : ascii) (s : string) : split sep s <> [].
Proof.
  destruct s as [|c s]; cbn [split]; [discriminate|].
  destruct (Ascii.eqb c sep); [discriminate|].
  destruct (split sep s); discriminate.
Qed.

Lemma lstrip_fixed (chars s : string) : lstrip chars (lstrip chars s) = lstrip chars s.
Proof.
  induction s as [|c s IH]; [reflexivity|]. cbn [lstrip].
  destruct (contains c chars) eqn:Hc; [exact IH|].
  cbn [lstrip]. now rewrite Hc.
Qed.

Lemma lstrip_snoc (chars a : string) (c : ascii) :
  contains c chars = false ->
  lstrip chars (a ++ String c EmptyString) = lstrip chars a ++ String c EmptyString.
Proof.
  intros Hc. induction a as [|d a IH]; cbn [append lstrip].
  - now rewrite Hc.
  - destruct (contains d chars); [exact IH | reflexivity].
Qed.

Lemma rstrip_cons (chars s : string) (c : ascii) :
  contains c chars = false ->
  rstrip chars (String c s) = String c (rstrip chars s).
Proof.
  intros Hc. unfold rstrip.
  rewrite rev_cons, (lstrip_snoc _ _ _ Hc), rev_app. reflexivity.
Qed.

Lemma lstrip_head (chars s : string) :
  match lstrip chars s with
  | EmptyString => True
  | String c _ => contains c chars = false
  end.
Proof.
  induction s as [|c s IH]; [exact I|]. cbn [lstrip].
  destruct (contains c chars) eqn:Hc; [exact IH | exact Hc].
Qed.

(** Stripping twice is stripping once. *)
Lemma strip_fixed (chars s : string) : strip chars (strip chars s) = strip chars s.
Proof.
  unfold strip.
  assert (Hl : lstrip chars (rstrip chars (lstrip chars s))
               = rstrip chars (lstrip chars s)).
  { pose proof (lstrip_head chars s) as Hh.
    destruct (lstrip chars s) as [|c t]; [reflexivity|].
    rewrite (rstrip_cons _ _ _ Hh). cbn [lstrip]. now rewrite Hh. }
  rewrite Hl. unfold rstrip at 1 2. rewrite rev_involutive, lstrip_fixed.
  reflexivity.
Qed.

End PyStrMore.

(** X3: every entry that the [srcset] rule takes from an attribute value is
    a non-empty text without comma or space and with no white space around
    it, whatever the attribute value. *)
Theorem srcset_entries_are_clean (srcset : string) :
  List.forallb srcset_entry_ok (srcset_urls srcset) = true.
Proof.
  unfold srcset_urls. apply forallb_forall. intros e He.
  apply in_flat_map in He as (part & Hpart & He).
  set (keep := fun d : ascii => negb (Ascii.eqb "," d) && negb (Ascii.eqb " " d)) in *.
  assert (Hcomma : PyStr.forallb (fun d => negb (Ascii.eqb "," d)) part = true).
  { pose proof (PyStrMore.split_pieces (fun d => negb (Ascii.eqb "," d)) "," srcset) as H.
    rewrite Forall_forall in H. apply H; [|exact Hpart].
    clear. induction srcset as [|c s IH]; [reflexivity|]. cbn [PyStr.forallb].
    rewrite IH, andb_true_r, (Ascii.eqb_sym "," c). now destruct (Ascii.eqb c ","). }
  set (piece := hd EmptyString (PyStr.split " " (PyStr.strip_ws part))) in *.
  assert (Hpiece : PyStr.forallb keep piece = true).
  { pose proof (PyStrMore.split_pieces keep " " (PyStr.strip_ws part)) as H.
    assert (Hall : PyStr.forallb (fun c => Ascii.eqb c " " || keep c)
                                 (PyStr.strip_ws part) = true).
    { apply (FmtFacts.forallb_impl (fun d => negb (Ascii.eqb "," d))).
      - intros c Hc. unfold keep. rewrite Hc, (Ascii.eqb_sym " " c).
        now destruct (Ascii.eqb c " ").
      - now apply PyStrMore.forallb_strip. }
    specialize (H Hall). subst piece.
    destruct (PyStr.split " " (PyStr.strip_ws part)) as [|w ws] eqn:Hs;
      [reflexivity|]. now inversion_clear H. }
  destruct (PyStr.truthy (PyStr.strip_ws piece)) eqn:Htruthy; [|destruct He].
  destruct He as [<-|[]].
  assert (Hkeep : PyStr.forallb keep (PyStr.strip_ws piece) = true)
    by now apply PyStrMore.forallb_strip.
  unfold srcset_entry_ok. rewrite Htruthy.
  rewrite !PyStrMore.contains_forallb, !negb_involutive.
  rewrite (FmtFacts.forallb_impl keep (fun d => negb (Ascii.eqb "," d)) _
             (fun c Hc => proj1 (proj1 (andb_true_iff _ _) Hc)) Hkeep).
  rewrite (FmtFacts.forallb_impl keep (fun d => negb (Ascii.eqb " " d)) _
             (fun c Hc => proj2 (proj1 (andb_true_iff _ _) Hc)) Hkeep).
  unfold PyStr.strip_ws at 1. rewrite PyStrMore.strip_fixed.
  cbn [andb]. apply String.eqb_refl.
Qed.

(** X4: a preview metadata tag whose [content] is made of white space only
    makes the page's own URL a candidate: the blank reference resolves to
    the base. *)
Theorem blank_preview_adds_page_url
        (BeautifulSoup : string -> Bs4.soup) (urls_set : PySet)
        (html base_url : string) (out : list string) (tag : Bs4.Tag) (c : string) :
  PyStr.truthy base_url = true ->
  Bs4.find (BeautifulSoup html) "meta" "property" "og:image" = Some tag ->
  Bs4.get tag "content" = Some c ->
  PyStr.truthy c = true ->
  PyStr.strip_ws c = EmptyString ->
  extract_image_urls BeautifulSoup urls_set html base_url = Ok out ->
  In base_url out.
Proof.
  intros Hbase Hfind Hget Hc Hblank H.
  destruct (extract_image_urls_returns _ _ _ _ _ H)
    as (urls & Hurls & _ & _ & Hperm & _).
  apply (Permutation_in _ (Permutation_sym Hperm)), dict_fromkeys_In.
  apply (mapM_In _ _ _ Hurls). exists EmptyString. split.
  - unfold discovered. apply in_or_app. right.
    unfold meta_candidates, meta_props. cbn [flat_map].
    rewrite Hfind, Hget, Hc, Hblank. now left.
  - unfold Urllib.urljoin. now rewrite Hbase.
Qed.

(** X4 on a page whose preview tag holds one space. *)
Lemma blank_preview_adds_page_url_witness :
  In "https://site.test/page" ["https://site.test/page"].
Proof.
  apply (blank_preview_adds_page_url parse_blank insertion_order blank_html
           "https://site.test/page" ["https://site.test/page"] blank_tag " ").
  - reflexivity.
  - reflexivity.
  - reflexivity.
  - reflexivity.
  - reflexivity.
  - vm_compute. reflexivity.
Defined.

(** ** The helpers of the loop, continued *)

Lemma truthy_lower (s : string) : PyStr.truthy (PyStr.lower s) = PyStr.truthy s.
Proof. now destruct s. Qed.

(** X5: the extension that [infer_extension] returns is never empty: a file
    name always ends with a suffix. *)
Theorem infer_extension_not_empty
        (rt : Runtime) (resp : Response) (url ext : string) :
  infer_extension rt resp url = Ok ext -> PyStr.truthy ext = true.
Proof.
  unfold infer_extension.
  destruct (Urllib.urlparse url "") as [p|e]; [cbn [bind] | discriminate].
  destruct (PyStr.truthy (PyStr.lower (OsPath.splitext_ext (Urllib.path p)))) eqn:Hurl.
  - now intros [= <-].
  - destruct (if PyStr.truthy _ then _ else None) as [ext'|].
    + destruct (PyStr.truthy ext') eqn:Hext; now intros [= <-].
    + now intros [= <-].
Qed.

(** X5 on an extension-less URL served as WebP. *)
Lemma infer_extension_not_empty_witness : PyStr.truthy ".webp" = true.
Proof.
  apply (infer_extension_not_empty all_downloadable
           (mkResponse 200 [("content-type", "image/webp; q=1")] (Ok "RIFF"))
           "https://cdn.test/i/42" ".webp").
  vm_compute. reflexivity.
Defined.

(** X6: when the path of the URL has a suffix, [infer_extension] returns
    that suffix in lower case, whatever the response and the MIME table
    say: the URL is trusted over the server. *)
Theorem url_suffix_wins
        (rt rt' : Runtime) (resp resp' : Response) (url : string)
        (p : Urllib.ParseResult) :
  Urllib.urlparse url EmptyString = Ok p ->
  PyStr.truthy (OsPath.splitext_ext (Urllib.path p)) = true ->
  infer_extension rt resp url = Ok (PyStr.lower (OsPath.splitext_ext (Urllib.path p)))
  /\ infer_extension rt' resp' url = infer_extension rt resp url.
Proof.
  intros Hp Hext. unfold infer_extension. rewrite Hp. cbn [bind].
  now rewrite truthy_lower, Hext.
Qed.

(** X6 on a PNG URL against a response that declares a JPEG. *)
Lemma url_suffix_wins_witness :
  let jpeg := mkResponse 200 [("Content-Type", "image/jpeg")] (Ok "JFIF") in
  infer_extension all_downloadable jpeg "https://site.test/img/Pic.PNG?v=2"
  = Ok (PyStr.lower (OsPath.splitext_ext "/img/Pic.PNG"))
  /\ infer_extension not_found html_response "https://site.test/img/Pic.PNG?v=2"
     = infer_extension all_downloadable jpeg "https://site.test/img/Pic.PNG?v=2".
Proof.
  apply (url_suffix_wins all_downloadable not_found
           (mkResponse 200 [("Content-Type", "image/jpeg")] (Ok "JFIF"))
           html_response "https://site.test/img/Pic.PNG?v=2"
           (Urllib.mkParseResult "https" "site.test" "/img/Pic.PNG" "" "v=2" "")).
  - vm_compute. reflexivity.
  - vm_compute. reflexivity.
Defined.

(** X7: a response without a Content-Type header (or with an empty one) is
    not an image for the classifier, and its extension is inferred without
    the MIME table: from the URL, or the default. *)
Theorem missing_content_type
        (rt rt' : Runtime) (resp : Response) (url : string) :
  headers_get (headers resp) "Content-Type" EmptyString = EmptyString ->
  content_type_is_image resp = false
  /\ infer_extension rt resp url = infer_extension rt' resp url
  /\ forall ext p,
       infer_extension rt resp url = Ok ext ->
       Urllib.urlparse url EmptyString = Ok p ->
       PyStr.truthy (OsPath.splitext_ext (Urllib.path p)) = false ->
       ext = ".jpg".
Proof.
  intros Hh. unfold content_type_is_image, infer_extension. rewrite Hh.
  split; [reflexivity|]. split.
  - destruct (Urllib.urlparse url ""); reflexivity.
  - intros ext p H Hp Hext. rewrite Hp in H. cbn [bind] in H.
    rewrite truthy_lower, Hext in H. cbn in H. now injection H as <-.
Qed.

(** X7 on a response that has no header at all. *)
Lemma missing_content_type_witness :
  let bare := mkResponse 200 [] (Ok "GIF89a") in
  content_type_is_image bare = false
  /\ infer_extension all_downloadable bare "https://cdn.test/i/42"
     = infer_extension not_found bare "https://cdn.test/i/42"
  /\ forall ext p,
       infer_extension all_downloadable bare "https://cdn.test/i/42" = Ok ext ->
       Urllib.urlparse "https://cdn.test/i/42" EmptyString = Ok p ->
       PyStr.truthy (OsPath.splitext_ext (Urllib.path p)) = false ->
       ext = ".jpg".
Proof.
  apply (missing_content_type all_downloadable not_found
           (mkResponse 200 [] (Ok "GIF89a")) "https://cdn.test/i/42").
  reflexivity.
Defined.

(** When [same_domain] answers [True]. *)
Lemma same_domain_true (base_url target_url : string) :
  same_domain base_url target_url = Ok true ->
  exists b t,
    netloc_of base_url = Ok b /\ netloc_of target_url = Ok t
    /\ (t = b \/ exists pre, t = pre ++ "." ++ b).
Proof.
  unfold same_domain, netloc_of.
  destruct (Urllib.urlparse base_url "") as [pb|]; [cbn | discriminate].
  destruct (Urllib.urlparse target_url "") as [pt|]; [cbn | discriminate].
  intros [= H]. exists (Urllib.netloc pb), (Urllib.netloc pt).
  repeat split. apply orb_true_iff in H as [H|H].
  - left. apply String.eqb_eq in H. now symmetry.
  - right. now apply PyStrFacts.endswith_spec.
Qed.

(** X8: [same_domain] is transitive: a subdomain of a subdomain of the base
    is accepted for the base. *)
Theorem same_domain_transitive (a b c : string) :
  same_domain a b = Ok true ->
  same_domain b c = Ok true ->
  same_domain a c = Ok true.
Proof.
  intros Hab Hbc.
  apply same_domain_true in Hab as (na & nb & Ha & Hb & Hab).
  apply same_domain_true in Hbc as (nb' & nc & Hb' & Hc & Hbc).
  rewrite Hb in Hb'. injection Hb' as <-.
  rewrite (same_domain_total _ _ _ _ Ha Hc). f_equal. apply orb_true_iff.
  destruct Hbc as [->|[pre ->]].
  - destruct Hab as [->|[pre ->]].
    + left. apply String.eqb_refl.
    + right. apply PyStrFacts.endswith_spec. now exists pre.
  - right. apply PyStrFacts.endswith_spec.
    destruct Hab as [->|[pre' ->]].
    + now exists pre.
    + exists (pre ++ "." ++ pre').
      now rewrite !PyStrFacts.append_assoc.
Qed.

(** X8 on a host, a subdomain of it and a subdomain of that. *)
Lemma same_domain_transitive_witness :
  same_domain "https://a.com/page" "https://x.img.a.com/p.png" = Ok true.
Proof.
  apply (same_domain_transitive "https://a.com/page" "http://img.a.com"
                                "https://x.img.a.com/p.png").
  - reflexivity.
  - reflexivity.
Defined.

(** ** The naming function, continued *)

Module NameFacts.
Import PyStr Fmt.

Lemma length_append (a b : string) :
  String.length (a ++ b) = (String.length a + String.length b)%nat.
Proof. induction a as [|c a IH]; cbn; [reflexivity | now rewrite IH]. Qed.

Lemma length_zeros (k : nat) : String.length (zeros k) = k.
Proof. induction k as [|k IH]; cbn; [reflexivity | now rewrite IH]. Qed.

(** A number under [10 ^ k] is written with at most [k] digits, and with
    one at least. *)
Lemma length_digits_fuel (fuel k n : nat) (acc : string) :
  (n < 10 ^ k)%nat -> (0 < k)%nat ->
  (String.length acc < String.length (digits_fuel (S fuel) n acc)
   <= k + String.length acc)%nat.
Proof.
  revert k n acc. induction fuel as [|fuel IH]; intros k n acc Hn Hk.
  - cbn [digits_fuel]. destruct (n / 10)%nat; cbn [String.length]; lia.
  - change (digits_fuel (S (S fuel)) n acc)
      with (let acc' := String (digit (n mod 10)) acc in
            match (n / 10)%nat with
            | O => acc'
            | q => digits_fuel (S fuel) q acc'
            end).
    cbv zeta. destruct (n / 10)%nat as [|q] eqn:Hq; [cbn [String.length]; lia|].
    destruct k as [|[|k]]; [lia | |].
    + cbn in Hn. assert (n / 10 = 0)%nat by (apply Nat.div_small; lia). lia.
    + assert (Hq' : (S q < 10 ^ S k)%nat).
      { rewrite <- Hq. apply Nat.Div0.div_lt_upper_bound.
        now rewrite <- Nat.pow_succ_r'. }
      specialize (IH (S k) (S q) (String (digit (n mod 10)) acc) Hq' ltac:(lia)).
      cbn [String.length] in IH. lia.
Qed.

Lemma length_format_04d (z : Z) :
  0 <= z <= 9999 -> String.length (format_04d z) = 4%nat.
Proof.
  intros Hz. unfold format_04d.
  destruct (Z.ltb_spec z 0) as [Hneg|_]; [lia|].
  pose proof (length_digits_fuel (Z.abs_nat z) 4 (Z.abs_nat z) EmptyString) as Hlen.
  cbn [String.length] in Hlen. fold (str_nat (Z.abs_nat z)) in Hlen.
  assert (Hlt : (Z.abs_nat z < 10 ^ 4)%nat).
  { change (10 ^ 4)%nat with (Z.abs_nat 10000). lia. }
  specialize (Hlen Hlt ltac:(lia)).
  rewrite length_append, length_zeros. lia.
Qed.

Lemma value_format_04d (z : Z) : 0 <= z -> Z.of_nat (value (format_04d z)) = z.
Proof.
  intros Hz. unfold format_04d. destruct (Z.ltb_spec z 0); [lia|].
  rewrite FmtFacts.value_zeros, FmtFacts.value_str_nat. lia.
Qed.

Lemma partition_first (p : ascii -> bool) (sep : ascii) (a r : string) :
  p sep = false -> forallb p a = true ->
  partition sep (a ++ String sep r) = (a, Some r).
Proof.
  intros Hsep. induction a as [|c a IH]; cbn [append partition forallb].
  - intros _. now rewrite Ascii.eqb_refl.
  - intros H. apply andb_true_iff in H as [Hc Ha].
    destruct (Ascii.eqb_spec c sep) as [->|_]; [congruence|].
    now rewrite (IH Ha).
Qed.

Lemma length_take (n : nat) (s : string) :
  (n <= String.length s)%nat -> String.length (take n s) = n.
Proof.
  revert s. induction n as [|n IH]; intros [|c s]; cbn; try lia.
  intros H. rewrite IH; lia.
Qed.

Lemma forallb_take (p : ascii -> bool) (n : nat) (s : string) :
  forallb p s = true -> forallb p (take n s) = true.
Proof.
  revert s. induction n as [|n IH]; intros [|c s]; cbn; try reflexivity.
  intros H. apply andb_true_iff in H as [Hc Hs]. now rewrite Hc, IH.
Qed.

(** *** The digest *)

Lemma be_bytes_length (n : nat) (x : Z) : List.length (Sha1.be_bytes n x) = n.
Proof. induction n as [|n IH]; cbn; [reflexivity | now rewrite IH]. Qed.

Lemma be_bytes_bytes (n : nat) (x : Z) : Forall is_byte (Sha1.be_bytes n x).
Proof.
  induction n as [|n IH]; cbn [Sha1.be_bytes]; constructor; [|exact IH].
  unfold is_byte. change 0xFF with (Z.ones 8). rewrite Z.land_ones by lia.
  apply Z.mod_pos_bound. lia.
Qed.

Lemma hex_digit_hex (n : Z) : 0 <= n < 16 -> is_hex_lower (Sha1.hex_digit n) = true.
Proof.
  intros H. rewrite <- (Z2Nat.id n) by lia.
  assert (Hk : (Z.to_nat n < 16)%nat) by lia.
  revert Hk. generalize (Z.to_nat n) as k. intros k Hk.
  do 16 (destruct k as [|k]; [reflexivity|]). lia.
Qed.

Lemma hex_of_bytes_length (bs : list Z) :
  String.length (Sha1.hex_of_bytes bs) = (2 * List.length bs)%nat.
Proof. induction bs as [|b bs IH]; cbn [Sha1.hex_of_bytes String.length List.length]; lia. Qed.

Lemma hex_of_bytes_hex (bs : list Z) :
  Forall is_byte bs -> forallb is_hex_lower (Sha1.hex_of_bytes bs) = true.
Proof.
  induction 1 as [|b bs Hb Hbs IH]; [reflexivity|].
  cbn [Sha1.hex_of_bytes forallb]. unfold is_byte in Hb.
  rewrite IH, !hex_digit_hex; [reflexivity | |].
  - change 0xF with (Z.ones 4). rewrite Z.land_ones by lia.
    apply Z.mod_pos_bound. lia.
  - rewrite Z.shiftr_div_pow2 by lia. change (2 ^ 4) with 16.
    split; [apply Z.div_pos; lia | apply Z.div_lt_upper_bound; lia].
Qed.

(** A digest is forty lower-case hexadecimal digits. *)
Lemma hexdigest_shape (s : string) :
  String.length (Sha1.hexdigest s) = 40%nat
  /\ forallb is_hex_lower (Sha1.hexdigest s) = true.
Proof.
  unfold Sha1.hexdigest.
  destruct (Sha1.blocks _ _ _) as [[[[h0 h1] h2] h3] h4].
  split.
  - rewrite hex_of_bytes_length, !length_app, !be_bytes_length. reflexivity.
  - apply hex_of_bytes_hex.
    repeat (apply Forall_app; split); apply be_bytes_bytes.
Qed.

End NameFacts.

(** X9: for an index from 0 to 9999 a file name is four decimal digits, an
    underscore, twelve lower-case hexadecimal digits and the extension:
    seventeen characters before the extension. *)
Theorem hash_to_name_shape (url : string) (idx : Z) (ext : string) :
  0 <= idx <= 9999 ->
  exists digits hash,
    hash_to_name url idx ext = digits ++ "_" ++ hash ++ ext
    /\ String.length digits = 4%nat
    /\ PyStr.forallb PyStr.is_digit digits = true
    /\ String.length hash = 12%nat
    /\ PyStr.forallb is_hex_lower hash = true
    /\ String.length (hash_to_name url idx ext) = (17 + String.length ext)%nat.
Proof.
  intros Hidx. destruct (NameFacts.hexdigest_shape url) as [Hlen Hhex].
  exists (Fmt.format_04d idx), (PyStr.take 12 (Sha1.hexdigest url)).
  assert (Hd : String.length (Fmt.format_04d idx) = 4%nat)
    by now apply NameFacts.length_format_04d.
  assert (Hh : String.length (PyStr.take 12 (Sha1.hexdigest url)) = 12%nat)
    by (apply NameFacts.length_take; lia).
  repeat split; try assumption.
  - unfold Fmt.format_04d. destruct (Z.ltb_spec idx 0); [lia|].
    apply FmtFacts.digits_padded.
  - now apply NameFacts.forallb_take.
  - unfold hash_to_name. rewrite !NameFacts.length_append, Hd, Hh. cbn. lia.
Qed.

(** X9 on the first file of a run. *)
Lemma hash_to_name_shape_witness :
  exists digits hash,
    hash_to_name "https://site.test/a.png" 1 ".png" = digits ++ "_" ++ hash ++ ".png"
    /\ String.length digits = 4%nat
    /\ PyStr.forallb PyStr.is_digit digits = true
    /\ String.length hash = 12%nat
    /\ PyStr.forallb is_hex_lower hash = true
    /\ String.length (hash_to_name "https://site.test/a.png" 1 ".png")
       = (17 + String.length ".png")%nat.
Proof.
  apply (hash_to_name_shape "https://site.test/a.png" 1 ".png"). lia.
Defined.

(** X10: the sequence index can be read back from a file name: the number
    written before the first underscore is the index, for every index from
    zero up, whatever the URL and the extension. *)
Theorem index_of_hash_to_name (url : string) (idx : Z) (ext : string) :
  0 <= idx -> index_of_name (hash_to_name url idx ext) = idx.
Proof.
  intros Hidx. unfold index_of_name, hash_to_name.
  change ("_" ++ PyStr.take 12 (Sha1.hexdigest url) ++ ext)
    with (String "_" (PyStr.take 12 (Sha1.hexdigest url) ++ ext)).
  rewrite (NameFacts.partition_first Fmt.numeric "_" _ _ eq_refl
             (FmtFacts.numeric_format_04d idx)).
  now apply NameFacts.value_format_04d.
Qed.

(** X10 on an index that needs five digits. *)
Lemma index_of_hash_to_name_witness :
  index_of_name (hash_to_name "https://site.test/a_b.png" 12345 ".p_g") = 12345.
Proof.
  apply (index_of_hash_to_name "https://site.test/a_b.png" 12345 ".p_g"). lia.
Defined.

(** ** The download loop, continued *)

Section LoopFacts.

Variable rt : Runtime.
Variable cfg : Config.

Lemma iteration_inv (i : nat) (img_url : string) (count : Z) :
  snd (iteration rt cfg i img_url count) = []
  \/ fetch_facts rt cfg i img_url count (snd (iteration rt cfg i img_url count)).
Proof.
  unfold fetch_facts.
  walk_iteration rt cfg i img_url count;
    try (left; reflexivity);
    right; eexists; (split; [reflexivity|]); (split; [reflexivity|]);
    (split; [exact Hcap|]); (split; [congruence|]);
    intros filepath body' ok Hin; cbn [In] in Hin;
    repeat (destruct Hin as [Hin|Hin]; [try discriminate Hin|]);
    try contradiction;
    injection Hin as <- <- <-;
    eexists; (split; [reflexivity|]); (split; [exact Hstatus|]);
    (split; [assumption | congruence]).
Qed.

Lemma iteration_fetched_at_most_one (i : nat) (img_url : string) (count : Z) :
  fetched (snd (iteration rt cfg i img_url count)) = []
  \/ fetched (snd (iteration rt cfg i img_url count)) = [i].
Proof.
  destruct (iteration_inv i img_url count) as [->|(tail & -> & Hnone & _)];
    [now left | right]. cbn [fetched]. now rewrite Hnone.
Qed.

(** A request found among the events of an iteration is the one for its
    candidate, which passed the domain restriction. *)
Lemma iteration_request (i j : nat) (img_url u : string) (count : Z) :
  In (EvGet j u) (snd (iteration rt cfg i img_url count)) ->
  j = i /\ u = img_url
  /\ (only_same_domain cfg = true -> same_domain (base_url cfg) u = Ok true).
Proof.
  destruct (iteration_inv i img_url count) as [->|(tail & -> & Hnone & _ & Hdom & _)];
    [intros []|].
  intros [[= <- <-]|Hin]; [auto|].
  apply fetched_In in Hin. rewrite Hnone in Hin. destruct Hin.
Qed.

Lemma iteration_write (i : nat) (img_url : string) (count : Z)
      (filepath body : string) (ok : bool) :
  In (EvWrite filepath body ok) (snd (iteration rt cfg i img_url count)) ->
  In (EvGet i img_url) (snd (iteration rt cfg i img_url count))
  /\ exists resp,
      session_get rt i img_url = Ok resp
      /\ status_code resp < 400
      /\ content resp = Ok body
      /\ (PIL_AVAILABLE rt = false -> content_type_is_image resp = true).
Proof.
  destruct (iteration_inv i img_url count) as [->|(tail & -> & _ & _ & _ & Hw)];
    [intros []|].
  intros [Hin|Hin]; [discriminate Hin|]. split; [now left | eauto].
Qed.

(** The length checks of [time.sleep] come before the wait and raise
    [Exception]s. *)
Lemma time_sleep_rejected (i : nat) (site : sleep_site) (seconds : PyFloat) (err : exn) :
  sleep_rejects seconds = Some err -> time_sleep rt i site seconds = Raised err.
Proof. intros H. unfold time_sleep. now rewrite H. Qed.

Lemma sleep_rejects_Exception (seconds : PyFloat) (err : exn) :
  sleep_rejects seconds = Some err -> is_Exception err = true.
Proof.
  destruct seconds as [q| | |]; cbn [sleep_rejects];
    [ destruct (sleep_overflows q); [|destruct (Qle_bool 0 q); [discriminate|]] | | | ];
    now intros [= <-].
Qed.

(** The only exceptions that an iteration lets out are those of the domain
    check and of the sleep in the handler of [except Exception]. *)
Lemma iteration_propagates (i : nat) (img_url : string) (count : Z) (err : exn) :
  fst (iteration rt cfg i img_url count) = Propagate err ->
  time_sleep rt i SleepSkipped (delay cfg) = Raised err
  \/ (only_same_domain cfg = true
      /\ same_domain (base_url cfg) img_url = Raised err).
Proof.
  walk_iteration rt cfg i img_url count; intros H; try discriminate H;
    injection H as <-; auto.
Qed.

(** Under a delay that [time.sleep] refuses nothing sleeps, and an
    iteration that saves a file ends with the error of the refusal. *)
Lemma iteration_refused_delay (i : nat) (img_url : string) (count : Z) (err : exn) :
  sleep_rejects (delay cfg) = Some err ->
  sleeps (snd (iteration rt cfg i img_url count)) = 0%nat
  /\ (saved_files (snd (iteration rt cfg i img_url count)) = []
      \/ (fst (iteration rt cfg i img_url count) = Propagate err
          /\ exists filepath,
              saved_files (snd (iteration rt cfg i img_url count)) = [filepath])).
Proof.
  intros H. pose proof (sleep_rejects_Exception _ _ H) as Herr.
  unfold iteration, attempt, save.
  rewrite !(time_sleep_rejected _ _ _ _ H).
  walk_iteration rt cfg i img_url count;
    cbn [sleeps saved_files]; (split; [reflexivity|]);
    solve [ left; reflexivity
          | right; split; [reflexivity | eexists; reflexivity] ].
Qed.

Lemma iteration_interrupt (i : nat) (img_url : string) (count : Z) :
  session_get rt i img_url = Raised KeyboardInterrupt ->
  snd (iteration rt cfg i img_url count) = []
  \/ iteration rt cfg i img_url count
     = (Break count, [EvGet i img_url; EvPrint "Interrupted by user."]).
Proof.
  intros H. unfold iteration, attempt.
  destruct (max_images cfg <=? count); [now left|].
  destruct (only_same_domain cfg);
    [ destruct (same_domain (base_url cfg) img_url) as [[|]|e0]; cbn [bind negb];
      [ | now left | now left ] | ];
    rewrite H; right; reflexivity.
Qed.

(** Every event of the loop comes from the iteration for one of the
    candidates, all of whose events are events of the loop. *)
Lemma loop_event_origin (ev : event) (img_urls : list string) (i : nat) (count : Z) :
  In ev (snd (loop rt cfg i img_urls count)) ->
  exists k img_url count',
    nth_error img_urls k = Some img_url
    /\ In ev (snd (iteration rt cfg (i + k) img_url count'))
    /\ incl (snd (iteration rt cfg (i + k) img_url count'))
            (snd (loop rt cfg i img_urls count)).
Proof.
  revert i count. induction img_urls as [|u rest IH]; intros i count; [intros []|].
  cbn [loop].
  destruct (iteration rt cfg i u count) as [[c'|c'|e] evs] eqn:Hit; cbn [snd].
  - pose proof (IH (S i) c') as IH'.
    destruct (loop rt cfg (S i) rest c') as [r evs']. cbn [snd] in *.
    rewrite in_app_iff. intros [H|H].
    + exists 0%nat, u, count. rewrite Nat.add_0_r, Hit. cbn [snd nth_error].
      split; [reflexivity|]. split; [exact H|]. apply incl_appl, incl_refl.
    + destruct (IH' H) as (k & v & c'' & Hk & Hin & Hincl).
      exists (S k), v, c''. rewrite Nat.add_succ_r.
      split; [exact Hk|]. split; [exact Hin|]. now apply incl_appr.
  - intros H. exists 0%nat, u, count. rewrite Nat.add_0_r, Hit. cbn [snd nth_error].
    split; [reflexivity|]. split; [exact H | apply incl_refl].
  - intros H. exists 0%nat, u, count. rewrite Nat.add_0_r, Hit. cbn [snd nth_error].
    split; [reflexivity|]. split; [exact H | apply incl_refl].
Qed.

Lemma loop_request (img_urls : list string) (i j : nat) (u : string) (count : Z) :
  In (EvGet j u) (snd (loop rt cfg i img_urls count)) ->
  (i <= j)%nat
  /\ nth_error img_urls (j - i) = Some u
  /\ (only_same_domain cfg = true -> same_domain (base_url cfg) u = Ok true).
Proof.
  intros H. apply loop_event_origin in H as (k & v & c & Hk & Hin & _).
  apply iteration_request in Hin as (-> & -> & Hdom).
  replace (i + k - i)%nat with k by lia. repeat split; [lia | exact Hk | exact Hdom].
Qed.

Lemma loop_fetched_sorted (img_urls : list string) (i : nat) (count : Z) :
  StronglySorted lt (fetched (snd (loop rt cfg i img_urls count))).
Proof.
  revert i count. induction img_urls as [|u rest IH]; intros i count; [constructor|].
  cbn [loop].
  pose proof (iteration_fetched_at_most_one i u count) as Hit.
  destruct (iteration rt cfg i u count) as [[c'|c'|e] evs]; cbn [snd] in *.
  2,3: destruct Hit as [->| ->]; repeat constructor.
  pose proof (IH (S i) c') as IH'.
  pose proof (fun j => loop_fetched rt cfg rest (S i) j c') as Hrange.
  destruct (loop rt cfg (S i) rest c') as [r evs']. cbn [snd] in *.
  rewrite fetched_app. destruct Hit as [->| ->]; cbn [app]; [exact IH'|].
  constructor; [exact IH'|]. apply Forall_forall. intros j Hj.
  apply Hrange in Hj. lia.
Qed.

Lemma loop_at_cap (img_urls : list string) (i : nat) (count : Z) :
  max_images cfg <= count -> loop rt cfg i img_urls count = (Ok count, []).
Proof.
  intros H. destruct img_urls as [|u rest]; [reflexivity|].
  cbn [loop]. unfold iteration.
  destruct (Z.leb_spec (max_images cfg) count); [reflexivity | lia].
Qed.

Lemma loop_raises (img_urls : list string) (i : nat) (count : Z) (e : exn) :
  fst (loop rt cfg i img_urls count) = Raised e ->
  (exists j, (i <= j < i + List.length img_urls)%nat
             /\ time_sleep rt j SleepSkipped (delay cfg) = Raised e)
  \/ (only_same_domain cfg = true
      /\ exists u, In u img_urls /\ same_domain (base_url cfg) u = Raised e).
Proof.
  revert i count. induction img_urls as [|u rest IH]; intros i count; [discriminate|].
  cbn [loop List.length].
  pose proof (iteration_propagates i u count e) as Hit.
  destruct (iteration rt cfg i u count) as [[c'|c'|e'] evs]; cbn [fst] in *.
  - pose proof (IH (S i) c') as IH'.
    destruct (loop rt cfg (S i) rest c') as [r evs']. cbn [fst] in *.
    intros H. destruct (IH' H) as [(j & Hj & Hsl)|(Honly & v & Hv & Hsame)].
    + left. exists j. split; [lia | exact Hsl].
    + right. split; [exact Honly|]. exists v. split; [now right | exact Hsame].
  - discriminate.
  - intros [= ->]. destruct (Hit eq_refl) as [Hsl|(Honly & Hsame)].
    + left. exists i. split; [lia | exact Hsl].
    + right. split; [exact Honly|]. exists u. split; [now left | exact Hsame].
Qed.

Lemma loop_refused_delay (img_urls : list string) (i : nat) (count : Z) (err : exn) :
  sleep_rejects (delay cfg) = Some err ->
  sleeps (snd (loop rt cfg i img_urls count)) = 0%nat
  /\ (saved_files (snd (loop rt cfg i img_urls count)) = []
      \/ (fst (loop rt cfg i img_urls count) = Raised err
          /\ exists filepath,
              saved_files (snd (loop rt cfg i img_urls count)) = [filepath])).
Proof.
  intros Href. revert i count.
  induction img_urls as [|u rest IH]; intros i count; [now split; [|left]|].
  cbn [loop].
  destruct (iteration_refused_delay i u count err Href) as [Hsl Hit].
  destruct (iteration rt cfg i u count) as [[c'|c'|e'] evs]; cbn [fst snd] in *.
  - destruct (IH (S i) c') as [Hsl' IH'].
    destruct (loop rt cfg (S i) rest c') as [r evs']. cbn [fst snd] in *.
    destruct Hit as [Hs|[Hf _]]; [|discriminate Hf].
    rewrite saved_files_app, Hs. cbn [app]. split; [|exact IH'].
    clear - Hsl Hsl'. induction evs as [|ev evs IHe]; [exact Hsl'|].
    destruct ev; cbn [sleeps app] in *; auto; discriminate.
  - destruct Hit as [Hs|[Hf _]]; [auto | discriminate Hf].
  - destruct Hit as [Hs|[[= ->] Hs]]; auto.
Qed.

Lemma loop_interrupted (img_urls rest : list string) (i k : nat) (u : string)
      (count : Z) :
  In (EvGet k u) (snd (loop rt cfg i img_urls count)) ->
  session_get rt k u = Raised KeyboardInterrupt ->
  (exists count', fst (loop rt cfg i img_urls count) = Ok count')
  /\ (forall j, In j (fetched (snd (loop rt cfg i img_urls count))) -> (j <= k)%nat)
  /\ loop rt cfg i (img_urls ++ rest) count = loop rt cfg i img_urls count.
Proof.
  intros Hin Hint. revert i count Hin.
  induction img_urls as [|v urls IH]; intros i count; [intros []|].
  cbn [loop app].
  pose proof (iteration_request i k v u count) as Hreq.
  pose proof (fun j => iteration_fetched rt cfg i j v count) as Hfet.
  pose proof (iteration_interrupt i v count) as Hbrk.
  destruct (iteration rt cfg i v count) as [[c'|c'|e'] evs] eqn:Hit; cbn [fst snd] in *.
  - pose proof (IH (S i) c') as IH'.
    pose proof (loop_fetched rt cfg urls (S i) k c') as Hrange.
    destruct (loop rt cfg (S i) urls c') as [r evs'] eqn:Hl. cbn [fst snd] in *.
    rewrite in_app_iff. intros [H|H].
    + destruct (Hreq H) as (-> & -> & _).
      destruct (Hbrk Hint) as [->|Heq]; [destruct H | discriminate Heq].
    + destruct (IH' H) as (Hok & Hle & Happ). rewrite Happ.
      split; [exact Hok|]. split; [|reflexivity].
      intros j. rewrite fetched_app, in_app_iff. intros [Hj|Hj]; [|now apply Hle].
      apply Hfet in Hj. apply fetched_In, Hrange in H. lia.
  - intros H. destruct (Hreq H) as (-> & -> & _).
    split; [eauto|]. split; [|reflexivity].
    intros j Hj. apply Hfet in Hj. lia.
  - intros H. destruct (Hreq H) as (-> & -> & _).
    destruct (Hbrk Hint) as [->|Heq]; [destruct H | discriminate Heq].
Qed.

End LoopFacts.

Lemma download_images_request (rt : Runtime) (cfg : Config)
      (img_urls : list string) (j : nat) (u : string) :
  In (EvGet j u) (snd (download_images rt cfg img_urls)) ->
  (1 <= j)%nat
  /\ nth_error img_urls (j - 1) = Some u
  /\ (only_same_domain cfg = true -> same_domain (base_url cfg) u = Ok true).
Proof.
  unfold download_images.
  destruct (makedirs rt (out_dir cfg)); [|intros [H|[]]; discriminate H].
  pose proof (loop_request rt cfg img_urls 1 j u 0) as Hreq.
  destruct (loop rt cfg 1 img_urls 0) as [r evs]. cbn [snd] in *.
  intros [H|H]; [discriminate H|]. now apply Hreq.
Qed.

(** X11: with a cap of zero or less [download_images] creates the output
    directory and does nothing else: no request is sent, nothing is
    written, and the count returned is 0. *)
Theorem no_request_without_quota (rt : Runtime) (cfg : Config)
        (img_urls : list string) :
  max_images cfg <= 0 ->
  snd (download_images rt cfg img_urls) = [EvMakedirs (out_dir cfg)]
  /\ forall count, fst (download_images rt cfg img_urls) = Ok count -> count = 0.
Proof.
  intros H. unfold download_images.
  destruct (makedirs rt (out_dir cfg)); [|split; [reflexivity | discriminate]].
  rewrite (loop_at_cap rt cfg img_urls 1 0 H). cbn [fst snd].
  split; [reflexivity | now intros ? [= <-]].
Qed.

Lemma no_request_without_quota_witness :
  max_images (mkConfig "https://site.test/page" "images" 0 (Finite (3 # 10)) 20 false 0 0) <= 0
  /\ snd (download_images all_downloadable
            (mkConfig "https://site.test/page" "images" 0 (Finite (3 # 10)) 20 false 0 0)
            ten_candidates)
     = [EvMakedirs "images"].
Proof.
  split; [simpl; lia|].
  apply (no_request_without_quota all_downloadable
           (mkConfig "https://site.test/page" "images" 0 (Finite (3 # 10)) 20 false 0 0)
           ten_candidates).
  simpl; lia.
Defined.

(** X12: when the run is restricted to the page's domain, every image
    request that [download_images] sends is for a URL that [same_domain]
    accepts against the base URL. *)
Theorem restricted_requests_stay_on_domain (rt : Runtime) (cfg : Config)
        (img_urls : list string) (j : nat) (u : string) :
  only_same_domain cfg = true ->
  In (EvGet j u) (snd (download_images rt cfg img_urls)) ->
  same_domain (base_url cfg) u = Ok true.
Proof.
  intros Honly. unfold download_images.
  destruct (makedirs rt (out_dir cfg)); [|intros [H|[]]; discriminate H].
  pose proof (loop_request rt cfg img_urls 1 j u 0) as Hreq.
  destruct (loop rt cfg 1 img_urls 0) as [r evs]. cbn [snd] in *.
  intros [H|H]; [discriminate H|]. now apply Hreq.
Qed.

Lemma restricted_requests_stay_on_domain_witness :
  same_domain (base_url same_site_only) "https://img.site.test/1.png" = Ok true.
Proof.
  apply (restricted_requests_stay_on_domain all_downloadable same_site_only
           ["https://other.test/0.png"; "https://img.site.test/1.png"] 2).
  - reflexivity.
  - vm_compute. auto 10.
Defined.

(** X13: image requests follow the candidate list: the positions requested
    are strictly increasing, so no candidate is requested twice, and the
    request at position [j], counted from 1, is for the [j]-th URL of the
    list. *)
Theorem requests_follow_the_list (rt : Runtime) (cfg : Config)
        (img_urls : list string) :
  StronglySorted lt (fetched (snd (download_images rt cfg img_urls)))
  /\ forall j u,
      In (EvGet j u) (snd (download_images rt cfg img_urls)) ->
      (1 <= j)%nat /\ nth_error img_urls (j - 1) = Some u.
Proof.
  unfold download_images.
  destruct (makedirs rt (out_dir cfg)).
  2:{ split; [constructor | intros j u [H|[]]; discriminate H]. }
  pose proof (loop_fetched_sorted rt cfg img_urls 1 0) as Hsorted.
  pose proof (fun j u => loop_request rt cfg img_urls 1 j u 0) as Hreq.
  destruct (loop rt cfg 1 img_urls 0) as [r evs]. cbn [snd fetched] in *.
  split; [exact Hsorted|].
  intros j u [H|H]; [discriminate H|]. destruct (Hreq j u H) as (? & ? & _). auto.
Qed.

(** X14: whatever [download_images] writes to a file is the unchanged body
    of the response to the request for one of the candidates, a response
    whose status was under 400 and, when Pillow is absent, whose content
    type was an image type. *)
Theorem written_bodies_are_response_bodies (rt : Runtime) (cfg : Config)
        (img_urls : list string) (filepath body : string) (ok : bool) :
  In (EvWrite filepath body ok) (snd (download_images rt cfg img_urls)) ->
  exists j u resp,
    nth_error img_urls j = Some u
    /\ In (EvGet (S j) u) (snd (download_images rt cfg img_urls))
    /\ session_get rt (S j) u = Ok resp
    /\ status_code resp < 400
    /\ content resp = Ok body
    /\ (PIL_AVAILABLE rt = false -> content_type_is_image resp = true).
Proof.
  unfold download_images.
  destruct (makedirs rt (out_dir cfg)); [|intros [H|[]]; discriminate H].
  pose proof (loop_event_origin rt cfg (EvWrite filepath body ok) img_urls 1 0) as Horigin.
  destruct (loop rt cfg 1 img_urls 0) as [r evs]. cbn [snd] in *.
  intros [H|H]; [discriminate H|].
  destruct (Horigin H) as (k & u & c & Hk & Hin & Hincl). cbn [Nat.add] in *.
  destruct (iteration_write rt cfg _ _ _ _ _ _ Hin) as (Hget & resp & Hresp).
  exists k, u, resp. split; [exact Hk|]. split; [|exact Hresp].
  right. now apply Hincl.
Qed.

Lemma written_bodies_are_response_bodies_witness :
  exists j u resp,
    nth_error ["https://site.test/1.png"] j = Some u
    /\ In (EvGet (S j) u)
          (snd (download_images all_downloadable defaults ["https://site.test/1.png"]))
    /\ session_get all_downloadable (S j) u = Ok resp
    /\ status_code resp < 400
    /\ content resp = Ok "PNG"
    /\ (PIL_AVAILABLE all_downloadable = false -> content_type_is_image resp = true).
Proof.
  apply (written_bodies_are_response_bodies all_downloadable defaults
           ["https://site.test/1.png"]
           (OsPath.join "images" (hash_to_name "https://site.test/1.png" 1 ".png"))
           "PNG" true).
  vm_compute. auto 10.
Defined.

(** X15: when the request for a candidate is interrupted from the keyboard,
    [download_images] still returns its count, no later candidate is
    requested, and the candidates that follow in the list play no part in
    the run. *)
Theorem interrupt_ends_the_run (rt : Runtime) (cfg : Config)
        (img_urls rest : list string) (k : nat) (u : string) :
  In (EvGet k u) (snd (download_images rt cfg img_urls)) ->
  session_get rt k u = Raised KeyboardInterrupt ->
  (exists count, fst (download_images rt cfg img_urls) = Ok count)
  /\ (forall j, In j (fetched (snd (download_images rt cfg img_urls))) -> (j <= k)%nat)
  /\ download_images rt cfg (img_urls ++ rest) = download_images rt cfg img_urls.
Proof.
  unfold download_images.
  destruct (makedirs rt (out_dir cfg)); [|intros [H|[]]; discriminate H].
  pose proof (loop_interrupted rt cfg img_urls rest 1 k u 0) as Hint.
  destruct (loop rt cfg 1 img_urls 0) as [r evs]. cbn [fst snd fetched] in *.
  intros [H|H] Hget; [discriminate H|].
  destruct (Hint H Hget) as (Hok & Hle & ->). auto.
Qed.

Lemma interrupt_ends_the_run_witness :
  (exists count,
      fst (download_images interrupted_at_two defaults
             ["https://site.test/1.png"; "https://site.test/2.png"]) = Ok count)
  /\ (forall j,
         In j (fetched (snd (download_images interrupted_at_two defaults
                               ["https://site.test/1.png"; "https://site.test/2.png"]))) ->
         (j <= 2)%nat)
  /\ download_images interrupted_at_two defaults
       (["https://site.test/1.png"; "https://site.test/2.png"]
          ++ ["https://site.test/3.png"])
     = download_images interrupted_at_two defaults
         ["https://site.test/1.png"; "https://site.test/2.png"].
Proof.
  apply (interrupt_ends_the_run interrupted_at_two defaults
           ["https://site.test/1.png"; "https://site.test/2.png"]
           ["https://site.test/3.png"] 2 "https://site.test/2.png").
  - vm_compute. auto 10.
  - reflexivity.
Defined.

(** What [time.sleep] makes of some lengths before any wait, as CPython
    3.11 does on a 64-bit system. *)
Example sleep_rejects_samples :
  sleep_rejects (Finite (3 # 10)) = None
  /\ sleep_rejects (Finite 0) = None
  /\ sleep_rejects (Finite (9000000000 # 1)) = None
  /\ sleep_rejects (Finite (-1 # 1))
     = Some (ValueError "sleep length must be non-negative")
  /\ sleep_rejects (Finite (10000000000 # 1))
     = Some (Exception "timestamp too large to convert to C _PyTime_t")
  /\ sleep_rejects (Finite (-10000000000 # 1))
     = Some (Exception "timestamp too large to convert to C _PyTime_t")
  /\ sleep_rejects PosInf
     = Some (Exception "timestamp too large to convert to C _PyTime_t")
  /\ sleep_rejects NaN = Some (ValueError "Invalid value NaN (not a number)").
Proof. repeat split; reflexivity. Qed.

(** X16: whatever the requests, the reading and decoding of the bodies,
    the file writes and the sleeps inside the [try] raise, an exception
    leaves [download_images] in three cases only: creating the output
    directory raised it; [time.sleep] raised it in the handler of
    [except Exception] for one of the candidates; or the run is restricted
    to the page's domain and [same_domain] raised it for a URL of the
    list. *)
Theorem download_images_raises_only (rt : Runtime) (cfg : Config)
        (img_urls : list string) (e : exn) :
  fst (download_images rt cfg img_urls) = Raised e ->
  makedirs rt (out_dir cfg) = Raised e
  \/ (exists j, (1 <= j <= List.length img_urls)%nat
                /\ time_sleep rt j SleepSkipped (delay cfg) = Raised e)
  \/ (only_same_domain cfg = true
      /\ exists u, In u img_urls /\ same_domain (base_url cfg) u = Raised e).
Proof.
  unfold download_images.
  destruct (makedirs rt (out_dir cfg)); [|intros [= ->]; now left].
  pose proof (loop_raises rt cfg img_urls 1 0 e) as Hraise.
  destruct (loop rt cfg 1 img_urls 0) as [r evs]. cbn [fst] in *.
  intros H. right. destruct (Hraise H) as [(j & Hj & Hsl)|Hdom]; [left | now right].
  exists j. split; [lia | exact Hsl].
Qed.

Lemma download_images_raises_only_witness :
  makedirs all_downloadable (out_dir negative_delay)
  = Raised (ValueError "sleep length must be non-negative")
  \/ (exists j, (1 <= j <= List.length ["https://site.test/1.png"])%nat
                /\ time_sleep all_downloadable j SleepSkipped (delay negative_delay)
                   = Raised (ValueError "sleep length must be non-negative"))
  \/ (only_same_domain negative_delay = true
      /\ exists u,
          In u ["https://site.test/1.png"]
          /\ same_domain (base_url negative_delay) u
             = Raised (ValueError "sleep length must be non-negative")).
Proof.
  apply (download_images_raises_only all_downloadable negative_delay
           ["https://site.test/1.png"]).
  reflexivity.
Defined.

(** X17: under a delay that [time.sleep] refuses (a negative one, a NaN, an
    infinity, one too large for the clock) the loop never pauses and does
    not get past its first saved file: at most one file is written, and
    when one is, [download_images] ends with the error of the refusal. *)
Theorem refused_delay_stops_after_first_file (rt : Runtime) (cfg : Config)
        (img_urls : list string) (err : exn) :
  sleep_rejects (delay cfg) = Some err ->
  sleeps (snd (download_images rt cfg img_urls)) = 0%nat
  /\ (List.length (saved_files (snd (download_images rt cfg img_urls))) <= 1)%nat
  /\ (saved_files (snd (download_images rt cfg img_urls)) <> [] ->
      fst (download_images rt cfg img_urls) = Raised err).
Proof.
  intros Href. unfold download_images.
  destruct (makedirs rt (out_dir cfg)).
  2:{ cbn. repeat split; [lia | congruence]. }
  destruct (loop_refused_delay rt cfg img_urls 1 0 err Href) as [Hsl Hs].
  destruct (loop rt cfg 1 img_urls 0) as [r evs].
  cbn [fst snd sleeps saved_files] in *. split; [exact Hsl|].
  destruct Hs as [->|[-> [f ->]]]; cbn [List.length]; split; auto; congruence.
Qed.

Lemma refused_delay_stops_after_first_file_witness :
  sleeps (snd (download_images all_downloadable negative_delay ten_candidates)) = 0%nat
  /\ (List.length (saved_files
                     (snd (download_images all_downloadable negative_delay
                             ten_candidates))) <= 1)%nat
  /\ (saved_files (snd (download_images all_downloadable negative_delay
                          ten_candidates)) <> [] ->
      fst (download_images all_downloadable negative_delay ten_candidates)
      = Raised (ValueError "sleep length must be non-negative")).
Proof.
  apply (refused_delay_stops_after_first_file all_downloadable negative_delay
           ten_candidates (ValueError "sleep length must be non-negative")).
  reflexivity.
Defined.

(** ** The robots check *)

(** X18: [robots_allows] is permissive: it answers [False] only when the
    robot parser is there, the URL parses, and the parser read at
    [scheme://netloc/robots.txt] answers [False] for the URL; whatever
    [Exception] parsing the URL or reading the policy raises gives
    [True]. *)
Theorem robots_allows_is_permissive (w : World) (url user_agent : string) :
  (robots_allows w url user_agent = Ok false <->
   exists can_fetch parsed,
     robotparser w = Some can_fetch
     /\ Urllib.urlparse url EmptyString = Ok parsed
     /\ can_fetch (Urllib.scheme parsed ++ "://" ++ Urllib.netloc parsed
                   ++ "/robots.txt") user_agent url = Ok false)
  /\ (forall e, robots_allows w url user_agent = Raised e -> is_Exception e = false).
Proof.
  unfold robots_allows.
  destruct (robotparser w) as [can_fetch|].
  2:{ split; [|discriminate]. split; [discriminate|].
      intros (? & ? & H & _). discriminate H. }
  destruct (Urllib.urlparse url "") as [parsed|e0]; cbn [bind].
  - destruct (can_fetch _ user_agent url) as [[|]|e1] eqn:Hfetch.
    + split; [|discriminate]. split; [discriminate|].
      intros (cf & pd & [= <-] & [= <-] & H). congruence.
    + split; [|discriminate]. split; [|reflexivity].
      intros _. exists can_fetch, parsed. auto.
    + destruct (is_Exception e1) eqn:He1.
      * split; [|discriminate]. split; [discriminate|].
        intros (cf & pd & [= <-] & [= <-] & H). congruence.
      * split; [|now intros e [= <-]]. split; [discriminate|].
        intros (cf & pd & [= <-] & [= <-] & H). congruence.
  - destruct (is_Exception e0) eqn:He0.
    + split; [|discriminate]. split; [discriminate|].
      intros (cf & pd & _ & H & _). discriminate H.
    + split; [|now intros e [= <-]]. split; [discriminate|].
      intros (cf & pd & _ & H & _). discriminate H.
Qed.

(** ** The command-line run *)

(** X19: every image request of [main] is for a URL that
    [extract_image_urls] returned for the page that [fetch_html] got, at
    that URL's position in the list, and is sent only when the robots
    check was switched off or passed. *)
Theorem main_requests_extracted_urls (w : World) (args : Args) (j : nat) (u : string) :
  In (EvGet j u) (snd (main w args)) ->
  robots_gate w (arg_no_robots args) (arg_url args) = Ok true
  /\ exists html img_urls,
      fetch_html w (arg_url args) (arg_timeout args) = Ok html
      /\ extract_image_urls (BeautifulSoup w) (urls_set w) html (arg_url args)
         = Ok img_urls
      /\ (1 <= j)%nat
      /\ nth_error img_urls (j - 1) = Some u.
Proof.
  unfold main.
  destruct (robots_gate w (arg_no_robots args) (arg_url args)) as [[|]|e];
    [ | intros [H|[]]; discriminate H | intros [] ].
  destruct (fetch_html w (arg_url args) (arg_timeout args)) as [html|e].
  2:{ destruct (is_Exception e); [intros [H|[]]; discriminate H | intros []]. }
  destruct (extract_image_urls _ _ html (arg_url args)) as [img_urls|e] eqn:Hext;
    [|intros []].
  pose proof (download_images_request (runtime w) (config_of_args args) img_urls j u)
    as Hreq.
  destruct (download_images (runtime w) (config_of_args args) img_urls) as [[saved|e] evs];
    cbn [snd] in *; intros [H|H]; try discriminate H.
  - apply in_app_iff in H as [H|[H|[]]]; [|discriminate H].
    split; [reflexivity|]. exists html, img_urls. destruct (Hreq H) as (? & ? & _).
    split; [reflexivity|]. split; [exact Hext|]. split; assumption.
  - split; [reflexivity|]. exists html, img_urls. destruct (Hreq H) as (? & ? & _).
    split; [reflexivity|]. split; [exact Hext|]. split; assumption.
Qed.

Lemma main_requests_extracted_urls_witness :
  robots_gate scenario_page (arg_no_robots scenario_args) (arg_url scenario_args)
  = Ok true
  /\ exists html img_urls,
      fetch_html scenario_page (arg_url scenario_args) (arg_timeout scenario_args)
      = Ok html
      /\ extract_image_urls (BeautifulSoup scenario_page) (urls_set scenario_page)
           html (arg_url scenario_args) = Ok img_urls
      /\ (1 <= 2)%nat
      /\ nth_error img_urls (2 - 1) = Some "https://site.test/b.png".
Proof.
  apply (main_requests_extracted_urls scenario_page scenario_args 2
           "https://site.test/b.png").
  vm_compute. auto 10.
Defined.

(** ** The Streamlit handler *)

Lemma io_events_app (a b : list event) :
  io_events (a ++ b) = (io_events a ++ io_events b)%list.
Proof. apply filter_app. Qed.

Lemma saved_files_io (evs : list event) :
  saved_files (io_events evs) = saved_files evs.
Proof.
  induction evs as [|ev evs IH]; [reflexivity|].
  destruct ev as [| | ? ? []| | | | | | | | |];
    cbn [io_events filter is_io saved_files]; fold (io_events evs);
    now rewrite ?IH.
Qed.

Lemma fetched_io (evs : list event) :
  fetched (io_events evs) = fetched evs.
Proof.
  induction evs as [|ev evs IH]; [reflexivity|].
  destruct ev; cbn [io_events filter is_io fetched]; fold (io_events evs);
    now rewrite ?IH.
Qed.

Lemma sleeps_app (a b : list event) :
  sleeps (a ++ b) = (sleeps a + sleeps b)%nat.
Proof.
  induction a as [|ev a IH]; [reflexivity|].
  destruct ev; cbn [sleeps app]; now rewrite ?IH.
Qed.

Section AppFacts.

Variable w : World.

Lemma app_iteration_with_delay (d : PyFloat) (args : Args) (total i : nat)
      (img_url : string) (saved : Z) :
  app_iteration w (with_delay d args) total i img_url saved
  = app_iteration w args total i img_url saved.
Proof. destruct args. reflexivity. Qed.

Lemma app_loop_with_delay (d : PyFloat) (args : Args) (total : nat)
      (img_urls : list string) (i : nat) (saved : Z) :
  app_loop w (with_delay d args) total i img_urls saved
  = app_loop w args total i img_urls saved.
Proof.
  revert i saved. induction img_urls as [|u rest IH]; intros i saved; [reflexivity|].
  cbn [app_loop]. rewrite app_iteration_with_delay.
  destruct (app_iteration w args total i u saved) as [[c|c|e] evs];
    [now rewrite IH | reflexivity | reflexivity].
Qed.

Lemma start_handler_with_delay (d : PyFloat) (args : Args) :
  start_handler w (with_delay d args) = start_handler w args.
Proof.
  unfold start_handler.
  destruct (negb (PyStr.truthy (arg_url args))) eqn:Hurl;
    change (arg_url (with_delay d args)) with (arg_url args);
    rewrite Hurl; [reflexivity|].
  change (arg_no_robots (with_delay d args)) with (arg_no_robots args).
  destruct (robots_gate w (arg_no_robots args) (arg_url args)) as [[|]|e];
    [ | reflexivity | reflexivity ].
  change (arg_timeout (with_delay d args)) with (arg_timeout args).
  destruct (fetch_html w (arg_url args) (arg_timeout args)) as [html|e];
    [|reflexivity].
  destruct (extract_image_urls _ _ html (arg_url args)) as [img_urls|e];
    [|reflexivity].
  now rewrite app_loop_with_delay.
Qed.

Lemma app_iteration_sleeps (args : Args) (total i : nat) (img_url : string)
      (saved : Z) :
  sleeps (snd (app_iteration w args total i img_url saved)) = 0%nat.
Proof.
  unfold app_iteration, app_attempt.
  destruct (arg_max args <=? saved); [reflexivity|].
  destruct (if arg_same_domain args then _ else _) as [[|]|e0]; try reflexivity.
  destruct (session_get (runtime w) i img_url) as [resp|e];
    [|destruct (is_Exception e); reflexivity].
  destruct (400 <=? status_code resp); [reflexivity|].
  destruct (content resp) as [body|e]; [|destruct (is_Exception e); reflexivity].
  destruct (infer_extension (runtime w) resp img_url) as [ext|e];
    [|destruct (is_Exception e); reflexivity].
  destruct (too_small (runtime w) (config_of_args args) body) as [[|]|e];
    [reflexivity | | destruct (is_Exception e); reflexivity].
  destruct (write_file (runtime w) _ body) as [[]|e];
    [reflexivity | destruct (is_Exception e); reflexivity].
Qed.

Lemma app_loop_sleeps (args : Args) (total : nat) (img_urls : list string)
      (i : nat) (saved : Z) :
  sleeps (snd (app_loop w args total i img_urls saved)) = 0%nat.
Proof.
  revert i saved. induction img_urls as [|u rest IH]; intros i saved; [reflexivity|].
  cbn [app_loop].
  pose proof (app_iteration_sleeps args total i u saved) as Hit.
  destruct (app_iteration w args total i u saved) as [[c|c|e] evs];
    cbn [snd] in *; try exact Hit.
  pose proof (IH (S i) c) as IH'.
  destruct (app_loop w args total (S i) rest c) as [r evs']. cbn [snd] in *.
  now rewrite sleeps_app, Hit, IH'.
Qed.

Lemma app_except_sleeps (e : exn) (evs : list event) :
  sleeps (snd (app_except e evs)) = sleeps evs.
Proof.
  unfold app_except. destruct (is_Exception e); cbn [snd]; [|reflexivity].
  rewrite sleeps_app. cbn. lia.
Qed.

Lemma app_except_io (e : exn) (evs : list event) :
  io_events (snd (app_except e evs)) = io_events evs.
Proof.
  unfold app_except. destruct (is_Exception e); cbn [snd]; [|reflexivity].
  rewrite io_events_app. cbn. apply app_nil_r.
Qed.

Lemma app_except_not_finished (e : exn) (evs : list event) :
  fst (app_except e evs) <> Finished.
Proof. unfold app_except. destruct (is_Exception e); discriminate. Qed.

(** With Pillow there and every sleep returning, an iteration of the
    handler's loop and one of [download_images] send the same request and
    write the same file, and go on in the same way, except that an
    interrupt breaks the one and leaves the other. *)
Lemma app_iteration_io (args : Args) (total i : nat) (img_url : string) (count : Z) :
  PIL_AVAILABLE (runtime w) = true ->
  (forall site, time_sleep (runtime w) i site (arg_delay args) = Ok tt) ->
  io_events (snd (app_iteration w args total i img_url count))
  = io_events (snd (iteration (runtime w) (config_of_args args) i img_url count))
  /\ ((exists c, fst (app_iteration w args total i img_url count) = Next c
                 /\ fst (iteration (runtime w) (config_of_args args) i img_url count)
                    = Next c)
      \/ (exists c, fst (app_iteration w args total i img_url count) = Break c
                    /\ fst (iteration (runtime w) (config_of_args args) i img_url count)
                       = Break c)
      \/ (exists e, fst (app_iteration w args total i img_url count) = Propagate e
                    /\ forall c, fst (iteration (runtime w) (config_of_args args)
                                        i img_url count) <> Next c)).
Proof.
  intros Hpil Hsleep.
  unfold app_iteration, app_attempt, iteration, attempt, save, hash_to_name.
  cbn [config_of_args max_images only_same_domain base_url out_dir delay].
  rewrite Hpil, !Hsleep.
  destruct (arg_max args <=? count); [cbn; eauto 10|].
  destruct (if arg_same_domain args then _ else _) as [[|]|e0];
    [ cbn; eauto 10 | | cbn; split; [reflexivity|]; right; right; eexists;
                        repeat split; discriminate ].
  destruct (session_get (runtime w) i img_url) as [resp|e].
  2:{ destruct (is_Exception e); cbn; split; try reflexivity; eauto 10.
      right; right; eexists; repeat split; discriminate. }
  destruct (400 <=? status_code resp); [cbn; eauto 10|].
  rewrite andb_false_r.
  destruct (content resp) as [body|e].
  2:{ destruct (is_Exception e); cbn; split; try reflexivity; eauto 10.
      right; right; eexists; repeat split; discriminate. }
  destruct (infer_extension (runtime w) resp img_url) as [ext|e].
  2:{ destruct (is_Exception e); cbn; split; try reflexivity; eauto 10.
      right; right; eexists; repeat split; discriminate. }
  destruct (too_small (runtime w) _ body) as [[|]|e].
  - cbn; eauto 10.
  - destruct (write_file (runtime w) _ body) as [[]|e]; [cbn; eauto 10|].
    destruct (is_Exception e); cbn; split; try reflexivity; eauto 10.
    right; right; eexists; repeat split; discriminate.
  - destruct (is_Exception e); cbn; split; try reflexivity; eauto 10.
    right; right; eexists; repeat split; discriminate.
Qed.

Lemma app_loop_io (args : Args) (total : nat) (img_urls : list string)
      (i : nat) (count : Z) :
  PIL_AVAILABLE (runtime w) = true ->
  (forall j site, time_sleep (runtime w) j site (arg_delay args) = Ok tt) ->
  io_events (snd (app_loop w args total i img_urls count))
  = io_events (snd (loop (runtime w) (config_of_args args) i img_urls count))
  /\ forall saved,
      fst (app_loop w args total i img_urls count) = Ok saved ->
      fst (loop (runtime w) (config_of_args args) i img_urls count) = Ok saved.
Proof.
  intros Hpil Hsleep. revert i count.
  induction img_urls as [|u rest IH]; intros i count; [now split|].
  cbn [app_loop loop].
  destruct (app_iteration_io args total i u count Hpil (Hsleep i)) as [Hio Hflow].
  destruct (app_iteration w args total i u count) as [fa eva].
  destruct (iteration (runtime w) (config_of_args args) i u count) as [fb evb].
  cbn [fst snd] in *.
  destruct Hflow as [(c & -> & ->)|[(c & -> & ->)|(e & -> & Hnot)]].
  - destruct (IH (S i) c) as [Hio' Hres].
    destruct (app_loop w args total (S i) rest c) as [ra evs'].
    destruct (loop (runtime w) (config_of_args args) (S i) rest c) as [rb evs''].
    cbn [fst snd] in *. rewrite !io_events_app, Hio, Hio'. auto.
  - cbn [fst snd]. auto.
  - destruct fb as [c|c|e']; [now destruct (Hnot c) | |]; cbn [fst snd];
      (split; [exact Hio | discriminate]).
Qed.

(** The traffic of the handler is that of its loop over the candidates
    extracted from the page, when it gets that far. *)
Lemma start_handler_io (args : Args) :
  io_events (snd (start_handler w args)) = []
  \/ (PyStr.truthy (arg_url args) = true
      /\ PIL_AVAILABLE (runtime w) = true
      /\ robots_gate w (arg_no_robots args) (arg_url args) = Ok true
      /\ exists html img_urls,
          fetch_html w (arg_url args) (arg_timeout args) = Ok html
          /\ extract_image_urls (BeautifulSoup w) (urls_set w) html (arg_url args)
             = Ok img_urls
          /\ makedirs (runtime w) (arg_out args) = Ok tt
          /\ io_events (snd (start_handler w args))
             = io_events (snd (app_loop w args (List.length img_urls) 1 img_urls 0))).
Proof.
  unfold start_handler.
  destruct (PyStr.truthy (arg_url args)); cbn [negb]; [|now left].
  destruct (robots_gate w (arg_no_robots args) (arg_url args)) as [[|]|e];
    [ | now left | left; now rewrite app_except_io ].
  destruct (fetch_html w (arg_url args) (arg_timeout args)) as [html|e];
    [ | left; now rewrite app_except_io ].
  destruct (extract_image_urls _ _ html (arg_url args)) as [img_urls|e] eqn:Hext;
    [ | left; now rewrite app_except_io ].
  destruct (List.length img_urls =? 0)%nat; [now left|].
  destruct (PIL_AVAILABLE (runtime w)); cbn [negb];
    [ | left; now rewrite app_except_io ].
  destruct (makedirs (runtime w) (arg_out args)) as [[]|e];
    [ | left; now rewrite app_except_io ].
  right. repeat (split; [reflexivity|]). exists html, img_urls.
  split; [reflexivity|]. split; [exact Hext|]. split; [reflexivity|].
  destruct (app_loop w args (List.length img_urls) 1 img_urls 0) as [[saved|e] evs];
    cbn [snd].
  - rewrite !io_events_app. destruct (0 <? saved); cbn; now rewrite app_nil_r.
  - rewrite app_except_io, io_events_app. reflexivity.
Qed.

End AppFacts.

(** The handler never sleeps: its loop is the same in a world where no
    wait is disturbed. *)
Lemma app_loop_undisturbed (w : World) (args : Args) (total : nat)
      (img_urls : list string) (i : nat) (saved : Z) :
  app_loop (undisturbed_world w) args total i img_urls saved
  = app_loop w args total i img_urls saved.
Proof.
  revert i saved. induction img_urls as [|u rest IH]; intros i saved; [reflexivity|].
  cbn [app_loop].
  change (app_iteration (undisturbed_world w) args total i u saved)
    with (app_iteration w args total i u saved).
  destruct (app_iteration w args total i u saved) as [[c|c|e] evs];
    [now rewrite IH | reflexivity | reflexivity].
Qed.

(** The files of the handler's loop are named by consecutive indices and
    stay under the cap. *)
Lemma app_loop_saved (w : World) (args : Args) (total : nat)
      (img_urls : list string) (i : nat) (count : Z) :
  PIL_AVAILABLE (runtime w) = true ->
  exists saves,
    saved_files (snd (app_loop w args total i img_urls count))
    = named (arg_out args) count saves
    /\ count + Z.of_nat (List.length saves) <= Z.max count (arg_max args).
Proof.
  intros Hpil.
  destruct (loop_invariant (undisturbed (runtime w))
              (config_of_args (with_delay (Finite 0) args)) img_urls i count)
    as (saves & Hs & Hle & _).
  exists saves. split; [|exact Hle].
  rewrite <- app_loop_undisturbed, <- (app_loop_with_delay _ (Finite 0)),
    <- saved_files_io.
  rewrite (proj1 (app_loop_io (undisturbed_world w) (with_delay (Finite 0) args)
                    total img_urls i count Hpil (fun _ _ => eq_refl))).
  rewrite saved_files_io. exact Hs.
Qed.

(** X20: the handler makes no use of the delay setting: its run is the
    same under any delay, and it never pauses between downloads. *)
Theorem handler_ignores_delay (w : World) (args : Args) (d : PyFloat) :
  start_handler w (with_delay d args) = start_handler w args
  /\ sleeps (snd (start_handler w args)) = 0%nat.
Proof.
  split; [apply start_handler_with_delay|].
  unfold start_handler.
  destruct (negb (PyStr.truthy (arg_url args))); [reflexivity|].
  destruct (robots_gate w (arg_no_robots args) (arg_url args)) as [[|]|e];
    [ | reflexivity | now rewrite app_except_sleeps ].
  destruct (fetch_html w (arg_url args) (arg_timeout args)) as [html|e];
    [ | now rewrite app_except_sleeps ].
  destruct (extract_image_urls _ _ html (arg_url args)) as [img_urls|e];
    [ | now rewrite app_except_sleeps ].
  destruct (List.length img_urls =? 0)%nat; [reflexivity|].
  destruct (negb (PIL_AVAILABLE (runtime w))); [now rewrite app_except_sleeps|].
  destruct (makedirs (runtime w) (arg_out args)) as [[]|e];
    [ | now rewrite app_except_sleeps ].
  pose proof (app_loop_sleeps w args (List.length img_urls) img_urls 1 0) as Hloop.
  destruct (app_loop w args (List.length img_urls) 1 img_urls 0) as [[saved|e] evs];
    cbn [snd] in *.
  - rewrite !sleeps_app, Hloop. destruct (0 <? saved); reflexivity.
  - rewrite app_except_sleeps, sleeps_app, Hloop. reflexivity.
Qed.

(** X21: without Pillow the handler downloads nothing and never runs to
    its end: it sends no image request and writes no file, because the
    import of [Image] and [BytesIO] from the scraper module fails before
    its loop. *)
Theorem handler_needs_pillow (w : World) (args : Args) :
  PIL_AVAILABLE (runtime w) = false ->
  fetched (snd (start_handler w args)) = []
  /\ saved_files (snd (start_handler w args)) = []
  /\ fst (start_handler w args) <> Finished.
Proof.
  intros Hpil.
  assert (Hio : io_events (snd (start_handler w args)) = []).
  { destruct (start_handler_io w args) as [H|(_ & H & _)]; [exact H | congruence]. }
  rewrite <- fetched_io, <- saved_files_io, Hio.
  split; [reflexivity|]. split; [reflexivity|].
  unfold start_handler. rewrite Hpil. cbn [negb].
  destruct (negb (PyStr.truthy (arg_url args))); [discriminate|].
  destruct (robots_gate w (arg_no_robots args) (arg_url args)) as [[|]|e];
    [ | discriminate | apply app_except_not_finished ].
  destruct (fetch_html w (arg_url args) (arg_timeout args)) as [html|e];
    [ | apply app_except_not_finished ].
  destruct (extract_image_urls _ _ html (arg_url args)) as [img_urls|e];
    [ | apply app_except_not_finished ].
  destruct (List.length img_urls =? 0)%nat;
    [discriminate | apply app_except_not_finished].
Qed.

Lemma handler_needs_pillow_witness :
  fetched (snd (start_handler scenario_page_no_pillow scenario_args)) = []
  /\ saved_files (snd (start_handler scenario_page_no_pillow scenario_args)) = []
  /\ fst (start_handler scenario_page_no_pillow scenario_args) <> Finished.
Proof.
  apply (handler_needs_pillow scenario_page_no_pillow scenario_args).
  reflexivity.
Defined.



(** X23: the handler saves at most the configured maximum of files (none
    when the maximum is not positive), and the paths it writes to are
    pairwise distinct. *)
Theorem handler_cap_and_names (w : World) (args : Args) :
  Z.of_nat (List.length (saved_files (snd (start_handler w args))))
    <= Z.max 0 (arg_max args)
  /\ NoDup (saved_files (snd (start_handler w args))).
Proof.
  rewrite <- saved_files_io.
  destruct (start_handler_io w args)
    as [->|(_ & Hpil & _ & html & img_urls & _ & _ & _ & ->)].
  { cbn. split; [lia | constructor]. }
  rewrite saved_files_io.
  destruct (app_loop_saved w args (List.length img_urls) img_urls 1 0 Hpil)
    as (saves & -> & Hle).
  rewrite named_length. split; [lia | apply named_NoDup].
Qed.

(** ** The import shim *)

Section ImportFacts.

Variable import_module : string -> result Shim.ScraperModule.

Lemma load_ok (name : string) (md : Shim.ScraperModule) :
  Shim.load import_module name = Ok md <->
  import_module name = Ok md /\ has_expected_attributes md = true.
Proof.
  unfold Shim.load, has_expected_attributes, Shim.getattr.
  destruct (import_module name) as [md'|e]; cbn [bind].
  2:{ split; [discriminate | intros [H _]; discriminate H]. }
  destruct md' as [nm [f1|] [f2|] [f3|] [f4|] c5 c6 c7 c8 c9 c10];
    cbn [bind Shim.mod_extract_image_urls Shim.mod_fetch_html
         Shim.mod_robots_allows Shim.mod_DEFAULT_HEADERS];
    (split;
     [ intros H; try discriminate H; injection H as <-; now split
     | intros [[= <-] H]; try discriminate H; reflexivity ]).
Qed.

Lemma try_candidates_ok (names : list string) (last_err : option exn)
      (md : Shim.ScraperModule) :
  Shim.try_candidates import_module names last_err = Ok md ->
  exists pre name post,
    names = (pre ++ name :: post)%list
    /\ Shim.load import_module name = Ok md
    /\ forall n, In n pre ->
                 exists e, Shim.load import_module n = Raised e
                           /\ is_Exception e = true.
Proof.
  revert last_err. induction names as [|name rest IH]; intros last_err; [discriminate|].
  cbn [Shim.try_candidates].
  destruct (Shim.load import_module name) as [md'|e] eqn:Hload.
  - intros [= ->]. exists [], name, rest. repeat split; [exact Hload | intros n []].
  - destruct (is_Exception e) eqn:He; [|discriminate].
    intros H. destruct (IH _ H) as (pre & name' & post & -> & Hl & Hpre).
    exists (name :: pre), name', post. repeat split; [exact Hl|].
    intros n [<-|Hn]; [eauto | auto].
Qed.

End ImportFacts.

(** X24: when [_try_import] returns a module, it is the one imported under
    the first of the three candidate names whose import succeeds with the
    four expected attributes defined; every name before it failed with an
    [Exception], at the import or at one of the attributes. *)
Theorem try_import_first_valid (import_module : string -> result Shim.ScraperModule)
        (md : Shim.ScraperModule) :
  Shim._try_import import_module = Ok md ->
  exists pre name post,
    Shim.candidates = (pre ++ name :: post)%list
    /\ import_module name = Ok md
    /\ has_expected_attributes md = true
    /\ forall n, In n pre ->
                 exists e, is_Exception e = true
                           /\ (import_module n = Raised e
                               \/ exists md', import_module n = Ok md'
                                              /\ has_expected_attributes md' = false
                                              /\ Shim.load import_module n = Raised e).
Proof.
  intros H. apply try_candidates_ok in H as (pre & name & post & Hc & Hl & Hpre).
  apply load_ok in Hl as [Himp Hattr].
  exists pre, name, post. repeat split; try assumption.
  intros n Hn. destruct (Hpre n Hn) as (e & Hle & He).
  exists e. split; [exact He|].
  destruct (import_module n) as [md'|e'] eqn:Hn'.
  - right. exists md'. repeat split; [|exact Hle].
    destruct (has_expected_attributes md') eqn:Hm; [|reflexivity].
    assert (Hok : Shim.load import_module n = Ok md') by now apply load_ok.
    congruence.
  - left. unfold Shim.load in Hle. rewrite Hn' in Hle. exact Hle.
Qed.

Lemma try_import_first_valid_witness :
  exists pre name post,
    Shim.candidates = (pre ++ name :: post)%list
    /\ only_scraper_utils plain_page name = Ok (image_scraper_module plain_page)
    /\ has_expected_attributes (image_scraper_module plain_page) = true
    /\ forall n, In n pre ->
                 exists e, is_Exception e = true
                           /\ (only_scraper_utils plain_page n = Raised e
                               \/ exists md', only_scraper_utils plain_page n = Ok md'
                                              /\ has_expected_attributes md' = false
                                              /\ Shim.load (only_scraper_utils plain_page) n
                                                 = Raised e).
Proof.
  apply (try_import_first_valid (only_scraper_utils plain_page)
           (image_scraper_module plain_page)).
  reflexivity.
Defined.

(** X25: [_try_import] raises in two ways only: an exception that is not
    an [Exception] passes through from the import that raised it; or all
    three candidates failed with an [Exception], and then the error is a
    [ModuleNotFoundError] whose message quotes the failure of the last
    candidate, [image_scraper.image_scraper]. *)
Theorem try_import_failure (import_module : string -> result Shim.ScraperModule)
        (e : exn) :
  Shim._try_import import_module = Raised e ->
  (is_Exception e = false
   /\ exists name, In name Shim.candidates
                   /\ Shim.load import_module name = Raised e)
  \/ (exists e3,
         Shim.load import_module "image_scraper.image_scraper" = Raised e3
         /\ e = ImportError ("Impossible d'importer le module scraper ("
                             ++ exn_str e3 ++ ")")
         /\ forall n, In n Shim.candidates ->
                      exists e', Shim.load import_module n = Raised e'
                                 /\ is_Exception e' = true).
Proof.
  unfold Shim._try_import, Shim.candidates. cbn [Shim.try_candidates].
  destruct (Shim.load import_module "image_scraper") as [m1|e1] eqn:H1;
    [discriminate|].
  destruct (is_Exception e1) eqn:He1.
  2:{ intros [= <-]. left. split; [exact He1|]. exists "image_scraper".
      split; [now left | exact H1]. }
  destruct (Shim.load import_module "scraper_utils") as [m2|e2] eqn:H2;
    [discriminate|].
  destruct (is_Exception e2) eqn:He2.
  2:{ intros [= <-]. left. split; [exact He2|]. exists "scraper_utils".
      split; [right; now left | exact H2]. }
  destruct (Shim.load import_module "image_scraper.image_scraper") as [m3|e3] eqn:H3;
    [discriminate|].
  destruct (is_Exception e3) eqn:He3.
  2:{ intros [= <-]. left. split; [exact He3|]. exists "image_scraper.image_scraper".
      split; [right; right; now left | exact H3]. }
  intros [= <-]. right. exists e3. split; [reflexivity|]. split; [reflexivity|].
  intros n [<-|[<-|[<-|[]]]]; eauto.
Qed.

Lemma try_import_failure_witness :
  (is_Exception
     (ImportError ("Impossible d'importer le module scraper ("
                   ++ "No module named 'image_scraper.image_scraper'" ++ ")")) = false
   /\ exists name,
       In name Shim.candidates
       /\ Shim.load nothing_installed name
          = Raised (ImportError ("Impossible d'importer le module scraper ("
                                 ++ "No module named 'image_scraper.image_scraper'"
                                 ++ ")")))
  \/ (exists e3,
         Shim.load nothing_installed "image_scraper.image_scraper" = Raised e3
         /\ ImportError ("Impossible d'importer le module scraper ("
                         ++ "No module named 'image_scraper.image_scraper'" ++ ")")
            = ImportError ("Impossible d'importer le module scraper ("
                           ++ exn_str e3 ++ ")")
         /\ forall n, In n Shim.candidates ->
                      exists e', Shim.load nothing_installed n = Raised e'
                                 /\ is_Exception e' = true).
Proof.
  apply (try_import_failure nothing_installed).
  reflexivity.
Defined.

(** ** The handler behind the shim *)




Lemma shim_too_small_without_limits (b : Shim.Bindings) (args : Args)
      (body : string) :
  arg_min_width args = 0 -> arg_min_height args = 0 ->
  Shim.too_small b args body = Ok false.
Proof.
  intros Hw Hh. unfold Shim.too_small. rewrite Hw, Hh. cbn [nonzero Z.eqb negb orb].
  now rewrite andb_false_r.
Qed.

Lemma shim_loop_without_pillow (rt : Runtime) (b : Shim.Bindings) (args : Args)
      (total : nat) (img_urls : list string) (i : nat) (saved : Z) :
  arg_min_width args = 0 -> arg_min_height args = 0 ->
  Shim.loop rt (without_pillow b) args total i img_urls saved
  = Shim.loop rt b args total i img_urls saved.
Proof.
  intros Hw Hh. revert i saved.
  induction img_urls as [|u rest IH]; intros i saved; [reflexivity|].
  cbn [Shim.loop].
  assert (Hit : Shim.iteration rt (without_pillow b) args total i u saved
                = Shim.iteration rt b args total i u saved).
  { unfold Shim.iteration, Shim.attempt.
    cbn [without_pillow Shim.same_domain_func Shim.infer_extension].
    destruct (session_get rt i u) as [resp|e]; [|reflexivity].
    destruct (content resp) as [body|e]; [|reflexivity].
    now rewrite !(shim_too_small_without_limits _ args body Hw Hh). }
  rewrite Hit.
  destruct (Shim.iteration rt b args total i u saved) as [[c|c|e] evs];
    [now rewrite IH | reflexivity | reflexivity].
Qed.



(** X27: when no minimum width or height is set, Pillow plays no part in
    the handler behind the shim: its run is the same with the names that
    come from Pillow left unbound. *)
Theorem shim_handler_without_limits (rt : Runtime) (b : Shim.Bindings) (args : Args) :
  arg_min_width args = 0 -> arg_min_height args = 0 ->
  Shim.start_handler rt (without_pillow b) args = Shim.start_handler rt b args.
Proof.
  intros Hw Hh. unfold Shim.start_handler.
  cbn [without_pillow Shim.robots_allows Shim.DEFAULT_HEADERS Shim.fetch_html
       Shim.extract_image_urls].
  destruct (negb (PyStr.truthy (arg_url args))); [reflexivity|].
  destruct (if arg_no_robots args then _ else _) as [[|]|e]; try reflexivity.
  destruct (Shim.fetch_html b (arg_url args) (arg_timeout args)) as [html|e];
    [|reflexivity].
  destruct (Shim.extract_image_urls b html (arg_url args)) as [img_urls|e];
    [|reflexivity].
  now rewrite (shim_loop_without_pillow rt b args _ img_urls 1 0 Hw Hh).
Qed.

Lemma shim_handler_without_limits_witness :
  Shim.start_handler pillow_png (without_pillow (image_scraper_bindings scenario_page))
                     scenario_args
  = Shim.start_handler pillow_png (image_scraper_bindings scenario_page) scenario_args.
Proof.
  apply (shim_handler_without_limits pillow_png
           (image_scraper_bindings scenario_page) scenario_args); reflexivity.
Defined.

(** ** A page that cannot be fetched *)

(** X28: when the page request answers with a status from 400 to 599,
    [main] returns normally without having created the output directory,
    sent an image request or written a file. *)
Theorem main_stops_on_http_error (w : World) (args : Args) (r : Response) :
  robots_gate w (arg_no_robots args) (arg_url args) = Ok true ->
  requests_get w (arg_url args) = Ok r ->
  400 <= status_code r < 600 ->
  fst (main w args) = Ok tt
  /\ io_events (snd (main w args)) = []
  /\ ~ In (EvMakedirs (arg_out args)) (snd (main w args)).
Proof.
  intros Hgate Hget [Hlo Hhi]. unfold main, fetch_html.
  rewrite Hgate, Hget. cbn [bind].
  apply Z.leb_le in Hlo. apply Z.ltb_lt in Hhi. rewrite Hlo, Hhi.
  cbn [andb is_Exception fst snd io_events filter is_io].
  repeat split. intros [H|[]]. discriminate H.
Qed.

Lemma main_stops_on_http_error_witness :
  fst (main missing_page default_args) = Ok tt
  /\ io_events (snd (main missing_page default_args)) = []
  /\ ~ In (EvMakedirs (arg_out default_args)) (snd (main missing_page default_args)).
Proof.
  apply (main_stops_on_http_error missing_page default_args
           (mkResponse 404 [("Content-Type", "text/html")] (Ok "Not Found")));
    [reflexivity | reflexivity | simpl; lia].
Defined.
